(** * apihunter: endpoint discovery, merging and scoring

    A shallow embedding of [api_hunter/core.py], [api_hunter/scanner.py],
    the scan of [main.py], the grouping and the console report of
    [api_hunter/reporter.py] and the sessions and the token, cookie and
    header logins of [api_hunter/auth.py], followed by the properties of the
    merger, the validator, the extraction strategies, the well-known-document
    prober, the discovery run, the scan as a whole, the reports and the
    sessions.

    - Python [float] is IEEE binary64: confidences are primitive floats and a
      decimal literal denotes the nearest binary64 value, so every evaluation
      below is the one CPython performs.
    - Python [str] is modelled by [string]; the case mappings and the
      whitespace class are the ASCII ones (URLs, header values and robots.txt
      directives are ASCII).
    - A computation that can raise returns a [py] value; a loop inside a
      [try] whose handler swallows the exception stops where it raised and
      keeps what it had appended.
    - The network, the HTML parser, the regular expression engine and
      [urllib.parse] are not part of the repository: requests are answered by
      an oracle, the parsed document is a tree, and [re.findall], [re.search],
      [urljoin] and [urlparse] are parameters of the strategies. *)

From Stdlib Require Import Floats ZArith Bool Ascii String List Permutation Lia.
From Stdlib Require Import DecimalString Sorted.
Import ListNotations.

Set Warnings "-inexact-float,-register-all".
Set Implicit Arguments.

Local Open Scope string_scope.
Local Open Scope list_scope.

(** ** Python string methods used by the code *)
Module PyStr.

Definition is_upper (c : ascii) : bool :=
  let n := nat_of_ascii c in (65 <=? n)%nat && (n <=? 90)%nat.

Definition is_lower (c : ascii) : bool :=
  let n := nat_of_ascii c in (97 <=? n)%nat && (n <=? 122)%nat.

Definition lower_char (c : ascii) : ascii :=
  if is_upper c then ascii_of_nat (nat_of_ascii c + 32) else c.

Definition upper_char (c : ascii) : ascii :=
  if is_lower c then ascii_of_nat (nat_of_ascii c - 32) else c.

Fixpoint map_chars (f : ascii -> ascii) (s : string) : string :=
  match s with
  | EmptyString => EmptyString
  | String c t => String (f c) (map_chars f t)
  end.

(** [s.lower()] and [s.upper()] *)
Definition lower : string -> string := map_chars lower_char.
Definition upper : string -> string := map_chars upper_char.

(** [s.startswith(p)] *)
Definition startswith (s p : string) : bool := String.prefix p s.

(** [sub in s] *)
Fixpoint contains (sub s : string) : bool :=
  String.prefix sub s
  || match s with
     | EmptyString => false
     | String _ t => contains sub t
     end.

(** [any(k in s for k in keys)] *)
Definition contains_any (keys : list string) (s : string) : bool :=
  existsb (fun k => contains k s) keys.

Fixpoint rev_string (acc s : string) : string :=
  match s with
  | EmptyString => acc
  | String c t => rev_string (String c acc) t
  end.

Fixpoint lstrip_by (p : ascii -> bool) (s : string) : string :=
  match s with
  | EmptyString => EmptyString
  | String c t => if p c then lstrip_by p t else s
  end.

Definition rstrip_by (p : ascii -> bool) (s : string) : string :=
  rev_string "" (lstrip_by p (rev_string "" s)).

(** [s.rstrip('/')] *)
Definition rstrip_slash : string -> string :=
  rstrip_by (fun c => Ascii.eqb c "/"%char).

(** The ASCII characters [str.strip()] removes: tab, LF, VT, FF, CR, the four
    separators FS, GS, RS, US, and the space. *)
Definition is_space (c : ascii) : bool :=
  let n := nat_of_ascii c in
  ((9 <=? n)%nat && (n <=? 13)%nat) || ((28 <=? n)%nat && (n <=? 32)%nat).

(** [s.strip()] *)
Definition strip (s : string) : string :=
  rstrip_by is_space (lstrip_by is_space s).

(** [s.split(sep)] for a non-empty [sep]: [skip] counts the characters of a
    separator that was recognised and is still being passed over. *)
Fixpoint split_go (sep : string) (skip : nat) (acc s : string) : list string :=
  match s with
  | EmptyString => [acc]
  | String c t =>
      match skip with
      | S k => split_go sep k acc t
      | O =>
          if String.prefix sep s
          then acc :: split_go sep (String.length sep - 1) "" t
          else split_go sep 0 (acc ++ String c "") t
      end
  end.

Definition split (sep s : string) : list string := split_go sep 0 "" s.

(** [s.split(':', 1)[1]]: what follows the first colon; [None] stands for the
    [IndexError] raised when there is no colon. *)
Fixpoint after_first_colon (s : string) : option string :=
  match s with
  | EmptyString => None
  | String c t => if Ascii.eqb c ":"%char then Some t else after_first_colon t
  end.

End PyStr.

(** ** Python's two-argument [min] and [max] on floats

    [min(a, b)] keeps [a] unless [b < a]; [max(a, b)] keeps [a] unless
    [b > a]. *)
Definition pymin (a b : float) : float := if PrimFloat.ltb b a then b else a.
Definition pymax (a b : float) : float := if PrimFloat.ltb a b then b else a.

(** ** Exceptions

    The exception classes the modelled code can meet, and a computation that
    either returns or raises. *)
Inductive exn : Type :=
| RequestError   (* requests.RequestException and its subclasses *)
| ValueError
| TypeError
| AttributeError
| UnboundLocalError.

Inductive py (A : Type) : Type :=
| Returns (a : A)
| Raises (e : exn).

Arguments Raises {A} e.

Definition bind {A B : Type} (c : py A) (k : A -> py B) : py B :=
  match c with
  | Returns a => k a
  | Raises e => Raises e
  end.

Notation "x <- c ;; k" := (bind c (fun x => k))
  (at level 61, c at next level, right associativity).

(** ** What a request can come back with *)

(** The fields of a [requests.Response] the code reads:
    [headers.get('content-type')], [text] and the outcome of [json()]. *)
Inductive json : Type :=
| JNull
| JBool (b : bool)
| JNumber (n : Z)
| JString (s : string)
| JArray (items : list json)
| JObject (members : list (string * json)).

Record response : Type := mkResponse {
  status_code : Z;
  content_type : option string;
  text : string;
  json_body : option json (* [None]: [response.json()] raises JSONDecodeError *)
}.

(** A request either returns a response or raises a
    [requests.RequestException] (connection error, timeout, invalid URL). *)
Inductive http_result : Type :=
| Response (r : response)
| RequestException.

(** ** api_hunter/core.py *)
Module Core.

(** The dataclass.  [parameters] and [headers] are declared with default
    [None], hence the option types. *)
Record APIEndpoint : Type := mkAPIEndpoint {
  url : string;
  method : string;
  parameters : option (list string);
  headers : option (list (string * string));
  source : string;
  confidence : float
}.

Definition __post_init__ (self : APIEndpoint) : APIEndpoint :=
  let self :=
    match parameters self with
    | None => mkAPIEndpoint (url self) (method self) (Some []) (headers self)
                            (source self) (confidence self)
    | Some _ => self
    end in
  match headers self with
  | None => mkAPIEndpoint (url self) (method self) (parameters self) (Some [])
                          (source self) (confidence self)
  | Some _ => self
  end.

(** [APIEndpoint(url, method, parameters, headers, source, confidence)]: the
    generated [__init__] stores the arguments, an omitted one ([None] here)
    taking its declared default, and then calls [__post_init__]. *)
Definition new_APIEndpoint (url : string) (method : option string)
    (parameters : option (list string))
    (headers : option (list (string * string)))
    (source : option string) (confidence : option float) : APIEndpoint :=
  __post_init__
    (mkAPIEndpoint url
       (match method with Some m => m | None => "GET" end)
       parameters headers
       (match source with Some s => s | None => "unknown" end)
       (match confidence with Some c => c | None => 0.0%float end)).

(** [endpoint.confidence = c] *)
Definition set_confidence (e : APIEndpoint) (c : float) : APIEndpoint :=
  mkAPIEndpoint (url e) (method e) (parameters e) (headers e) (source e) c.

(** *** _deduplicate_endpoints *)

Definition key : Type := (string * string)%type.

Definition key_of (e : APIEndpoint) : key := (url e, method e).

Definition key_eqb (a b : key) : bool :=
  String.eqb (fst a) (fst b) && String.eqb (snd a) (snd b).

(** [key in seen] *)
Definition key_in (k : key) (seen : list key) : bool := existsb (key_eqb k) seen.

(** One iteration of the loop on the state [(seen, unique_endpoints)]. *)
Definition dedup_step (st : list key * list APIEndpoint) (endpoint : APIEndpoint)
  : list key * list APIEndpoint :=
  let '(seen, unique_endpoints) := st in
  let k := key_of endpoint in
  if key_in k seen then st
  else (k :: seen, unique_endpoints ++ [endpoint]).

Definition _deduplicate_endpoints (endpoints : list APIEndpoint)
  : list APIEndpoint :=
  snd (fold_left dedup_step endpoints ([], [])).

(** The same loop as a recursion on the input, convenient for induction. *)
Fixpoint dedup_from (seen : list key) (endpoints : list APIEndpoint)
  : list APIEndpoint :=
  match endpoints with
  | [] => []
  | e :: rest =>
      if key_in (key_of e) seen then dedup_from seen rest
      else e :: dedup_from (key_of e :: seen) rest
  end.

(** *** _validate_endpoints *)

(** [response.headers.get('content-type', '')] *)
Definition content_type_header (r : response) : string :=
  match content_type r with
  | Some v => v
  | None => ""
  end.

Definition api_content_types : list string := ["json"; "xml"; "api"].

(** The body of the loop for one endpoint, given what [session.head] did.
    A response whose status is 400 or more raises nothing: the [if] is
    skipped and the endpoint is appended as it is. *)
Definition validate_one (probe : http_result) (endpoint : APIEndpoint)
  : APIEndpoint :=
  match probe with
  | Response response =>
      if (status_code response <? 400)%Z then
        let endpoint :=
          set_confidence endpoint (pymin (confidence endpoint + 0.2) 1.0)%float in
        let content_type := PyStr.lower (content_type_header response) in
        if PyStr.contains_any api_content_types content_type
        then set_confidence endpoint (pymin (confidence endpoint + 0.1) 1.0)%float
        else endpoint
      else endpoint
  | RequestException =>
      set_confidence endpoint (pymax (confidence endpoint - 0.3) 0.1)%float
  end.

(** [head i u] is the outcome of the [i]-th HEAD request of the run, sent to
    [u]: two requests to one URL need not be answered alike.  The endpoints of
    the list are distinct objects (each comes from its own constructor call and
    [_deduplicate_endpoints] keeps an object at most once), so updating them in
    place is updating them one by one. *)
Fixpoint validate_from (head : nat -> string -> http_result) (i : nat)
    (endpoints : list APIEndpoint) : list APIEndpoint :=
  match endpoints with
  | [] => []
  | endpoint :: rest =>
      validate_one (head i (url endpoint)) endpoint
        :: validate_from head (S i) rest
  end.

Definition _validate_endpoints (head : nat -> string -> http_result)
    (endpoints : list APIEndpoint) : list APIEndpoint :=
  validate_from head 0 endpoints.

(** *** _is_potential_endpoint *)

Definition api_indicators : list string :=
  ["api"; "rest"; "graphql"; "endpoint"; "service";
   "json"; "xml"; "data"; "ajax"; "fetch"].

Definition _is_potential_endpoint (url : string) : bool :=
  if String.eqb url ""
     || PyStr.startswith url "javascript:"
     || PyStr.startswith url "mailto:"
  then false
  else PyStr.contains_any api_indicators (PyStr.lower url).

(** *** The parsed document (BeautifulSoup)

    Tag and attribute names are as the parser stores them; a comment is a
    [NavigableString]. *)
Inductive node : Type :=
| Tag (name : string) (attrs : list (string * string)) (contents : list node)
| NavigableString (s : string).

(** The descendants of a node in document order. *)
Fixpoint descendants (n : node) : list node :=
  match n with
  | Tag _ _ contents => flat_map (fun c => c :: descendants c) contents
  | NavigableString _ => []
  end.

Definition tag_name (n : node) : option string :=
  match n with
  | Tag name _ _ => Some name
  | NavigableString _ => None
  end.

Fixpoint lookup (k : string) (kvs : list (string * string)) : option string :=
  match kvs with
  | [] => None
  | (k', v) :: rest => if String.eqb k k' then Some v else lookup k rest
  end.

(** [tag.get(k)] *)
Definition get_attr (n : node) (k : string) : option string :=
  match n with
  | Tag _ attrs _ => lookup k attrs
  | NavigableString _ => None
  end.

(** [tag.get(k, default)] *)
Definition get_attr_or (n : node) (k default : string) : string :=
  match get_attr n k with
  | Some v => v
  | None => default
  end.

(** [soup.find_all(names)]: the tags below [n] whose name is listed. *)
Definition find_all (names : list string) (n : node) : list node :=
  filter (fun d => match tag_name d with
                   | Some name => existsb (String.eqb name) names
                   | None => false
                   end) (descendants n).

(** [soup.find_all(attrs={k: True})]: the tags below [n] that carry [k]. *)
Definition find_all_with_attr (k : string) (n : node) : list node :=
  filter (fun d => match get_attr d k with Some _ => true | None => false end)
         (descendants n).

(** [tag.string]: the only child when it is a string, the [string] of the only
    child when it is a tag, [None] otherwise. *)
Fixpoint tag_string (n : node) : option string :=
  match n with
  | NavigableString s => Some s
  | Tag _ _ [c] => tag_string c
  | Tag _ _ _ => None
  end.

(** *** Regular expressions

    A pattern is kept as its text.  [re.findall] yields strings for a pattern
    with at most one group and tuples for one with two, so a bank records
    which of the two each pattern is. *)
Inductive re_flag : Type := IGNORECASE | MULTILINE | DOTALL.

Inductive regex : Type :=
| Re (pattern : string)    (* no group or one group *)
| Re2 (pattern : string).  (* two groups *)

Inductive re_match : Type :=
| MStr (s : string)
| MTuple (first second : string).

(** The double quote, and the two character classes the patterns share: a
    quote character, and anything but one. *)
Definition dq : string := String (ascii_of_nat 34) "".
Definition quote : string := "[\'" ++ dq ++ "`]".
Definition unquoted : string := "[^\'" ++ dq ++ "`]".
Definition quoted_arg : string := quote ++ "(" ++ unquoted ++ "+)" ++ quote.

Definition api_patterns : list string :=
  ["/api/v?\d*/?.*"; "/rest/.*"; "/graphql/?.*"; "/endpoints?/.*";
   "/services?/.*"; "\.json$"; "\.xml$"; "/json/.*"; "/xml/.*"].

Definition fetch_patterns : list regex :=
  [Re ("fetch\s*\(\s*" ++ quoted_arg);
   Re2 ("XMLHttpRequest.*open\s*\(\s*" ++ quote ++ "(\w+)" ++ quote
        ++ "\s*,\s*" ++ quoted_arg);
   Re ("ajax\s*\(\s*{.*url\s*:\s*" ++ quoted_arg);
   Re ("\.get\s*\(\s*" ++ quoted_arg);
   Re ("\.post\s*\(\s*" ++ quoted_arg)].

Definition advanced_patterns : list regex :=
  [Re ("axios\.[get|post|put|delete|patch]+\s*\(\s*" ++ quoted_arg);
   Re ("\$\.ajax\s*\(\s*{[^}]*url\s*:\s*" ++ quoted_arg);
   Re ("api\s*\.\s*\w+\s*\(\s*" ++ quoted_arg);
   Re ("endpoint\s*[=:]\s*" ++ quoted_arg);
   Re ("baseURL\s*[=:]\s*" ++ quoted_arg);
   Re ("fetch\s*\(\s*" ++ quoted_arg);
   Re2 ("\.(get|post|put|delete|patch)\s*\(\s*" ++ quoted_arg);
   Re ("url\s*:\s*" ++ quoted_arg);
   Re (quote ++ "(/(?:client/)?api/" ++ unquoted ++ "*" ++ ")" ++ quote);
   Re (quote ++ "(https?://" ++ unquoted ++ "*spond" ++ unquoted ++ "*" ++ ")"
       ++ quote);
   Re "/client/api/[a-zA-Z0-9/_.-]*"].

Definition comment_pattern : string := "<!--.*?-->".

Definition js_comment_patterns : list string := ["//.*"; "/\*.*?\*/"].

Definition url_pattern : string :=
  ("https?://[^\s<>\" ++ dq ++ "\']+|/[a-zA-Z0-9/_.-]+(?:\?[^\s<>\" ++ dq
   ++ "\']*" ++ ")?")%string.

(** The character class that ends the authenticated patterns: anything but a
    quote, a backslash or the letter s, any number of times. *)
Definition auth_rest : string := "[^\'\" ++ dq ++ "\\s]*".

Definition auth_patterns : list string :=
  ["api[/.].*user.*"; "api[/.].*profile.*"; "api[/.].*dashboard.*";
   "api[/.].*admin.*"; "api[/.].*settings.*"; "api[/.].*account.*";
   "/user/.*"; "/profile/.*"; "/dashboard/.*"; "/admin/.*";
   ("/client/api/" ++ auth_rest)%string;
   ("/api/" ++ auth_rest ++ "spond" ++ auth_rest)%string;
   ("/api/" ++ auth_rest ++ "event" ++ auth_rest)%string;
   ("/api/" ++ auth_rest ++ "group" ++ auth_rest)%string;
   ("/api/" ++ auth_rest ++ "member" ++ auth_rest)%string;
   ("/api/" ++ auth_rest ++ "notification" ++ auth_rest)%string;
   ("/api/" ++ auth_rest ++ "chat" ++ auth_rest)%string;
   ("/api/" ++ auth_rest ++ "message" ++ auth_rest)%string;
   ("client/api/" ++ auth_rest)%string;
   ("api/sponds" ++ auth_rest)%string;
   ("api/events" ++ auth_rest)%string;
   ("api/groups" ++ auth_rest)%string;
   ("api/users" ++ auth_rest)%string].

Definition data_attr_pattern : string :=
  ("data-[a-zA-Z-]*url[a-zA-Z-]*=[\'" ++ dq ++ "]([^\'" ++ dq ++ "]+)[\'"
   ++ dq ++ "]")%string.

Definition common_auth_paths : list string :=
  ["/client/api/user"; "/client/api/sponds"; "/client/api/events";
   "/client/api/groups"; "/client/api/calendar"; "/client/api/invitations";
   "/client/api/messages"; "/api/user"; "/api/sponds"; "/api/events";
   "/api/groups"; "/api/calendar"; "/api/invitations"; "/api/messages";
   "/api/profile"; "/api/dashboard"; "/api/settings"].

(** Run [f] over [l] in order and concatenate what it appends; the first
    exception ends the loop and propagates. *)
Fixpoint for_each {A : Type} (f : A -> py (list APIEndpoint)) (l : list A)
  : py (list APIEndpoint) :=
  match l with
  | [] => Returns []
  | x :: rest =>
      es <- f x ;;
      more <- for_each f rest ;;
      Returns (es ++ more)
  end.

(** *** The extraction strategies of [APIDiscovery] *)
Section Strategies.

(** Library functions.  [urljoin] and [urlparse] raise [ValueError] on some
    malformed URLs; [url_origin u] is the string
    [f"{parsed.scheme}://{parsed.netloc}"] for [parsed = urlparse(u)]. *)
Variable urljoin : string -> string -> py string.
Variable url_origin : string -> py string.
Variable re_search : string -> list re_flag -> string -> bool.
Variable re_findall : string -> list re_flag -> string -> list string.
Variable re_findall2 : string -> list re_flag -> string -> list (string * string).

(** The object: [self.base_url], [self.authenticator.authenticated]. *)
Variable base_url : string.
Variable authenticated : bool.

Definition findall (p : regex) (flags : list re_flag) (s : string)
  : list re_match :=
  match p with
  | Re pattern => map MStr (re_findall pattern flags s)
  | Re2 pattern =>
      map (fun m => MTuple (fst m) (snd m)) (re_findall2 pattern flags s)
  end.

(** [urljoin(self.base_url, match)] followed by a string method on the
    result, for a match that may be a tuple: [urljoin] refuses to mix a string
    with a tuple, and when the base is empty it hands the tuple back, which
    has no [startswith]. *)
Definition join_match (m : re_match) : py string :=
  match m with
  | MStr s => urljoin base_url s
  | MTuple _ _ =>
      if String.eqb base_url "" then Raises AttributeError else Raises TypeError
  end.

Definition _is_api_endpoint (url : string) : bool :=
  existsb (fun pattern => re_search pattern [IGNORECASE] url) api_patterns.

Definition _discover_from_links (soup : node) : py (list APIEndpoint) :=
  for_each
    (fun link =>
       match get_attr link "href" with
       | None => Returns []
       | Some href =>
           full_url <- urljoin base_url href ;;
           Returns
             (if _is_api_endpoint full_url
              then [new_APIEndpoint full_url None None None
                      (Some "html_link") (Some 0.7%float)]
              else [])
       end)
    (filter (fun a => match get_attr a "href" with
                      | Some _ => true
                      | None => false
                      end)
            (find_all ["a"] soup)).

Definition _discover_from_scripts (soup : node) : py (list APIEndpoint) :=
  for_each
    (fun script =>
       match tag_string script with
       | None => Returns []
       | Some script_string =>
           if String.eqb script_string "" then Returns []
           else
             for_each
               (fun pattern =>
                  for_each
                    (fun m =>
                       let '(method, url) :=
                         match m with
                         | MTuple first second => (first, second)
                         | MStr s => ("GET", s)
                         end in
                       full_url <- urljoin base_url url ;;
                       Returns
                         (if _is_potential_endpoint full_url
                          then [new_APIEndpoint full_url
                                  (Some (if String.eqb method "" then "GET"
                                         else PyStr.upper method))
                                  None None (Some "javascript")
                                  (Some 0.8%float)]
                          else []))
                    (findall pattern [IGNORECASE] script_string))
               fetch_patterns
       end)
    (find_all ["script"] soup).

Definition _discover_from_forms (soup : node) : py (list APIEndpoint) :=
  for_each
    (fun form =>
       let action := get_attr_or form "action" "" in
       let method := PyStr.upper (get_attr_or form "method" "GET") in
       if String.eqb action "" then Returns []
       else
         full_url <- urljoin base_url action ;;
         let parameters :=
           flat_map
             (fun input_tag =>
                match get_attr input_tag "name" with
                | Some name => if String.eqb name "" then [] else [name]
                | None => []
                end)
             (find_all ["input"; "select"; "textarea"] form) in
         Returns [new_APIEndpoint full_url (Some method) (Some parameters) None
                    (Some "html_form") (Some 0.6%float)])
    (find_all ["form"] soup).

Definition _discover_from_ajax_calls (html_content : string)
  : py (list APIEndpoint) :=
  for_each
    (fun pattern =>
       for_each
         (fun m =>
            full_url <- join_match m ;;
            Returns
              (if _is_potential_endpoint full_url
               then [new_APIEndpoint full_url None None None
                       (Some "ajax_call") (Some 0.9%float)]
               else []))
         (findall pattern [IGNORECASE; MULTILINE] html_content))
    advanced_patterns.

Definition _discover_from_meta_tags (soup : node) : py (list APIEndpoint) :=
  metas <-
    for_each
      (fun meta =>
         let content := get_attr_or meta "content" "" in
         if _is_potential_endpoint content then
           full_url <- urljoin base_url content ;;
           Returns [new_APIEndpoint full_url None None None
                      (Some "meta_tag") (Some 0.5%float)]
         else Returns [])
      (find_all ["meta"] soup) ;;
  attributes <-
    for_each
      (fun element =>
         full_url <- urljoin base_url (get_attr_or element "data-api-url" "") ;;
         Returns [new_APIEndpoint full_url None None None
                    (Some "data_attribute") (Some 0.8%float)])
      (find_all_with_attr "data-api-url" soup) ;;
  Returns (metas ++ attributes).

Definition _discover_from_comments (html_content : string)
  : py (list APIEndpoint) :=
  let comments := re_findall comment_pattern [DOTALL] html_content in
  let all_comments :=
    comments
    ++ flat_map (fun pattern => re_findall pattern [DOTALL] html_content)
                js_comment_patterns in
  for_each
    (fun comment =>
       for_each
         (fun url =>
            full_url <- urljoin base_url url ;;
            Returns
              (if _is_potential_endpoint full_url
               then [new_APIEndpoint full_url None None None
                       (Some "comment") (Some 0.4%float)]
               else []))
         (re_findall url_pattern [] comment))
    all_comments.

Definition _discover_authenticated_content (html_content : string)
  : py (list APIEndpoint) :=
  if negb authenticated then Returns []
  else
    found <-
      for_each
        (fun pattern =>
           for_each
             (fun m =>
                full_url <- urljoin base_url m ;;
                Returns [new_APIEndpoint full_url None None None
                           (Some "authenticated_content") (Some 0.8%float)])
             (re_findall pattern [IGNORECASE] html_content))
        auth_patterns ;;
    attributes <-
      for_each
        (fun m =>
           if _is_potential_endpoint m then
             full_url <- urljoin base_url m ;;
             Returns [new_APIEndpoint full_url None None None
                        (Some "authenticated_data_attr") (Some 0.7%float)]
           else Returns [])
        (re_findall data_attr_pattern [IGNORECASE] html_content) ;;
    Returns (found ++ attributes).

(** *** The requests of one run of [discover_endpoints]

    [page] answers the GET of the target page, [auth_get i u] the GET of the
    [i]-th authenticated path, [head i u] the [i]-th HEAD of the validator. *)
Variable page : http_result.
Variable auth_get : nat -> string -> http_result.
Variable head : nat -> string -> http_result.
Variable BeautifulSoup : string -> node.
Variable verbose : bool.

(** The loop of [_test_authenticated_endpoints] from the [i]-th path on.
    Every exception of an iteration is caught; the handler prints [auth_url]
    under [verbose], which is unbound when [urljoin] raised before it was ever
    assigned ([bound] is false). *)
Fixpoint auth_tests_from (site : string) (i : nat) (bound : bool)
    (paths : list string) : py (list APIEndpoint) :=
  match paths with
  | [] => Returns []
  | path :: rest =>
      match urljoin site path with
      | Raises _ =>
          if verbose && negb bound then Raises UnboundLocalError
          else auth_tests_from site (S i) bound rest
      | Returns auth_url =>
          let found :=
            match auth_get i auth_url with
            | RequestException => []
            | Response response =>
                if (status_code response =? 200)%Z then
                  new_APIEndpoint auth_url (Some "GET") None None
                    (Some "authenticated_endpoint_test") (Some 0.95%float)
                  :: match _discover_from_ajax_calls (text response) with
                     | Returns content_endpoints => content_endpoints
                     | Raises _ => []
                     end
                else []
            end in
          more <- auth_tests_from site (S i) true rest ;;
          Returns (found ++ more)
      end
  end.

Definition _test_authenticated_endpoints (url : string)
  : py (list APIEndpoint) :=
  site <- url_origin url ;;
  auth_tests_from site 0 false common_auth_paths.

(** [response.raise_for_status()] *)
Definition raise_for_status (r : response) : py unit :=
  if ((400 <=? status_code r) && (status_code r <? 600))%Z
  then Raises RequestError
  else Returns tt.

(** The [try] block of [discover_endpoints]. *)
Definition discover_body : py (list APIEndpoint) :=
  response <- match page with
              | Response r => Returns r
              | RequestException => Raises RequestError
              end ;;
  _ <- raise_for_status response ;;
  e0 <- (if authenticated
         then _discover_authenticated_content (text response)
         else Returns []) ;;
  let soup := BeautifulSoup (text response) in
  e1 <- _discover_from_links soup ;;
  e2 <- _discover_from_scripts soup ;;
  e3 <- _discover_from_forms soup ;;
  e4 <- _discover_from_ajax_calls (text response) ;;
  e5 <- _discover_from_meta_tags soup ;;
  e6 <- _discover_from_comments (text response) ;;
  e7 <- (if authenticated
         then _test_authenticated_endpoints base_url
         else Returns []) ;;
  let endpoints := e0 ++ e1 ++ e2 ++ e3 ++ e4 ++ e5 ++ e6 ++ e7 in
  let unique_endpoints := _deduplicate_endpoints endpoints in
  Returns (_validate_endpoints head unique_endpoints).

(** [except requests.RequestException: return []] *)
Definition discover_endpoints : py (list APIEndpoint) :=
  match discover_body with
  | Raises RequestError => Returns []
  | outcome => outcome
  end.

End Strategies.

End Core.

(** ** api_hunter/scanner.py *)
Module Scanner.

Import Core.

Definition common_paths : list string :=
  ["/api"; "/api/v1"; "/api/v2"; "/rest"; "/graphql";
   "/endpoints"; "/services"; "/data"; "/ajax";
   "/client/api"; "/client/api/sponds"; "/client/api/events";
   "/client/api/groups"; "/client/api/user"; "/client/api/notifications"].

Definition api_indicators : list string :=
  ["api"; "rest"; "graphql"; "endpoint"; "service";
   "json"; "xml"; "data"; "ajax"; "fetch"; "webhook"].

Definition _looks_like_api_path (path : string) : bool :=
  PyStr.contains_any api_indicators (PyStr.lower path).

(** *** _test_endpoint and scan_common_paths

    [head u] answers the HEAD request sent to [u]; the URLs of one scan are
    pairwise distinct.  Whatever is raised inside [_test_endpoint] is caught
    and the function returns [None]. *)
Definition _test_endpoint (head : string -> http_result) (url : string)
  : option APIEndpoint :=
  match head url with
  | Response response =>
      if (status_code response <? 400)%Z then
        let content_type := PyStr.lower (content_type_header response) in
        let confidence :=
          if PyStr.contains_any api_content_types content_type
          then 0.8%float else 0.5%float in
        Some (new_APIEndpoint url None None None (Some "path_scan")
                (Some confidence))
      else None
  | RequestException => None
  end.

(** [if result: endpoints.append(result)] over the futures in the order
    [as_completed] yields them. *)
Definition collect_results (results : list (option APIEndpoint))
  : list APIEndpoint :=
  flat_map (fun result => match result with
                          | Some endpoint => [endpoint]
                          | None => []
                          end) results.

(** The futures complete in an order the pool decides: [as_completed] is any
    rearrangement of the submitted probes. *)
Definition scan_common_paths
    (as_completed : list (option APIEndpoint) -> list (option APIEndpoint))
    (head : string -> http_result) (base_url : string) : list APIEndpoint :=
  let futures :=
    map (fun path => _test_endpoint head (PyStr.rstrip_slash base_url ++ path))
        common_paths in
  collect_results (as_completed futures).

(** *** scan_robots_txt *)

(** The separator the source passes to [split]: a backslash followed by the
    letter n, two characters. *)
Definition line_separator : string := "\n".

(** The loop over [lines].  An exception inside it leaves the [try] block
    with the endpoints appended so far. *)
Fixpoint robots_lines (base_url : string) (lines : list string)
  : list APIEndpoint :=
  match lines with
  | [] => []
  | line :: rest =>
      if PyStr.startswith (PyStr.strip line) "Disallow:"
         || PyStr.startswith (PyStr.strip line) "Allow:"
      then
        match PyStr.after_first_colon line with
        | None => []
        | Some after =>
            let path := PyStr.strip after in
            if _looks_like_api_path path
            then new_APIEndpoint (PyStr.rstrip_slash base_url ++ path)
                   None None None (Some "robots_txt") (Some 0.6%float)
                 :: robots_lines base_url rest
            else robots_lines base_url rest
        end
      else robots_lines base_url rest
  end.

Definition scan_robots_txt (get : string -> http_result) (base_url : string)
  : list APIEndpoint :=
  let robots_url := (PyStr.rstrip_slash base_url ++ "/robots.txt")%string in
  match get robots_url with
  | Response response =>
      if (status_code response =? 200)%Z
      then robots_lines base_url (PyStr.split line_separator (text response))
      else []
  | RequestException => []
  end.

(** *** discover_swagger_docs *)

Definition swagger_paths : list string :=
  ["/swagger.json"; "/swagger.yaml"; "/api-docs"; "/api-docs.json";
   "/openapi.json"; "/openapi.yaml"; "/v1/api-docs"; "/v2/api-docs";
   "/swagger/v1/swagger.json"; "/swagger-ui.html"; "/docs"].

(** A decoded JSON object is a [dict]: its keys are distinct and are visited
    in the order of the document. *)
Fixpoint json_lookup (k : string) (members : list (string * json))
  : option json :=
  match members with
  | [] => None
  | (k', v) :: rest => if String.eqb k k' then Some v else json_lookup k rest
  end.

Fixpoint chars (s : string) : list json :=
  match s with
  | EmptyString => []
  | String c t => JString (String c "") :: chars t
  end.

(** [for x in j]: the keys of a dict, the items of a list, the characters of
    a string; anything else is not iterable ([TypeError], [None] here). *)
Definition iterate (j : json) : option (list json) :=
  match j with
  | JObject members => Some (map (fun kv => JString (fst kv)) members)
  | JArray items => Some items
  | JString s => Some (chars s)
  | JNull | JBool _ | JNumber _ => None
  end.

(** The loops return what they appended and whether they ran to the end: an
    exception ([false]) leaves both loops, is caught by the enclosing [try],
    and what was appended stays in [endpoints]. *)
Fixpoint methods_loop (api_url : string) (methods : list json)
  : list APIEndpoint * bool :=
  match methods with
  | [] => ([], true)
  | JString method :: rest =>
      let '(more, finished) := methods_loop api_url rest in
      (new_APIEndpoint api_url (Some (PyStr.upper method)) None None
         (Some "swagger_spec") (Some 1.0%float) :: more, finished)
  | _ :: _ => ([], false) (* [method.upper()] on a value that is no string *)
  end.

(** [prefix] is [base_url.rstrip('/') + base_path], or [None] when
    [base_path] is not a string and the concatenation raises [TypeError]. *)
Fixpoint paths_loop (prefix : option string) (paths : list (string * json))
  : list APIEndpoint * bool :=
  match paths with
  | [] => ([], true)
  | (path_key, operations) :: rest =>
      match prefix with
      | None => ([], false)
      | Some pre =>
          let api_url := (pre ++ path_key)%string in
          match iterate operations with
          | None => ([], false)
          | Some methods =>
              let '(found, finished) := methods_loop api_url methods in
              if finished then
                let '(more, finished') := paths_loop prefix rest in
                (found ++ more, finished')
              else (found, false)
          end
      end
  end.

(** What the parsed document adds.  Only a dict has both [in] on keys and
    [get]; only a dict of paths can be indexed by the keys it iterates. *)
Definition spec_endpoints (base_url : string) (swagger_data : json)
  : list APIEndpoint :=
  match swagger_data with
  | JObject members =>
      match json_lookup "paths" members with
      | None => []
      | Some paths =>
          let base_path :=
            match json_lookup "basePath" members with
            | None => Some ""
            | Some (JString s) => Some s
            | Some _ => None
            end in
          let prefix :=
            option_map (fun bp => (PyStr.rstrip_slash base_url ++ bp)%string)
                       base_path in
          match paths with
          | JObject path_items => fst (paths_loop prefix path_items)
          | _ => []
          end
      end
  | _ => []
  end.

(** One iteration of the loop over [swagger_paths]. *)
Definition swagger_probe (get : string -> http_result) (base_url path : string)
  : list APIEndpoint :=
  let url := (PyStr.rstrip_slash base_url ++ path)%string in
  match get url with
  | Response response =>
      if (status_code response =? 200)%Z then
        new_APIEndpoint url None None None (Some "swagger_docs")
          (Some 0.9%float)
        :: (if PyStr.contains "json" path
               && PyStr.startswith (content_type_header response)
                                   "application/json"
            then match json_body response with
                 | Some swagger_data => spec_endpoints base_url swagger_data
                 | None => []
                 end
            else [])
      else []
  | RequestException => []
  end.

Definition discover_swagger_docs (get : string -> http_result)
    (base_url : string) : list APIEndpoint :=
  flat_map (swagger_probe get base_url) swagger_paths.

(** *** scan_sitemap *)

(** An [xml.etree.ElementTree] element: its tag (a namespaced tag is written
    with the namespace in braces before the local name), its text ([None]
    when there is none) and its children. *)
Inductive xml : Type :=
| Element (tag : string) (elem_text : option string) (children : list xml).

Definition xml_tag (x : xml) : string :=
  match x with Element tag _ _ => tag end.

Definition xml_text (x : xml) : option string :=
  match x with Element _ elem_text _ => elem_text end.

Definition xml_children (x : xml) : list xml :=
  match x with Element _ _ children => children end.

(** The elements below [x] in document order. *)
Fixpoint xml_descendants (x : xml) : list xml :=
  match x with
  | Element _ _ children =>
      flat_map (fun c => c :: xml_descendants c) children
  end.

Definition sitemap_ns : string :=
  "{http://www.sitemaps.org/schemas/sitemap/0.9}".

(** [root.findall('.//' + tag)] *)
Definition xml_findall (tag : string) (root : xml) : list xml :=
  filter (fun x => String.eqb (xml_tag x) tag) (xml_descendants root).

(** [elem.find(tag)]: the first child with that tag. *)
Definition xml_find (tag : string) (elem : xml) : option xml :=
  find (fun x => String.eqb (xml_tag x) tag) (xml_children elem).

Definition sitemap_urls : list string :=
  ["/sitemap.xml"; "/sitemap_index.xml"; "/sitemaps/sitemap.xml"].

(** The loop over the [url] elements of one parsed sitemap. *)
Definition sitemap_entries (root : xml) : list APIEndpoint :=
  flat_map
    (fun url_elem =>
       match xml_find (sitemap_ns ++ "loc") url_elem with
       | Some loc_elem =>
           match xml_text loc_elem with
           | Some loc =>
               if negb (String.eqb loc "") && _looks_like_api_path loc
               then [new_APIEndpoint loc None None None (Some "sitemap")
                       (Some 0.7%float)]
               else []
           | None => []
           end
       | None => []
       end)
    (xml_findall (sitemap_ns ++ "url") root).

(** One iteration of the loop over [sitemap_urls].  [fromstring s] is
    [ET.fromstring(s)]; [None] stands for [ET.ParseError], or any other
    exception, which the enclosing handler swallows before it goes on to the
    next sitemap. *)
Definition sitemap_probe (get : string -> http_result)
    (fromstring : string -> option xml) (base_url sitemap_path : string)
  : list APIEndpoint :=
  match get (PyStr.rstrip_slash base_url ++ sitemap_path)%string with
  | Response response =>
      if (status_code response =? 200)%Z then
        match fromstring (text response) with
        | Some root => sitemap_entries root
        | None => []
        end
      else []
  | RequestException => []
  end.

Definition scan_sitemap (get : string -> http_result)
    (fromstring : string -> option xml) (base_url : string)
  : list APIEndpoint :=
  flat_map (sitemap_probe get fromstring base_url) sitemap_urls.

End Scanner.

(** ** main.py: the scan

    The arguments are the fields of [args] the scan reads.  The login that
    precedes the scan leaves a session that is authenticated or not; the
    scanner sends its requests through the session of the discovery. *)
Module Main.

Import Core.

(** [args.url.startswith(('http://', 'https://'))] *)
Definition url_accepted (args_url : string) : bool :=
  PyStr.startswith args_url "http://" || PyStr.startswith args_url "https://".

(** [args.confidence_threshold < 0.0 or args.confidence_threshold > 1.0] *)
Definition threshold_rejected (args_confidence_threshold : float) : bool :=
  (PrimFloat.ltb args_confidence_threshold 0.0
   || PrimFloat.ltb 1.0 args_confidence_threshold)%float.

Section Scan.

Variable urljoin : string -> string -> py string.
Variable url_origin : string -> py string.
Variable re_search : string -> list re_flag -> string -> bool.
Variable re_findall : string -> list re_flag -> string -> list string.
Variable re_findall2 :
  string -> list re_flag -> string -> list (string * string).
Variable BeautifulSoup : string -> node.
Variable fromstring : string -> option Scanner.xml.
Variable as_completed : list (option APIEndpoint) -> list (option APIEndpoint).

(** The session: whether the login succeeded, and the answers to the
    requests of the discovery and of the scanner. *)
Variable authenticated : bool.
Variable page : http_result.
Variable auth_get : nat -> string -> http_result.
Variable head : nat -> string -> http_result.
Variable scan_head : string -> http_result.
Variable get : string -> http_result.

Variable args_url : string.
Variable args_scan_common_paths : bool.
Variable args_include_swagger : bool.
Variable args_confidence_threshold : float.
Variable args_verbose : bool.

(** [endpoints] when the last [extend] has run.  An exception that
    [discover_endpoints] lets through leaves the scan. *)
Definition endpoints : py (list APIEndpoint) :=
  endpoints <- discover_endpoints urljoin url_origin re_search re_findall
                 re_findall2 args_url authenticated page auth_get head
                 BeautifulSoup args_verbose ;;
  let endpoints :=
    if args_scan_common_paths
    then endpoints ++ Scanner.scan_common_paths as_completed scan_head args_url
    else endpoints in
  let endpoints :=
    if args_include_swagger
    then endpoints ++ Scanner.discover_swagger_docs get args_url
    else endpoints in
  let endpoints := endpoints ++ Scanner.scan_robots_txt get args_url in
  let endpoints :=
    endpoints ++ Scanner.scan_sitemap get fromstring args_url in
  Returns endpoints.

(** [ep.confidence >= args.confidence_threshold] *)
Definition filtered_endpoints : py (list APIEndpoint) :=
  endpoints <- endpoints ;;
  let unique_endpoints := _deduplicate_endpoints endpoints in
  Returns (filter (fun ep =>
                     PrimFloat.leb args_confidence_threshold (confidence ep))
                  unique_endpoints).

End Scan.

End Main.

(** ** reporter.py: the order and the groups of a report, and the console
    report *)
Module Reporter.

Import Core.

(** [sorted(endpoints, key=lambda x: x.confidence, reverse=True)]: a stable
    sort, highest confidence first, endpoints of equal confidence in the
    order they had.  On keys that are numbers the result of a stable sort is
    determined by its input; the insertion below computes it. *)
Fixpoint insert_by_confidence (endpoint : APIEndpoint)
    (sorted_endpoints : list APIEndpoint) : list APIEndpoint :=
  match sorted_endpoints with
  | [] => [endpoint]
  | e :: rest =>
      if PrimFloat.ltb (confidence endpoint) (confidence e)
      then e :: insert_by_confidence endpoint rest
      else endpoint :: sorted_endpoints
  end.

Definition sorted_by_confidence (endpoints : list APIEndpoint)
  : list APIEndpoint :=
  fold_right insert_by_confidence [] endpoints.

(** The three comprehensions of the detailed and the console report. *)
Definition high_conf (sorted_endpoints : list APIEndpoint) : list APIEndpoint :=
  filter (fun e => PrimFloat.leb 0.8 (confidence e)) sorted_endpoints.

Definition medium_conf (sorted_endpoints : list APIEndpoint)
  : list APIEndpoint :=
  filter (fun e => PrimFloat.leb 0.5 (confidence e)
                   && PrimFloat.ltb (confidence e) 0.8)
         sorted_endpoints.

Definition low_conf (sorted_endpoints : list APIEndpoint) : list APIEndpoint :=
  filter (fun e => PrimFloat.ltb (confidence e) 0.5) sorted_endpoints.


(** [str(n)] of a length, [s * n] and [sep.join(parts)]. *)
Definition str_of_len (n : nat) : string :=
  NilZero.string_of_uint (Nat.to_uint n).

Definition times (s : string) (n : nat) : string :=
  String.concat "" (repeat s n).

Definition join (sep : string) (parts : list string) : string :=
  String.concat sep parts.

(** The separator and the line starts written with a doubled backslash in
    the source: a backslash followed by the letter n. *)
Definition backslash_n : string := "\n".

Section Console.

(** [f'{c:.2f}'] *)
Variable format_2f : float -> string.

(** The lines of one endpoint; only the first section lists parameters. *)
Definition endpoint_lines (with_parameters : bool) (endpoint : APIEndpoint)
  : list string :=
  [("  [" ++ method endpoint ++ "] " ++ url endpoint)%string;
   ("      Source: " ++ source endpoint ++ " | Confidence: "
    ++ format_2f (confidence endpoint))%string]
  ++ (if with_parameters
      then match parameters endpoint with
           | Some (p :: ps) =>
               [("      Parameters: " ++ join ", " (p :: ps))%string]
           | _ => []
           end
      else []).

Definition section_lines (title : string) (with_parameters : bool)
    (members : list APIEndpoint) : list string :=
  match members with
  | [] => []
  | _ :: _ => title :: flat_map (endpoint_lines with_parameters) members
  end.

Definition generate_console_report (endpoints : list APIEndpoint) : string :=
  match endpoints with
  | [] => "No API endpoints discovered."
  | _ :: _ =>
      let sorted_endpoints := sorted_by_confidence endpoints in
      let high := high_conf sorted_endpoints in
      let medium := medium_conf sorted_endpoints in
      let low := low_conf sorted_endpoints in
      let output :=
        [(backslash_n ++ "🔍 API Hunter Results ("
          ++ str_of_len (length endpoints) ++ " endpoints found)")%string;
         times "=" 60]
        ++ section_lines (backslash_n ++ "🟢 HIGH CONFIDENCE ENDPOINTS:")
             true high
        ++ section_lines (backslash_n ++ "🟡 MEDIUM CONFIDENCE ENDPOINTS:")
             false medium
        ++ section_lines (backslash_n ++ "🟠 LOW CONFIDENCE ENDPOINTS:")
             false low
        ++ [(backslash_n ++ times "=" 60)%string;
            ("Summary: " ++ str_of_len (length high) ++ " high, "
             ++ str_of_len (length medium) ++ " medium, "
             ++ str_of_len (length low) ++ " low confidence")%string] in
      join backslash_n output
  end.

End Console.

End Reporter.

(** ** auth.py, and the sessions of a run

    A [requests.Session] is an object: the store holds the state of every
    session made so far, and an authenticator or a discovery refers to its
    session by address.  What [requests] does to a session is not code of the
    repository: the state of a new session, [headers.update] and
    [cookies.set] are parameters; the last two give the session as they leave
    it and may raise. *)
Module Auth.

Section Sessions.

Variable Session : Type.
Variable new_session : Session.
Variable headers_update : Session -> json -> Session * py unit.
Variable cookies_set : Session -> string -> json -> Session * py unit.

Definition address : Type := nat.
Definition store : Type := list Session.

(** [requests.Session()] *)
Definition requests_Session (st : store) : address * store :=
  (length st, st ++ [new_session]).

Definition session_at (st : store) (a : address) : Session :=
  nth a st new_session.

Fixpoint write (st : store) (a : address) (s : Session) : store :=
  match st, a with
  | [], _ => []
  | _ :: rest, O => s :: rest
  | x :: rest, S a' => x :: write rest a' s
  end.

(** [d[k] = v] on a dict *)
Fixpoint dict_set (k : string) (v : json) (d : list (string * json))
  : list (string * json) :=
  match d with
  | [] => [(k, v)]
  | (k', v') :: rest =>
      if String.eqb k k' then (k, v) :: rest
      else (k', v') :: dict_set k v rest
  end.

Record Authenticator : Type := mkAuthenticator {
  session : address;
  authenticated : bool;
  auth_headers : list (string * json)
}.

(** [Authenticator.__init__] *)
Definition new_Authenticator (session : address) : Authenticator :=
  mkAuthenticator session false [].

Definition is_authenticated (self : Authenticator) : bool :=
  authenticated self.

(** The loop of [login_with_cookies] over [cookies.items()]: the session as
    the loop leaves it, and whether it ran to its end. *)
Fixpoint set_cookies (s : Session) (items : list (string * json))
  : Session * bool :=
  match items with
  | [] => (s, true)
  | (name, value) :: rest =>
      match cookies_set s name value with
      | (s', Returns _) => set_cookies s' rest
      | (s', Raises _) => (s', false)
      end
  end.

(** Only a dict has [items]; on anything else the call raises
    [AttributeError], which the handler turns into [False]. *)
Definition login_with_cookies (self : Authenticator) (cookies : json)
    (st : store) : bool * Authenticator * store :=
  match cookies with
  | JObject items =>
      let '(s, finished) := set_cookies (session_at st (session self)) items in
      let st' := write st (session self) s in
      if finished
      then (true, mkAuthenticator (session self) true (auth_headers self), st')
      else (false, self, st')
  | _ => (false, self, st)
  end.

Definition login_with_headers (self : Authenticator) (headers : json)
    (st : store) : bool * Authenticator * store :=
  let '(s, updated) := headers_update (session_at st (session self)) headers in
  let st' := write st (session self) s in
  match updated with
  | Returns _ =>
      (true, mkAuthenticator (session self) true (auth_headers self), st')
  | Raises _ => (false, self, st')
  end.

(** *** login_spond_token *)

Variable urljoin : string -> string -> py string.
Variable url_origin : string -> py string.

Definition test_endpoints : list string :=
  ["/client/api/user"; "/client/api/sponds"; "/api/user"; "/api/profile";
   "/api/v1/user"; "/api/sponds"].

(** The loop over [test_endpoints], from request [i] on.  [get i u] answers
    the [i]-th request of the login, sent to [u].  The loop returns from the
    function when a probe is answered with 200 ([true]) or runs to its end
    ([false]); a [RequestException] goes on with the next endpoint, and what
    [urljoin] raises leaves the loop. *)
Fixpoint test_token (get : nat -> string -> http_result) (api_base : string)
    (i : nat) (endpoints : list string) : py bool :=
  match endpoints with
  | [] => Returns false
  | endpoint :: rest =>
      test_url <- urljoin api_base endpoint ;;
      match get i test_url with
      | Response response =>
          if (status_code response =? 200)%Z then Returns true
          else test_token get api_base (S i) rest
      | RequestException => test_token get api_base (S i) rest
      end
  end.

Definition login_spond_token (get : nat -> string -> http_result)
    (self : Authenticator) (token base_url : string) (st : store)
  : bool * Authenticator * store :=
  let auth_headers :=
    dict_set "Authorization" (JString ("Bearer " ++ token)) (auth_headers self) in
  let self := mkAuthenticator (session self) (authenticated self) auth_headers in
  let '(s, updated) :=
    headers_update (session_at st (session self)) (JObject auth_headers) in
  let st' := write st (session self) s in
  match (_ <- updated ;;
         api_base <- url_origin base_url ;;
         test_token get api_base 0 test_endpoints) with
  | Returns _ => (true, mkAuthenticator (session self) true auth_headers, st')
  | Raises _ => (false, self, st')
  end.

(** *** The sessions of main and of the discovery *)


(** main, the branches of [args.cookies] and [args.auth_headers] once
    [json.loads] has returned: the authenticator the scan goes on with. *)
Definition cookies_branch (cookies : json) (st : store)
  : option Authenticator * store :=
  let '(session, st) := requests_Session st in
  let authenticator := new_Authenticator session in
  let '(success, authenticator, st) :=
    login_with_cookies authenticator cookies st in
  (if success then Some authenticator else None, st).

Definition headers_branch (headers : json) (st : store)
  : option Authenticator * store :=
  let '(session, st) := requests_Session st in
  let authenticator := new_Authenticator session in
  let '(success, authenticator, st) :=
    login_with_headers authenticator headers st in
  (if success then Some authenticator else None, st).

(** [APIDiscovery.__init__]: the discovery makes a session of its own, and
    an authenticator of its own on that session when it is given none. *)
Record APIDiscovery : Type := mkAPIDiscovery {
  base_url : string;
  discovery_session : address;
  authenticator : Authenticator
}.


(** The session each request of a run is sent through: the page and the
    validation probes through [self.session], the scanner through
    [discovery.session], the authenticated probes through
    [self.authenticator.session]. *)
Inductive request : Type :=
| page_fetch
| validation_probe
| scanner_request
| authenticated_probe.

Definition session_of (discovery : APIDiscovery) (r : request) : address :=
  match r with
  | authenticated_probe => session (authenticator discovery)
  | page_fetch | validation_probe | scanner_request =>
      discovery_session discovery
  end.

End Sessions.

End Auth.

(** ** Concrete inputs of the examples *)
Module Examples.

Import Core.

Definition newline : string := String (ascii_of_nat 10) "".

(** Two candidates for one (url, method) key, found by different strategies. *)
Definition low : APIEndpoint :=
  new_APIEndpoint "https://x.test/api/users" None None None
    (Some "comment") (Some 0.5%float).

Definition high : APIEndpoint :=
  new_APIEndpoint "https://x.test/api/users" None None None
    (Some "ajax_call") (Some 0.9%float).

Definition other : APIEndpoint :=
  new_APIEndpoint "https://x.test/api/users" (Some "POST") (Some ["q"]) None
    (Some "html_form") (Some 0.6%float).

(** Three candidates at confidence 0.6 and the answers to their HEAD
    requests: a JSON page, a server error, a timeout. *)
Definition users : APIEndpoint :=
  new_APIEndpoint "https://x.test/api/users" None None None
    (Some "html_form") (Some 0.6%float).

Definition orders : APIEndpoint :=
  new_APIEndpoint "https://x.test/api/orders" None None None
    (Some "html_form") (Some 0.6%float).

Definition items : APIEndpoint :=
  new_APIEndpoint "https://x.test/api/items" None None None
    (Some "html_form") (Some 0.6%float).

Definition ok_json : response :=
  mkResponse 200 (Some "application/json") "" None.

Definition server_error : response := mkResponse 500 None "" None.

Definition not_found : response := mkResponse 404 None "" None.

Definition answers (i : nat) (u : string) : http_result :=
  match i with
  | 0 => Response ok_json
  | 1 => Response server_error
  | _ => RequestException
  end.

(** An endpoint built without a confidence has the default 0.0. *)
Definition unscored : APIEndpoint :=
  new_APIEndpoint "https://x.test/api/users" None None None None None.

(** A host where /api answers with JSON, /rest with a page, /graphql with 404,
    and every other request times out. *)
Definition ok_html : response := mkResponse 200 (Some "text/html") "" None.

Definition host (u : string) : http_result :=
  if String.eqb u "https://x.test/api" then Response ok_json
  else if String.eqb u "https://x.test/rest" then Response ok_html
  else if String.eqb u "https://x.test/graphql" then Response not_found
  else RequestException.

(** A robots.txt of three lines, and a server that returns it. *)
Definition robots_body : string :=
  "User-agent: *" ++ newline ++ "Disallow: /api/v1/" ++ newline
  ++ "Allow: /rest/".

Definition robots_server (body : string) (u : string) : http_result :=
  Response (mkResponse 200 (Some "text/plain") body None).

(** A Swagger document with two paths and three operations, served as JSON at
    /swagger.json only. *)
Definition petstore_paths : list (string * json) :=
  [("/pets", JObject [("get", JObject []); ("post", JObject [])]);
   ("/pets/{id}", JObject [("delete", JObject [])])].

Definition petstore_members : list (string * json) :=
  [("swagger", JString "2.0");
   ("basePath", JString "/v2");
   ("paths", JObject petstore_paths)].

Definition petstore : response :=
  mkResponse 200 (Some "application/json; charset=utf-8") ""
             (Some (JObject petstore_members)).

Definition swagger_server (u : string) : http_result :=
  if String.eqb u "https://x.test/swagger.json"
  then Response petstore
  else Response not_found.

(** A page at https://x.test/home with one form whose action is a script
    URL, and the endpoint the form strategy makes of it. *)
Definition page_url : string := "https://x.test/home".




(** A page whose only script calls fetch on /api/v2/users, with stand-ins for
    the two library functions on it: the matcher finds the argument of the
    fetch call, and the path resolves against the host of the page. *)
Definition fetch_page : node :=
  Tag "[document]" []
    [Tag "script" [] [NavigableString "fetch('/api/v2/users')"]].

Definition fetch_findall (pattern : string) (flags : list re_flag)
    (s : string) : list string :=
  if String.eqb pattern ("fetch\s*\(\s*" ++ quoted_arg)
     && String.eqb s "fetch('/api/v2/users')"
  then ["/api/v2/users"] else [].

Definition host_join (base u : string) : py string :=
  Returns ("https://x.test" ++ u)%string.

Definition fetch_endpoint : APIEndpoint :=
  new_APIEndpoint "https://x.test/api/v2/users" (Some "GET") None None
    (Some "javascript") (Some 0.8%float).

Definition timeouts (i : nat) (u : string) : http_result := RequestException.

(** A page that calls [$.get('/api/users')], and a matcher that finds the
    verb and the argument of the call. *)
Definition verb_page : string := "$.get('/api/users')".

Definition verb_findall2 (pattern : string) (flags : list re_flag)
    (s : string) : list (string * string) :=
  if String.eqb s verb_page then [("get", "/api/users")] else [].

Definition site_origin (u : string) : py string := Returns "https://x.test".

Definition no_search (pattern : string) (flags : list re_flag) (s : string)
  : bool := false.

Definition no_findall (pattern : string) (flags : list re_flag) (s : string)
  : list string := [].

Definition no_findall2 (pattern : string) (flags : list re_flag) (s : string)
  : list (string * string) := [].

(** A page with the fetch script and two forms for the same path, one
    posting and one getting; what a run makes of it when the first HEAD
    request is answered with JSON and the second with a server error. *)
Definition shop_page : node :=
  Tag "[document]" []
    [Tag "script" [] [NavigableString "fetch('/api/v2/users')"];
     Tag "form" [("action", "/api/v2/users"); ("method", "post")]
       [Tag "input" [("name", "q")] []];
     Tag "form" [("action", "/api/v2/users")] []].

Definition shop_result : list APIEndpoint :=
  [new_APIEndpoint "https://x.test/api/v2/users" (Some "GET") None None
     (Some "javascript") (Some 1.0%float);
   new_APIEndpoint "https://x.test/api/v2/users" (Some "POST") (Some ["q"])
     None (Some "html_form") (Some 0.6%float)].



(** A sitemap with three entries: an API page on another host, an ordinary
    page, and an entry whose location is missing; the parser stand-in returns
    it for the body [sitemap] and fails on anything else. *)
Definition sitemap_tag (name : string) : string :=
  (Scanner.sitemap_ns ++ name)%string.

Definition sitemap_doc : Scanner.xml :=
  Scanner.Element (sitemap_tag "urlset") None
    [Scanner.Element (sitemap_tag "url") None
       [Scanner.Element (sitemap_tag "loc")
          (Some "https://cdn.example.org/api/v1/items") [];
        Scanner.Element (sitemap_tag "lastmod") (Some "2024-01-01") []];
     Scanner.Element (sitemap_tag "url") None
       [Scanner.Element (sitemap_tag "loc") (Some "https://x.test/about") []];
     Scanner.Element (sitemap_tag "url") None
       [Scanner.Element (sitemap_tag "lastmod") (Some "2024-01-01") []]].

Definition sitemap_parser (s : string) : option Scanner.xml :=
  if String.eqb s "sitemap" then Some sitemap_doc else None.

(** A host that serves the sitemap at /sitemap.xml, a broken document at
    /sitemap_index.xml, and nothing at /sitemaps/sitemap.xml. *)
Definition sitemap_server (u : string) : http_result :=
  if String.eqb u "https://x.test/sitemap.xml"
  then Response (mkResponse 200 (Some "application/xml") "sitemap" None)
  else if String.eqb u "https://x.test/sitemap_index.xml"
  then Response (mkResponse 200 (Some "application/xml") "<broken" None)
  else Response not_found.

(** A scan of https://x.test with every option on.  The page is the shop
    page; /api and /rest answer the probes of the common paths; the host
    serves a Swagger document that declares GET and POST on /api/v2/users, a
    robots.txt of one directive and the sitemap above. *)
Definition catalog_paths : list (string * json) :=
  [("/users", JObject [("get", JObject []); ("post", JObject [])])].

Definition catalog_members : list (string * json) :=
  [("basePath", JString "/api/v2"); ("paths", JObject catalog_paths)].

Definition catalog_spec : response :=
  mkResponse 200 (Some "application/json") ""
             (Some (JObject catalog_members)).

Definition catalog_server (u : string) : http_result :=
  if String.eqb u "https://x.test/swagger.json"
  then Response catalog_spec
  else if String.eqb u "https://x.test/robots.txt"
  then Response (mkResponse 200 (Some "text/plain") "Disallow: /api/private"
                            None)
  else if String.eqb u "https://x.test/sitemap.xml"
  then Response (mkResponse 200 (Some "application/xml") "sitemap" None)
  else Response not_found.

Definition catalog_collected : py (list APIEndpoint) :=
  Main.endpoints host_join site_origin no_search fetch_findall no_findall2
    (fun _ => shop_page) sitemap_parser (@rev _) false (Response ok_html)
    timeouts answers host catalog_server "https://x.test" true true false.

Definition catalog_scan (threshold : float) : py (list APIEndpoint) :=
  Main.filtered_endpoints host_join site_origin no_search fetch_findall
    no_findall2 (fun _ => shop_page) sitemap_parser (@rev _) false
    (Response ok_html) timeouts answers host catalog_server "https://x.test"
    true true threshold false.

(** What the scan keeps at the threshold 0.7. *)
Definition catalog_kept : list APIEndpoint :=
  [new_APIEndpoint "https://x.test/api/v2/users" (Some "GET") None None
     (Some "javascript") (Some 1.0%float);
   new_APIEndpoint "https://x.test/api" None None None
     (Some "path_scan") (Some 0.8%float);
   new_APIEndpoint "https://x.test/swagger.json" None None None
     (Some "swagger_docs") (Some 0.9%float);
   new_APIEndpoint "https://cdn.example.org/api/v1/items" None None None
     (Some "sitemap") (Some 0.7%float)].

(** Everything the scan collects, before the merge. *)
Definition catalog_all : list APIEndpoint :=
  shop_result
  ++ [new_APIEndpoint "https://x.test/rest" None None None
        (Some "path_scan") (Some 0.5%float);
      new_APIEndpoint "https://x.test/api" None None None
        (Some "path_scan") (Some 0.8%float);
      new_APIEndpoint "https://x.test/swagger.json" None None None
        (Some "swagger_docs") (Some 0.9%float);
      new_APIEndpoint "https://x.test/api/v2/users" (Some "GET") None None
        (Some "swagger_spec") (Some 1.0%float);
      new_APIEndpoint "https://x.test/api/v2/users" (Some "POST") None None
        (Some "swagger_spec") (Some 1.0%float);
      new_APIEndpoint "https://x.test/api/private" None None None
        (Some "robots_txt") (Some 0.6%float);
      new_APIEndpoint "https://cdn.example.org/api/v1/items" None None None
        (Some "sitemap") (Some 0.7%float)].

(** Sessions as a pair of dicts, headers and cookies, on which the two
    updates of [requests] are dict updates; a server that answers every
    request with 401. *)
Definition plain_session : Type :=
  (list (string * json) * list (string * json))%type.

Definition plain_new : plain_session := ([], []).

Definition plain_headers_update (s : plain_session) (d : json)
  : plain_session * py unit :=
  match d with
  | JObject items =>
      ((fold_left (fun h kv => Auth.dict_set (fst kv) (snd kv) h) items
                  (fst s), snd s), Returns tt)
  | _ => (s, Raises TypeError)
  end.

Definition plain_cookies_set (s : plain_session) (name : string)
    (value : json) : plain_session * py unit :=
  ((fst s, Auth.dict_set name value (snd s)), Returns tt).

Definition unauthorized : response := mkResponse 401 None "" None.

Definition all_unauthorized (i : nat) (u : string) : http_result :=
  Response unauthorized.

Definition session_cookie : json := JObject [("session_id", JString "abc123")].

(** main's cookie login on an empty store, and the discovery made after
    it with the store it leaves. *)
Definition logged_in : option Auth.Authenticator * list plain_session :=
  Auth.cookies_branch plain_new plain_cookies_set session_cookie [].

Definition cookie_discovery : Auth.APIDiscovery :=
  Auth.mkAPIDiscovery "https://x.test" 1 (Auth.mkAuthenticator 0 true []).

Definition sessions_of_the_run : list plain_session :=
  [([], [("session_id", JString "abc123")]);
   ([("User-Agent", JString "APIHunter/1.0 (API Discovery Tool)")], [])].

End Examples.

(** ** Vocabulary of the properties

    Nothing here is code of the repository: these definitions name what the
    properties below speak about. *)
Module Spec.

Import Core.

(** The members of the group of [k], in input order, and the maximum of their
    confidences as Python's [max] computes it. *)
Definition group (k : key) (endpoints : list APIEndpoint) : list APIEndpoint :=
  filter (fun e => key_eqb (key_of e) k) endpoints.

Definition max_confidence (members : list APIEndpoint) : option float :=
  match members with
  | [] => None
  | e :: rest =>
      Some (fold_left (fun m x => pymax m (confidence x)) rest (confidence e))
  end.

(** What one probe makes of a confidence: the arithmetic of [validate_one]. *)
Definition adjusted (probe : http_result) (c : float) : float :=
  match probe with
  | Response r =>
      if (status_code r <? 400)%Z then
        if PyStr.contains_any api_content_types
             (PyStr.lower (content_type_header r))
        then pymin (pymin (c + 0.2) 1.0 + 0.1) 1.0
        else pymin (c + 0.2) 1.0
      else c
  | RequestException => pymax (c - 0.3) 0.1
  end%float.

(** The interval [0.1, 1.0], and the confidences the extraction strategies
    and the authenticated probe pass to the constructor. *)
Definition within_bounds (c : float) : bool :=
  (PrimFloat.leb 0.1 c && PrimFloat.leb c 1.0)%float.

Definition base_confidences : list float :=
  [0.4; 0.5; 0.6; 0.7; 0.8; 0.9; 0.95]%float.

Definition base_scored (e : APIEndpoint) : Prop :=
  In (confidence e) base_confidences.








Definition from_spec (e : APIEndpoint) : Prop :=
  source e = "swagger_spec" /\ confidence e = 1.0%float.

Section Stages.

Variable urljoin : string -> string -> py string.
Variable url_origin : string -> py string.
Variable re_search : string -> list re_flag -> string -> bool.
Variable re_findall : string -> list re_flag -> string -> list string.
Variable re_findall2 :
  string -> list re_flag -> string -> list (string * string).
Variable base_url : string.
Variable authenticated : bool.
Variable BeautifulSoup : string -> node.
Variable verbose : bool.

(** The endpoints the page itself gives, before any probe is sent: the
    strategies of [discover_endpoints] in the order it runs them. *)
Definition passive_endpoints (r : response) : py (list APIEndpoint) :=
  e0 <- (if authenticated
         then _discover_authenticated_content urljoin re_findall base_url
                authenticated (text r)
         else Returns []) ;;
  e1 <- _discover_from_links urljoin re_search base_url
          (BeautifulSoup (text r)) ;;
  e2 <- _discover_from_scripts urljoin re_findall re_findall2 base_url
          (BeautifulSoup (text r)) ;;
  e3 <- _discover_from_forms urljoin base_url (BeautifulSoup (text r)) ;;
  e4 <- _discover_from_ajax_calls urljoin re_findall re_findall2 base_url
          (text r) ;;
  e5 <- _discover_from_meta_tags urljoin base_url (BeautifulSoup (text r)) ;;
  e6 <- _discover_from_comments urljoin re_findall base_url (text r) ;;
  Returns (e0 ++ e1 ++ e2 ++ e3 ++ e4 ++ e5 ++ e6).

(** The authenticated probes of the run. *)
Definition auth_stage (auth_get : nat -> string -> http_result)
  : py (list APIEndpoint) :=
  if authenticated
  then _test_authenticated_endpoints urljoin url_origin re_findall re_findall2
         base_url auth_get verbose base_url
  else Returns [].

End Stages.

(** The pattern of [advanced_patterns] with two groups: a verb call such as
    [.get('...')]. *)
Definition verb_call_pattern : string :=
  "\.(get|post|put|delete|patch)\s*\(\s*" ++ quoted_arg.

(** The source tags [discover_endpoints] passes to the constructor, each with
    the confidence it passes along. *)
Definition source_table : list (string * float) :=
  [("html_link", 0.7); ("javascript", 0.8); ("html_form", 0.6);
   ("ajax_call", 0.9); ("meta_tag", 0.5); ("data_attribute", 0.8);
   ("comment", 0.4); ("authenticated_content", 0.8);
   ("authenticated_data_attr", 0.7);
   ("authenticated_endpoint_test", 0.95)]%float.

(** A candidate as a strategy builds it: a source of the table with its
    confidence, and the two optional fields filled in. *)
Definition candidate (e : APIEndpoint) : Prop :=
  In (source e, confidence e) source_table
  /\ parameters e <> None /\ headers e <> None.

(** A candidate after the validator has probed it. *)
Definition validated_candidate (e : APIEndpoint) : Prop :=
  exists c probe,
    In (source e, c) source_table
    /\ confidence e = adjusted probe c
    /\ parameters e <> None /\ headers e <> None.


(** The test [scan_robots_txt] puts a line to: stripped, it starts with one
    of the two directives. *)
Definition directive (line : string) : bool :=
  PyStr.startswith (PyStr.strip line) "Disallow:"
  || PyStr.startswith (PyStr.strip line) "Allow:".

(** A float that is a number: it equals itself, which NaN does not. *)
Definition number (c : float) : bool := PrimFloat.eqb c c.

Definition numbered (e : APIEndpoint) : Prop := number (confidence e) = true.

(** Highest confidence first. *)
Definition descending : list APIEndpoint -> Prop :=
  StronglySorted
    (fun a b => PrimFloat.leb (confidence b) (confidence a) = true).

(** The character that ends a line, and the texts without one. *)
Definition line_feed : ascii := ascii_of_nat 10.

Fixpoint has_line_feed (s : string) : bool :=
  match s with
  | EmptyString => false
  | String c t => Ascii.eqb c line_feed || has_line_feed t
  end.

Definition one_line_fields (e : APIEndpoint) : Prop :=
  has_line_feed (url e) = false
  /\ has_line_feed (method e) = false
  /\ has_line_feed (source e) = false
  /\ forall ps, parameters e = Some ps ->
                Forall (fun p => has_line_feed p = false) ps.

(** What the scanner adds to the endpoints of the discovery, in the order
    [main] extends the list. *)
Definition scanner_endpoints
    (as_completed : list (option APIEndpoint) -> list (option APIEndpoint))
    (scan_head get : string -> http_result)
    (fromstring : string -> option Scanner.xml)
    (args_url : string) (args_scan_common_paths args_include_swagger : bool)
  : list APIEndpoint :=
  (if args_scan_common_paths
   then Scanner.scan_common_paths as_completed scan_head args_url else [])
  ++ (if args_include_swagger
      then Scanner.discover_swagger_docs get args_url else [])
  ++ Scanner.scan_robots_txt get args_url
  ++ Scanner.scan_sitemap get fromstring args_url.

End Spec.

(** * Properties *)

(** ** The dataclass *)
Module Dataclass.

Import Core Spec.

(** The only assignment to a field after construction is the validator's
    [endpoint.confidence = ...]; it leaves the other fields alone. *)
Lemma validate_one_keeps_fields :
  forall probe e,
    url (validate_one probe e) = url e
    /\ method (validate_one probe e) = method e
    /\ parameters (validate_one probe e) = parameters e
    /\ headers (validate_one probe e) = headers e
    /\ source (validate_one probe e) = source e.
Proof.
  intros probe e. unfold validate_one.
  destruct probe as [r|]; [|cbn; tauto].
  destruct (status_code r <? 400)%Z; [|tauto].
  destruct (PyStr.contains_any api_content_types
              (PyStr.lower (content_type_header r))); cbn; tauto.
Qed.

(** C10. After construction [parameters] and [headers] are never [None]: an
    omitted or [None] argument has become the empty list or the empty dict,
    and a given one is kept; the validator, the only code that assigns to a
    field of an endpoint afterwards, leaves both as they are. *)
Theorem new_APIEndpoint_fields_not_None :
  forall u m (ps : option (list string)) (hs : option (list (string * string)))
         s c,
    parameters (new_APIEndpoint u m ps hs s c)
      = Some (match ps with Some l => l | None => [] end)
    /\ headers (new_APIEndpoint u m ps hs s c)
      = Some (match hs with Some d => d | None => [] end)
    /\ parameters (new_APIEndpoint u m ps hs s c) <> None
    /\ headers (new_APIEndpoint u m ps hs s c) <> None
    /\ forall probe,
         parameters (validate_one probe (new_APIEndpoint u m ps hs s c)) <> None
         /\ headers (validate_one probe (new_APIEndpoint u m ps hs s c))
            <> None.
Proof.
  intros u m ps hs s c.
  assert (Hp : parameters (new_APIEndpoint u m ps hs s c)
               = Some (match ps with Some l => l | None => [] end)).
  { unfold new_APIEndpoint, __post_init__. destruct ps, hs; reflexivity. }
  assert (Hh : headers (new_APIEndpoint u m ps hs s c)
               = Some (match hs with Some d => d | None => [] end)).
  { unfold new_APIEndpoint, __post_init__. destruct ps, hs; reflexivity. }
  repeat split; try assumption; try congruence.
  - destruct (validate_one_keeps_fields probe (new_APIEndpoint u m ps hs s c))
      as [_ [_ [-> _]]]. congruence.
  - destruct (validate_one_keeps_fields probe (new_APIEndpoint u m ps hs s c))
      as [_ [_ [_ [-> _]]]]. congruence.
Qed.

End Dataclass.

(** ** The merger: [_deduplicate_endpoints] *)
Module Merger.

Import Core Spec.

Lemma key_eqb_eq : forall a b : key, key_eqb a b = true <-> a = b.
Proof.
  intros [u m] [u' m']. unfold key_eqb. cbn.
  rewrite andb_true_iff, !String.eqb_eq.
  split; [intros [-> ->]; reflexivity | intros H; inversion H; auto].
Qed.

Lemma key_eqb_refl : forall a : key, key_eqb a a = true.
Proof. intros a. apply key_eqb_eq. reflexivity. Qed.

Lemma key_eqb_neq : forall a b : key, key_eqb a b = false <-> a <> b.
Proof.
  intros a b. rewrite <- key_eqb_eq. destruct (key_eqb a b); split; congruence.
Qed.

Lemma key_in_In : forall k seen, key_in k seen = true <-> In k seen.
Proof.
  intros k seen. unfold key_in. rewrite existsb_exists. split.
  - intros [x [Hx Heq]]. apply key_eqb_eq in Heq. subst. exact Hx.
  - intros H. exists k. split; [exact H | apply key_eqb_refl].
Qed.

Lemma key_in_not_In : forall k seen, key_in k seen = false <-> ~ In k seen.
Proof.
  intros k seen. rewrite <- key_in_In. destruct (key_in k seen); split; congruence.
Qed.

(** The loop computes [dedup_from]. *)
Lemma dedup_loop_from :
  forall endpoints seen unique,
    snd (fold_left dedup_step endpoints (seen, unique))
    = unique ++ dedup_from seen endpoints.
Proof.
  induction endpoints as [|e rest IH]; intros seen unique; cbn.
  - rewrite app_nil_r. reflexivity.
  - destruct (key_in (key_of e) seen).
    + apply IH.
    + rewrite IH, <- app_assoc. reflexivity.
Qed.

Lemma dedup_is_dedup_from :
  forall endpoints, _deduplicate_endpoints endpoints = dedup_from [] endpoints.
Proof. intros endpoints. unfold _deduplicate_endpoints. apply dedup_loop_from. Qed.

Lemma dedup_from_In :
  forall endpoints seen e,
    In e (dedup_from seen endpoints) ->
    In e endpoints /\ ~ In (key_of e) seen.
Proof.
  induction endpoints as [|x rest IH]; intros seen e; cbn; [tauto|].
  destruct (key_in (key_of x) seen) eqn:Hseen.
  - intros H. apply IH in H. tauto.
  - intros [<- | H].
    + split; [auto | apply key_in_not_In; exact Hseen].
    + apply IH in H. cbn in H. tauto.
Qed.

Lemma dedup_from_NoDup :
  forall endpoints seen, NoDup (map key_of (dedup_from seen endpoints)).
Proof.
  induction endpoints as [|x rest IH]; intros seen; cbn; [constructor|].
  destruct (key_in (key_of x) seen); [apply IH|].
  cbn. constructor; [|apply IH].
  intros H. apply in_map_iff in H. destruct H as [e [Hk He]].
  apply dedup_from_In in He. destruct He as [_ He]. apply He.
  rewrite Hk. left. reflexivity.
Qed.

Lemma dedup_from_covers :
  forall endpoints seen x,
    In x endpoints -> ~ In (key_of x) seen ->
    exists e, In e (dedup_from seen endpoints) /\ key_of e = key_of x.
Proof.
  induction endpoints as [|y rest IH]; intros seen x; cbn; [tauto|].
  intros Hin Hseen.
  destruct (key_in (key_of y) seen) eqn:Hy.
  - destruct Hin as [-> | Hin].
    + apply key_in_In in Hy. contradiction.
    + apply IH; assumption.
  - destruct Hin as [-> | Hin].
    + exists x. split; [left|]; reflexivity.
    + destruct (key_eqb (key_of y) (key_of x)) eqn:Hk.
      * apply key_eqb_eq in Hk. exists y. split; [left; reflexivity | exact Hk].
      * apply key_eqb_neq in Hk.
        destruct (IH (key_of y :: seen) x Hin) as [e [He Hke]].
        { cbn. intros [H | H]; [apply Hk; exact H | apply Hseen; exact H]. }
        exists e. split; [right; exact He | exact Hke].
Qed.

Lemma group_skip :
  forall k x rest, key_of x <> k -> group k (x :: rest) = group k rest.
Proof.
  intros k x rest H. unfold group. cbn.
  apply key_eqb_neq in H. rewrite H. reflexivity.
Qed.

Lemma dedup_from_first_seen :
  forall endpoints seen,
    Forall (fun e => hd_error (group (key_of e) endpoints) = Some e)
           (dedup_from seen endpoints).
Proof.
  induction endpoints as [|x rest IH]; intros seen; cbn [dedup_from];
    [constructor|].
  destruct (key_in (key_of x) seen) eqn:Hx.
  - apply Forall_forall. intros e He.
    pose proof (proj1 (Forall_forall _ _) (IH seen) e He) as Hfirst.
    apply dedup_from_In in He. destruct He as [_ He].
    rewrite group_skip; [exact Hfirst|].
    intros Heq. apply He. rewrite <- Heq. apply key_in_In. exact Hx.
  - constructor.
    + unfold group. cbn. rewrite key_eqb_refl. reflexivity.
    + apply Forall_forall. intros e He.
      pose proof (proj1 (Forall_forall _ _) (IH (key_of x :: seen)) e He)
        as Hfirst.
      apply dedup_from_In in He. destruct He as [_ He].
      rewrite group_skip; [exact Hfirst|].
      intros Heq. apply He. left. exact Heq.
Qed.

(** A list whose keys are distinct and not yet seen passes through whole. *)
Lemma dedup_from_fixed :
  forall endpoints seen,
    NoDup (map key_of endpoints) ->
    (forall e, In e endpoints -> ~ In (key_of e) seen) ->
    dedup_from seen endpoints = endpoints.
Proof.
  induction endpoints as [|x rest IH]; intros seen Hnd Hseen; cbn; [reflexivity|].
  cbn in Hnd. inversion Hnd as [|k ks Hx Hrest]; subst.
  assert (Hfresh : key_in (key_of x) seen = false).
  { apply key_in_not_In. apply Hseen. left. reflexivity. }
  rewrite Hfresh. f_equal. apply IH; [exact Hrest|].
  intros e He [Hk | Hk].
  - apply Hx. rewrite Hk. apply in_map. exact He.
  - apply (Hseen e); [right; exact He | exact Hk].
Qed.

(** C7. Merging is idempotent. *)
Theorem dedup_idempotent :
  forall endpoints,
    _deduplicate_endpoints (_deduplicate_endpoints endpoints)
    = _deduplicate_endpoints endpoints.
Proof.
  intros endpoints. rewrite !dedup_is_dedup_from.
  apply dedup_from_fixed.
  - apply dedup_from_NoDup.
  - intros e _ H. inversion H.
Qed.

(** C1, as the code has it. The merger groups by exact (url, method)
    equality and keeps one endpoint per group: the output keys are distinct,
    every input key has a survivor, and the survivor is the first-seen member
    of its group as it stands, so its confidence, like its parameters,
    headers and source, is the first-seen member's. *)
Theorem dedup_keeps_first_seen :
  forall endpoints,
    NoDup (map key_of (_deduplicate_endpoints endpoints))
    /\ (forall x, In x endpoints ->
          exists e, In e (_deduplicate_endpoints endpoints)
                    /\ key_of e = key_of x)
    /\ Forall (fun e => hd_error (group (key_of e) endpoints) = Some e)
              (_deduplicate_endpoints endpoints).
Proof.
  intros endpoints. rewrite dedup_is_dedup_from. repeat split.
  - apply dedup_from_NoDup.
  - intros x Hx. apply dedup_from_covers; [exact Hx | intros H; inversion H].
  - apply dedup_from_first_seen.
Qed.

(** On the three candidates of the examples: the survivors are the first
    GET candidate and the POST candidate, and the later GET candidate is
    represented by the first. *)
Lemma dedup_keeps_first_seen_witness :
  (exists e,
      In e (_deduplicate_endpoints
              [Examples.low; Examples.other; Examples.high])
      /\ key_of e = key_of Examples.high)
  /\ Forall (fun e =>
               hd_error (group (key_of e)
                               [Examples.low; Examples.other; Examples.high])
               = Some e)
            (_deduplicate_endpoints
               [Examples.low; Examples.other; Examples.high]).
Proof.
  destruct (dedup_keeps_first_seen
              [Examples.low; Examples.other; Examples.high])
    as [_ [Hcover Hfirst]].
  split; [|exact Hfirst].
  apply Hcover. right. right. left. reflexivity.
Defined.

(** C1 as the specification states it does not hold: of two candidates for one key with
    confidences 0.5 and 0.9 the survivor is the first, with 0.5, while the
    maximum over the group is 0.9. *)
Lemma dedup_confidence_is_not_max :
  _deduplicate_endpoints [Examples.low; Examples.high] = [Examples.low]
  /\ group (key_of Examples.low) [Examples.low; Examples.high]
     = [Examples.low; Examples.high]
  /\ max_confidence [Examples.low; Examples.high] = Some 0.9%float
  /\ confidence Examples.low = 0.5%float
  /\ Some (confidence Examples.low)
     <> max_confidence (group (key_of Examples.low)
                              [Examples.low; Examples.high]).
Proof.
  split; [reflexivity|]. split; [reflexivity|]. split; [reflexivity|].
  split; [reflexivity|].
  intros H.
  apply (f_equal (fun o => match o with
                           | Some c => PrimFloat.ltb c 0.7%float
                           | None => false
                           end)) in H.
  vm_compute in H. discriminate H.
Qed.

Example dedup_three :
  _deduplicate_endpoints [Examples.low; Examples.other; Examples.high]
  = [Examples.low; Examples.other].
Proof. reflexivity. Qed.

End Merger.

(** ** The validator: [_validate_endpoints] *)
Module Validator.

Import Core Spec.

Local Open Scope float_scope.

Lemma confidence_validate_one :
  forall probe e,
    confidence (validate_one probe e) = adjusted probe (confidence e).
Proof.
  intros probe e. unfold validate_one, adjusted.
  destruct probe as [r|]; [|reflexivity].
  destruct (status_code r <? 400)%Z; [|reflexivity].
  destruct (PyStr.contains_any api_content_types
              (PyStr.lower (content_type_header r))); reflexivity.
Qed.


(** The [i]-th output is the [i]-th input after its own probe. *)
Lemma validate_from_nth :
  forall head endpoints k i e,
    nth_error endpoints i = Some e ->
    nth_error (validate_from head k endpoints) i
    = Some (validate_one (head (k + i)%nat (url e)) e).
Proof.
  intros head. induction endpoints as [|x rest IH]; intros k i e H.
  - destruct i; discriminate H.
  - destruct i as [|i]; cbn in *.
    + injection H as ->. rewrite Nat.add_0_r. reflexivity.
    + rewrite (IH (S k) i e H). rewrite Nat.add_succ_r. reflexivity.
Qed.



Lemma adjusted_base_within_bounds :
  forall probe c,
    In c base_confidences -> within_bounds (adjusted probe c) = true.
Proof.
  intros probe c Hc. unfold adjusted.
  destruct probe as [r|];
    [destruct (status_code r <? 400)%Z;
     [destruct (PyStr.contains_any api_content_types
                  (PyStr.lower (content_type_header r)))|]|];
    cbn in Hc; repeat (destruct Hc as [<- | Hc]; [vm_compute; reflexivity|]);
    contradiction.
Qed.

(** C2, as the code has it. For the [i]-th endpoint of the list: a response
    with status below 400 gives [min(c + 0.2, 1.0)], and [min] of that plus
    0.1 and 1.0 when the lowercased content type contains json, xml or api; a
    raised request exception gives [max(c - 0.3, 0.1)]; a response with
    status 400 or more leaves [c] as it was. *)
Theorem validate_adjusts_confidence :
  forall head endpoints i e,
    nth_error endpoints i = Some e ->
    exists e',
      nth_error (_validate_endpoints head endpoints) i = Some e'
      /\ (forall r, head i (url e) = Response r -> (status_code r < 400)%Z ->
            confidence e'
            = if PyStr.contains_any api_content_types
                   (PyStr.lower (content_type_header r))
              then pymin (pymin (confidence e + 0.2) 1.0 + 0.1) 1.0
              else pymin (confidence e + 0.2) 1.0)
      /\ (head i (url e) = RequestException ->
            confidence e' = pymax (confidence e - 0.3) 0.1)
      /\ (forall r, head i (url e) = Response r -> (400 <= status_code r)%Z ->
            confidence e' = confidence e).
Proof.
  intros head endpoints i e H.
  exists (validate_one (head i (url e)) e). split.
  - unfold _validate_endpoints. rewrite (validate_from_nth head endpoints 0 i H).
    reflexivity.
  - rewrite confidence_validate_one. unfold adjusted. repeat split.
    + intros r -> Hlt. apply Z.ltb_lt in Hlt. rewrite Hlt. reflexivity.
    + intros ->. reflexivity.
    + intros r -> Hge. apply Z.ltb_ge in Hge. rewrite Hge. reflexivity.
Qed.

(** The three endpoints at 0.6 of the examples end at 0.9, 0.6 and 0.3. *)
Lemma validate_adjusts_confidence_witness :
  (exists e', nth_error (_validate_endpoints Examples.answers
                           [Examples.users; Examples.orders; Examples.items]) 0
              = Some e' /\ confidence e' = 0.9)
  /\ (exists e', nth_error (_validate_endpoints Examples.answers
                           [Examples.users; Examples.orders; Examples.items]) 1
              = Some e' /\ confidence e' = 0.6)
  /\ (exists e', nth_error (_validate_endpoints Examples.answers
                           [Examples.users; Examples.orders; Examples.items]) 2
              = Some e' /\ confidence e' = 0.3).
Proof.
  split; [|split].
  - destruct (validate_adjusts_confidence Examples.answers
                [Examples.users; Examples.orders; Examples.items] 0 eq_refl)
      as [e' [Hn [Hok _]]].
    exists e'. split; [exact Hn|].
    rewrite (Hok Examples.ok_json eq_refl eq_refl). reflexivity.
  - destruct (validate_adjusts_confidence Examples.answers
                [Examples.users; Examples.orders; Examples.items] 1 eq_refl)
      as [e' [Hn [_ [_ Herr]]]].
    exists e'. split; [exact Hn|].
    rewrite (Herr Examples.server_error eq_refl); [reflexivity|].
    cbn. discriminate.
  - destruct (validate_adjusts_confidence Examples.answers
                [Examples.users; Examples.orders; Examples.items] 2 eq_refl)
      as [e' [Hn [_ [Hexc _]]]].
    exists e'. split; [exact Hn|].
    rewrite (Hexc eq_refl). reflexivity.
Defined.

(** C2 as the specification states it does not hold: an endpoint at 0.6 probed against a 500
    response stays at 0.6; [max(0.6 - 0.3, 0.1)], which is 0.3, is only
    assigned when the request raises. *)
Lemma status_500_leaves_confidence :
  _validate_endpoints (fun _ _ => Response Examples.server_error)
                      [Examples.users]
  = [Examples.users]
  /\ confidence Examples.users = 0.6
  /\ pymax (confidence Examples.users - 0.3) 0.1 = 0.3
  /\ confidence (validate_one (Response Examples.server_error) Examples.users)
     <> pymax (confidence Examples.users - 0.3) 0.1.
Proof.
  split; [reflexivity|]. split; [reflexivity|]. split; [reflexivity|].
  intros H. apply (f_equal (fun c => PrimFloat.ltb c 0.5)) in H.
  vm_compute in H. discriminate H.
Qed.



Example validate_three_within_bounds :
  map (fun e => within_bounds (confidence e))
      (_validate_endpoints Examples.answers
         [Examples.users; Examples.orders; Examples.items])
  = [true; true; true].
Proof. reflexivity. Qed.


End Validator.

(** ** The well-known-document prober: [EndpointScanner] *)
Module Prober.

Import Core Scanner Spec.

Local Open Scope float_scope.

(** *** scan_common_paths *)

Lemma collect_results_In :
  forall results e, In e (collect_results results) <-> In (Some e) results.
Proof.
  intros results e. unfold collect_results. rewrite in_flat_map. split.
  - intros [[x|] [Hin He]]; cbn in He; [|contradiction].
    destruct He as [-> | []]. exact Hin.
  - intros H. exists (Some e). split; [exact H | left; reflexivity].
Qed.

Lemma _test_endpoint_Some :
  forall head u e,
    _test_endpoint head u = Some e ->
    exists r,
      head u = Response r /\ (status_code r < 400)%Z
      /\ e = new_APIEndpoint u None None None (Some "path_scan")
               (Some (if PyStr.contains_any api_content_types
                           (PyStr.lower (content_type_header r))
                      then 0.8 else 0.5)).
Proof.
  intros head u e. unfold _test_endpoint.
  destruct (head u) as [r|]; [|discriminate].
  destruct (status_code r <? 400)%Z eqn:Hs; [|discriminate].
  intros H. injection H as <-. exists r.
  apply Z.ltb_lt in Hs. auto.
Qed.

Lemma _test_endpoint_None :
  forall head u,
    (head u = RequestException
     \/ exists r, head u = Response r /\ (400 <= status_code r)%Z) ->
    _test_endpoint head u = None.
Proof.
  intros head u [H | [r [H Hs]]]; unfold _test_endpoint; rewrite H;
    [reflexivity|].
  apply Z.ltb_ge in Hs. rewrite Hs. reflexivity.
Qed.

Lemma scan_common_paths_In :
  forall as_completed,
    (forall l : list (option APIEndpoint), Permutation l (as_completed l)) ->
    forall head base_url e,
      In e (scan_common_paths as_completed head base_url)
      <-> exists path,
            In path common_paths
            /\ _test_endpoint head (PyStr.rstrip_slash base_url ++ path)%string
               = Some e.
Proof.
  intros as_completed Hperm head base_url e. unfold scan_common_paths.
  rewrite collect_results_In. split.
  - intros H. apply (Permutation_in _ (Permutation_sym (Hperm _))) in H.
    apply in_map_iff in H. destruct H as [path [Ht Hp]]. exists path. auto.
  - intros [path [Hp Ht]]. apply (Permutation_in _ (Hperm _)).
    apply in_map_iff. exists path. auto.
Qed.

(** C9. Whatever the order in which the probes complete: every endpoint of
    the result has source path_scan and method GET, belongs to a common path
    whose HEAD request was answered with a status below 400, and has
    confidence 0.8 when the lowercased content type contains json, xml or
    api and 0.5 otherwise; a probe that raised or was answered with a status
    of 400 or more returns [None] and no endpoint of the result has its URL;
    and every probe answered below 400 has its endpoint in the result. *)
Theorem scan_common_paths_only_successes :
  forall as_completed,
    (forall l : list (option APIEndpoint), Permutation l (as_completed l)) ->
    forall head base_url,
      (forall e,
          In e (scan_common_paths as_completed head base_url) ->
          source e = "path_scan" /\ method e = "GET"
          /\ exists path r,
               In path common_paths
               /\ url e = (PyStr.rstrip_slash base_url ++ path)%string
               /\ head (url e) = Response r
               /\ (status_code r < 400)%Z
               /\ confidence e
                  = if PyStr.contains_any api_content_types
                         (PyStr.lower (content_type_header r))
                    then 0.8 else 0.5)
      /\ (forall path,
             In path common_paths ->
             (head (PyStr.rstrip_slash base_url ++ path)%string
              = RequestException
              \/ exists r,
                   head (PyStr.rstrip_slash base_url ++ path)%string
                   = Response r
                   /\ (400 <= status_code r)%Z) ->
             _test_endpoint head (PyStr.rstrip_slash base_url ++ path)%string
             = None
             /\ forall e,
                  In e (scan_common_paths as_completed head base_url) ->
                  url e <> (PyStr.rstrip_slash base_url ++ path)%string)
      /\ (forall path r,
             In path common_paths ->
             head (PyStr.rstrip_slash base_url ++ path)%string = Response r ->
             (status_code r < 400)%Z ->
             exists e,
               In e (scan_common_paths as_completed head base_url)
               /\ url e = (PyStr.rstrip_slash base_url ++ path)%string).
Proof.
  intros as_completed Hperm head base_url. split; [|split].
  - intros e He. apply (scan_common_paths_In as_completed Hperm) in He.
    destruct He as [path [Hp Ht]].
    apply _test_endpoint_Some in Ht. destruct Ht as [r [Hr [Hs ->]]].
    cbn. repeat split. exists path, r. auto.
  - intros path Hp Hfail. split; [apply _test_endpoint_None; exact Hfail|].
    intros e He Hurl. apply (scan_common_paths_In as_completed Hperm) in He.
    destruct He as [path' [_ Ht]].
    apply _test_endpoint_Some in Ht. destruct Ht as [r [Hr [Hs ->]]].
    cbn in Hurl. rewrite Hurl in Hr.
    destruct Hfail as [Hf | [r' [Hf Hs']]]; rewrite Hf in Hr;
      [discriminate Hr|].
    injection Hr as ->. lia.
  - intros path r Hp Hr Hs.
    exists (new_APIEndpoint (PyStr.rstrip_slash base_url ++ path) None None
              None (Some "path_scan")
              (Some (if PyStr.contains_any api_content_types
                          (PyStr.lower (content_type_header r))
                     then 0.8 else 0.5))).
    split; [|reflexivity].
    apply (scan_common_paths_In as_completed Hperm). exists path. split; [exact Hp|].
    unfold _test_endpoint. rewrite Hr.
    apply Z.ltb_lt in Hs. rewrite Hs. reflexivity.
Qed.

(** On the example host, with the probes completing in reverse order, the
    scan returns /rest at 0.5 and /api at 0.8. *)
Lemma scan_common_paths_only_successes_witness :
  map (fun e => (url e, confidence e))
      (scan_common_paths (@rev _) Examples.host "https://x.test/")
  = [("https://x.test/rest"%string, 0.5); ("https://x.test/api"%string, 0.8)]
  /\ Forall (fun e => source e = "path_scan" /\ method e = "GET")
            (scan_common_paths (@rev _) Examples.host "https://x.test/").
Proof.
  split; [reflexivity|].
  apply Forall_forall. intros e He.
  destruct (scan_common_paths_only_successes (@rev _)
              (fun l => Permutation_rev l) Examples.host "https://x.test/")
    as [Hall _].
  destruct (Hall e He) as [Hsource [Hmethod _]]. split; assumption.
Defined.

(** *** scan_robots_txt *)

Lemma append_char_assoc :
  forall (acc : string) c t,
    ((acc ++ String c "") ++ t)%string = (acc ++ String c t)%string.
Proof.
  induction acc as [|a acc IH]; intros c t; cbn;
    [reflexivity | rewrite IH; reflexivity].
Qed.

(** A text that does not contain the separator is one piece. *)
Lemma split_without_separator :
  forall sep s acc,
    PyStr.contains sep s = false ->
    PyStr.split_go sep 0 acc s = [(acc ++ s)%string].
Proof.
  intros sep. induction s as [|c t IH]; intros acc H.
  - cbn. destruct acc; cbn; [reflexivity|].
    f_equal. f_equal. clear. induction acc as [|a acc IH]; cbn;
      [reflexivity | rewrite <- IH; reflexivity].
  - cbn [PyStr.contains] in H. apply orb_false_iff in H. destruct H as [Hp Ht].
    cbn [PyStr.split_go]. rewrite Hp. rewrite (IH _ Ht).
    rewrite append_char_assoc. reflexivity.
Qed.

(** The body is split at backslash-n, not at line ends: a body without the
    two characters backslash and n is taken as one line, so it yields at most
    one endpoint however many directives it has. *)
Lemma robots_body_is_one_line :
  forall get base_url r,
    get (PyStr.rstrip_slash base_url ++ "/robots.txt")%string = Response r ->
    PyStr.contains line_separator (text r) = false ->
    (length (scan_robots_txt get base_url) <= 1)%nat.
Proof.
  intros get base_url r Hget Hsep. unfold scan_robots_txt. rewrite Hget.
  destruct (status_code r =? 200)%Z; [|cbn; lia].
  unfold PyStr.split. rewrite (@split_without_separator _ _ "" Hsep).
  cbn [robots_lines append].
  destruct (PyStr.startswith (PyStr.strip (text r)) "Disallow:"
            || PyStr.startswith (PyStr.strip (text r)) "Allow:");
    [|cbn; lia].
  destruct (PyStr.after_first_colon (text r)); [|cbn; lia].
  destruct (_looks_like_api_path (PyStr.strip s)); cbn; lia.
Qed.

(** C5 on concrete bodies. A robots.txt with a user-agent line and two
    matching directives on lines of their own yields nothing; with the two
    directives alone it yields one endpoint whose URL runs across the line
    end; two endpoints come out only when the directives are separated by a
    backslash and an n. *)
Lemma robots_directives_on_separate_lines :
  scan_robots_txt (Examples.robots_server Examples.robots_body)
                  "https://x.test" = []
  /\ map url
         (scan_robots_txt
            (Examples.robots_server
               ("Disallow: /api/v1/" ++ Examples.newline ++ "Allow: /rest/"))
            "https://x.test")
     = [("https://x.test/api/v1/" ++ Examples.newline ++ "Allow: /rest/")%string]
  /\ map (fun e => (url e, source e, confidence e))
         (scan_robots_txt
            (Examples.robots_server "Disallow: /api/v1/\nAllow: /rest/")
            "https://x.test")
     = [("https://x.test/api/v1/"%string, "robots_txt"%string, 0.6);
        ("https://x.test/rest/"%string, "robots_txt"%string, 0.6)].
Proof. repeat split. Qed.

(** *** discover_swagger_docs *)

Lemma methods_loop_from_spec :
  forall api_url methods, Forall from_spec (fst (methods_loop api_url methods)).
Proof.
  intros api_url. induction methods as [|m rest IH]; cbn; [constructor|].
  destruct m; cbn; try constructor.
  destruct (methods_loop api_url rest) as [more finished]. cbn in *.
  constructor; [split; reflexivity | exact IH].
Qed.

Lemma paths_loop_from_spec :
  forall prefix paths, Forall from_spec (fst (paths_loop prefix paths)).
Proof.
  intros prefix. induction paths as [|[path_key operations] rest IH]; cbn;
    [constructor|].
  destruct prefix as [pre|]; [|constructor].
  destruct (iterate operations) as [methods|]; [|constructor].
  pose proof (methods_loop_from_spec (pre ++ path_key) methods) as Hm.
  destruct (methods_loop (pre ++ path_key) methods) as [found finished].
  destruct finished; [|exact Hm].
  destruct (paths_loop (Some pre) rest) as [more finished']. cbn in *.
  apply Forall_app. split; assumption.
Qed.

Lemma spec_endpoints_from_spec :
  forall base_url swagger_data,
    Forall from_spec (spec_endpoints base_url swagger_data).
Proof.
  intros base_url swagger_data. unfold spec_endpoints.
  destruct swagger_data as [| | | | |members]; try constructor.
  destruct (json_lookup "paths" members) as [paths|]; [|constructor].
  destruct paths; try constructor. apply paths_loop_from_spec.
Qed.





Example swagger_petstore :
  map (fun e => (url e, method e, source e, confidence e))
      (discover_swagger_docs Examples.swagger_server "https://x.test/")
  = [("https://x.test/swagger.json", "GET", "swagger_docs", 0.9);
     ("https://x.test/v2/pets", "GET", "swagger_spec", 1.0);
     ("https://x.test/v2/pets", "POST", "swagger_spec", 1.0);
     ("https://x.test/v2/pets/{id}", "DELETE", "swagger_spec", 1.0)]%string.
Proof. reflexivity. Qed.

End Prober.

(** ** The extraction strategies *)
Module Extractor.

Import Core Spec.

Lemma for_each_Forall :
  forall (A : Type) (P : APIEndpoint -> Prop)
         (f : A -> py (list APIEndpoint)) (l : list A) es,
    (forall x es', In x l -> f x = Returns es' -> Forall P es') ->
    for_each f l = Returns es ->
    Forall P es.
Proof.
  intros A P f. induction l as [|x rest IH]; intros es Hf H; cbn in H.
  - injection H as <-. constructor.
  - destruct (f x) as [found|] eqn:Hx; cbn in H; [|discriminate H].
    destruct (for_each f rest) as [more|] eqn:Hrest; cbn in H;
      [|discriminate H].
    injection H as <-. apply Forall_app. split.
    + apply (Hf x); [left; reflexivity | exact Hx].
    + apply (IH more); [|reflexivity].
      intros y es' Hy. apply Hf. right. exact Hy.
Qed.


Section Checked.

Variable urljoin : string -> string -> py string.
Variable re_findall : string -> list re_flag -> string -> list string.
Variable re_findall2 :
  string -> list re_flag -> string -> list (string * string).
Variable base_url : string.






End Checked.

(** The script strategy on the scenario of a page at https://x.test/home
    whose script calls fetch on /api/v2/users. *)
Example scripts_fetch_scenario :
  _discover_from_scripts Examples.host_join Examples.fetch_findall
    (fun _ _ _ => []) Examples.page_url Examples.fetch_page
  = Returns [Examples.fetch_endpoint].
Proof. reflexivity. Qed.



End Extractor.

(** ** The run: [discover_endpoints] and the probes around it *)
Module Discovery.

Import Core Spec.

Lemma validate_from_keys :
  forall head endpoints k,
    map key_of (validate_from head k endpoints) = map key_of endpoints.
Proof.
  intros head. induction endpoints as [|e rest IH]; intros k; cbn;
    [reflexivity|].
  rewrite IH. f_equal. unfold key_of.
  destruct (Dataclass.validate_one_keeps_fields (head k (url e)) e)
    as [-> [-> _]].
  reflexivity.
Qed.

Ltac base_score :=
  unfold base_scored; cbn; repeat first [left; reflexivity | right].

Ltac base_scored_list :=
  repeat first [apply Forall_nil | apply Forall_cons; [base_score|]].

(** A step that resolves a URL and then builds endpoints from it. *)
Lemma joined_step :
  forall (P : APIEndpoint -> Prop) (joined : py string)
         (build : string -> list APIEndpoint) es,
    (forall u, Forall P (build u)) ->
    (full_url <- joined ;; Returns (build full_url)) = Returns es ->
    Forall P es.
Proof.
  intros P joined build es Hbuild H.
  destruct joined as [u|]; cbn in H; [|discriminate H].
  injection H as <-. apply Hbuild.
Qed.

Section Run.

Variable urljoin : string -> string -> py string.
Variable url_origin : string -> py string.
Variable re_search : string -> list re_flag -> string -> bool.
Variable re_findall : string -> list re_flag -> string -> list string.
Variable re_findall2 :
  string -> list re_flag -> string -> list (string * string).
Variable base_url : string.
Variable authenticated : bool.
Variable BeautifulSoup : string -> node.
Variable verbose : bool.

Local Abbreviation passive_endpoints :=
  (Spec.passive_endpoints urljoin re_search re_findall re_findall2 base_url
     authenticated BeautifulSoup).

Local Abbreviation auth_stage :=
  (Spec.auth_stage urljoin url_origin re_findall re_findall2 base_url
     authenticated verbose).

Local Abbreviation run page auth_get head :=
  (discover_endpoints urljoin url_origin re_search re_findall re_findall2
     base_url authenticated page auth_get head BeautifulSoup verbose).


Lemma run_http_error :
  forall r auth_get head,
    (400 <= status_code r < 600)%Z ->
    run (Response r) auth_get head = Returns [].
Proof.
  intros r auth_get head [Hlo Hhi].
  unfold run, discover_endpoints, discover_body, raise_for_status. cbn.
  apply Z.leb_le in Hlo. apply Z.ltb_lt in Hhi. rewrite Hlo, Hhi. reflexivity.
Qed.


(** Every strategy passes one of the base confidences to the constructor. *)
Lemma links_base_scored :
  forall soup es,
    _discover_from_links urljoin re_search base_url soup = Returns es ->
    Forall base_scored es.
Proof.
  intros soup es H. unfold _discover_from_links in H.
  eapply Extractor.for_each_Forall; [|exact H].
  intros link es1 _ H1. cbv beta in H1.
  destruct (get_attr link "href") as [href|];
    [|injection H1 as <-; constructor].
  eapply joined_step; [|exact H1].
  intros u. cbv beta. destruct (_is_api_endpoint re_search u); base_scored_list.
Qed.

Lemma scripts_base_scored :
  forall soup es,
    _discover_from_scripts urljoin re_findall re_findall2 base_url soup
    = Returns es ->
    Forall base_scored es.
Proof.
  intros soup es H. unfold _discover_from_scripts in H.
  eapply Extractor.for_each_Forall; [|exact H].
  intros script es1 _ H1. cbv beta in H1.
  destruct (tag_string script) as [script_string|];
    [|injection H1 as <-; constructor].
  destruct (String.eqb script_string ""); [injection H1 as <-; constructor|].
  eapply Extractor.for_each_Forall; [|exact H1].
  intros pattern es2 _ H2. cbv beta in H2.
  eapply Extractor.for_each_Forall; [|exact H2].
  intros m es3 _ H3. cbv beta in H3.
  destruct m as [s|first second]; cbv iota beta in H3;
    (eapply joined_step; [|exact H3]); intros u; cbv beta;
    destruct (_is_potential_endpoint u); base_scored_list.
Qed.

Lemma forms_base_scored :
  forall soup es,
    _discover_from_forms urljoin base_url soup = Returns es ->
    Forall base_scored es.
Proof.
  intros soup es H. unfold _discover_from_forms in H.
  eapply Extractor.for_each_Forall; [|exact H].
  intros form es1 _ H1. cbv beta zeta in H1.
  destruct (String.eqb (get_attr_or form "action" "") "");
    [injection H1 as <-; constructor|].
  eapply joined_step; [|exact H1].
  intros u. cbv beta. base_scored_list.
Qed.

Lemma ajax_base_scored :
  forall html_content es,
    _discover_from_ajax_calls urljoin re_findall re_findall2 base_url
                              html_content = Returns es ->
    Forall base_scored es.
Proof.
  intros html_content es H. unfold _discover_from_ajax_calls in H.
  eapply Extractor.for_each_Forall; [|exact H].
  intros pattern es1 _ H1. cbv beta in H1.
  eapply Extractor.for_each_Forall; [|exact H1].
  intros m es2 _ H2. cbv beta in H2.
  eapply joined_step; [|exact H2].
  intros u. cbv beta. destruct (_is_potential_endpoint u); base_scored_list.
Qed.

Lemma meta_base_scored :
  forall soup es,
    _discover_from_meta_tags urljoin base_url soup = Returns es ->
    Forall base_scored es.
Proof.
  intros soup es H. unfold _discover_from_meta_tags in H.
  match type of H with
  | bind ?c _ = _ => destruct c as [metas|] eqn:Hm
  end; cbn [bind] in H; [|discriminate H].
  match type of H with
  | bind ?c _ = _ => destruct c as [attributes|] eqn:Ha
  end; cbn [bind] in H; [|discriminate H].
  injection H as <-. apply Forall_app. split.
  - eapply Extractor.for_each_Forall; [|exact Hm].
    intros meta es1 _ H1. cbv beta zeta in H1.
    destruct (_is_potential_endpoint (get_attr_or meta "content" ""));
      [|injection H1 as <-; constructor].
    eapply joined_step; [|exact H1]. intros u. cbv beta. base_scored_list.
  - eapply Extractor.for_each_Forall; [|exact Ha].
    intros element es1 _ H1. cbv beta in H1.
    eapply joined_step; [|exact H1]. intros u. cbv beta. base_scored_list.
Qed.

Lemma comments_base_scored :
  forall html_content es,
    _discover_from_comments urljoin re_findall base_url html_content
    = Returns es ->
    Forall base_scored es.
Proof.
  intros html_content es H. unfold _discover_from_comments in H.
  eapply Extractor.for_each_Forall; [|exact H].
  intros comment es1 _ H1. cbv beta in H1.
  eapply Extractor.for_each_Forall; [|exact H1].
  intros u es2 _ H2. cbv beta in H2.
  eapply joined_step; [|exact H2].
  intros v. cbv beta. destruct (_is_potential_endpoint v); base_scored_list.
Qed.

Lemma authenticated_content_base_scored :
  forall html_content es,
    _discover_authenticated_content urljoin re_findall base_url authenticated
                                    html_content = Returns es ->
    Forall base_scored es.
Proof.
  intros html_content es H. unfold _discover_authenticated_content in H.
  destruct (negb authenticated); [injection H as <-; constructor|].
  match type of H with
  | bind ?c _ = _ => destruct c as [found|] eqn:Hf
  end; cbn [bind] in H; [|discriminate H].
  match type of H with
  | bind ?c _ = _ => destruct c as [attributes|] eqn:Ha
  end; cbn [bind] in H; [|discriminate H].
  injection H as <-. apply Forall_app. split.
  - eapply Extractor.for_each_Forall; [|exact Hf].
    intros pattern es1 _ H1. cbv beta in H1.
    eapply Extractor.for_each_Forall; [|exact H1].
    intros m es2 _ H2. cbv beta in H2.
    eapply joined_step; [|exact H2]. intros u. cbv beta. base_scored_list.
  - eapply Extractor.for_each_Forall; [|exact Ha].
    intros m es1 _ H1. cbv beta in H1.
    destruct (_is_potential_endpoint m); [|injection H1 as <-; constructor].
    eapply joined_step; [|exact H1]. intros u. cbv beta. base_scored_list.
Qed.

Lemma auth_tests_base_scored :
  forall auth_get site paths i bound es,
    auth_tests_from urljoin re_findall re_findall2 base_url auth_get verbose
                    site i bound paths = Returns es ->
    Forall base_scored es.
Proof.
  intros auth_get site. induction paths as [|path rest IH]; intros i bound es H.
  - injection H as <-. constructor.
  - cbn [auth_tests_from] in H.
    destruct (urljoin site path) as [auth_url|].
    + destruct (auth_tests_from urljoin re_findall re_findall2 base_url
                  auth_get verbose site (S i) true rest) as [more|] eqn:Hrest;
        cbn [bind] in H; [|discriminate H].
      injection H as <-. apply Forall_app. split; [|apply (IH _ _ _ Hrest)].
      destruct (auth_get i auth_url) as [r|]; [|constructor].
      destruct (status_code r =? 200)%Z; [|constructor].
      constructor; [base_score|].
      destruct (_discover_from_ajax_calls urljoin re_findall re_findall2
                  base_url (text r)) as [content_endpoints|] eqn:Hajax;
        [|constructor].
      apply (ajax_base_scored _ Hajax).
    + destruct (verbose && negb bound); [discriminate H|].
      apply (IH _ _ _ H).
Qed.

Lemma validate_from_within_bounds :
  forall head endpoints k,
    Forall base_scored endpoints ->
    Forall (fun e => within_bounds (confidence e) = true)
           (validate_from head k endpoints).
Proof.
  intros head. induction endpoints as [|e rest IH]; intros k H; cbn;
    [constructor|].
  inversion H as [|x xs He Hrest]; subst. constructor; [|apply IH; exact Hrest].
  rewrite Validator.confidence_validate_one.
  apply Validator.adjusted_base_within_bounds. exact He.
Qed.

Lemma passive_base_scored :
  forall r C, passive_endpoints r = Returns C -> Forall base_scored C.
Proof.
  intros r C H. unfold passive_endpoints in H.
  destruct authenticated eqn:Hauth.
  - destruct (_discover_authenticated_content urljoin re_findall base_url true
                (text r)) as [e0|] eqn:H0; cbn [bind] in H; [|discriminate H].
    destruct (_discover_from_links urljoin re_search base_url
                (BeautifulSoup (text r))) as [e1|] eqn:H1; cbn [bind] in H;
      [|discriminate H].
    destruct (_discover_from_scripts urljoin re_findall re_findall2 base_url
                (BeautifulSoup (text r))) as [e2|] eqn:H2; cbn [bind] in H;
      [|discriminate H].
    destruct (_discover_from_forms urljoin base_url (BeautifulSoup (text r)))
      as [e3|] eqn:H3; cbn [bind] in H; [|discriminate H].
    destruct (_discover_from_ajax_calls urljoin re_findall re_findall2 base_url
                (text r)) as [e4|] eqn:H4; cbn [bind] in H; [|discriminate H].
    destruct (_discover_from_meta_tags urljoin base_url
                (BeautifulSoup (text r))) as [e5|] eqn:H5; cbn [bind] in H;
      [|discriminate H].
    destruct (_discover_from_comments urljoin re_findall base_url (text r))
      as [e6|] eqn:H6; cbn [bind] in H; [|discriminate H].
    injection H as <-.
    rewrite <- Hauth in H0.
    repeat (apply Forall_app; split);
      eauto using authenticated_content_base_scored, links_base_scored,
        scripts_base_scored, forms_base_scored, ajax_base_scored,
        meta_base_scored, comments_base_scored.
  - cbn [bind] in H.
    destruct (_discover_from_links urljoin re_search base_url
                (BeautifulSoup (text r))) as [e1|] eqn:H1; cbn [bind] in H;
      [|discriminate H].
    destruct (_discover_from_scripts urljoin re_findall re_findall2 base_url
                (BeautifulSoup (text r))) as [e2|] eqn:H2; cbn [bind] in H;
      [|discriminate H].
    destruct (_discover_from_forms urljoin base_url (BeautifulSoup (text r)))
      as [e3|] eqn:H3; cbn [bind] in H; [|discriminate H].
    destruct (_discover_from_ajax_calls urljoin re_findall re_findall2 base_url
                (text r)) as [e4|] eqn:H4; cbn [bind] in H; [|discriminate H].
    destruct (_discover_from_meta_tags urljoin base_url
                (BeautifulSoup (text r))) as [e5|] eqn:H5; cbn [bind] in H;
      [|discriminate H].
    destruct (_discover_from_comments urljoin re_findall base_url (text r))
      as [e6|] eqn:H6; cbn [bind] in H; [|discriminate H].
    injection H as <-. cbn [app].
    repeat (apply Forall_app; split);
      eauto using links_base_scored, scripts_base_scored, forms_base_scored,
        ajax_base_scored, meta_base_scored, comments_base_scored.
Qed.

Lemma auth_stage_base_scored :
  forall auth_get A, auth_stage auth_get = Returns A -> Forall base_scored A.
Proof.
  intros auth_get A H. unfold auth_stage in H.
  destruct authenticated; [|injection H as <-; constructor].
  unfold _test_authenticated_endpoints in H.
  destruct (url_origin base_url) as [site|]; cbn [bind] in H; [|discriminate H].
  apply (auth_tests_base_scored _ _ _ _ _ H).
Qed.

(** The [try] block on a fetched page, stage by stage. *)
Lemma body_stages :
  forall r auth_get head,
    ((400 <=? status_code r) && (status_code r <? 600))%Z = false ->
    discover_body urljoin url_origin re_search re_findall re_findall2 base_url
      authenticated (Response r) auth_get head BeautifulSoup verbose
    = (C <- passive_endpoints r ;;
       A <- auth_stage auth_get ;;
       Returns (_validate_endpoints head (_deduplicate_endpoints (C ++ A)))).
Proof.
  intros r auth_get head Hok.
  unfold discover_body, raise_for_status, passive_endpoints, auth_stage.
  cbn [bind]. rewrite Hok. cbn [bind].
  destruct (if authenticated
            then _discover_authenticated_content urljoin re_findall base_url
                   authenticated (text r)
            else Returns []) as [e0|]; cbn [bind]; [|reflexivity].
  destruct (_discover_from_links urljoin re_search base_url
              (BeautifulSoup (text r))) as [e1|]; cbn [bind]; [|reflexivity].
  destruct (_discover_from_scripts urljoin re_findall re_findall2 base_url
              (BeautifulSoup (text r))) as [e2|]; cbn [bind]; [|reflexivity].
  destruct (_discover_from_forms urljoin base_url (BeautifulSoup (text r)))
    as [e3|]; cbn [bind]; [|reflexivity].
  destruct (_discover_from_ajax_calls urljoin re_findall re_findall2 base_url
              (text r)) as [e4|]; cbn [bind]; [|reflexivity].
  destruct (_discover_from_meta_tags urljoin base_url (BeautifulSoup (text r)))
    as [e5|]; cbn [bind]; [|reflexivity].
  destruct (_discover_from_comments urljoin re_findall base_url (text r))
    as [e6|]; cbn [bind]; [|reflexivity].
  destruct (if authenticated
            then _test_authenticated_endpoints urljoin url_origin re_findall
                   re_findall2 base_url auth_get verbose base_url
            else Returns []) as [e7|]; cbn [bind]; [|reflexivity].
  rewrite <- !app_assoc. reflexivity.
Qed.

(** Every endpoint a run returns has its confidence in [0.1, 1.0]: the
    candidates carry base confidences and the validator keeps those within
    the bounds. *)
Lemma run_within_bounds :
  forall page auth_get head l,
    run page auth_get head = Returns l ->
    Forall (fun e => within_bounds (confidence e) = true) l.
Proof.
  intros page auth_get head l H.
  destruct page as [r|]; [|injection H as <-; constructor].
  destruct ((400 <=? status_code r) && (status_code r <? 600))%Z eqn:Hok.
  - apply andb_true_iff in Hok. destruct Hok as [Hlo Hhi].
    apply Z.leb_le in Hlo. apply Z.ltb_lt in Hhi.
    rewrite run_http_error in H by lia. injection H as <-. constructor.
  - unfold run, discover_endpoints in H. rewrite (body_stages _ _ _ Hok) in H.
    destruct (passive_endpoints r) as [C|e] eqn:HC; cbn [bind] in H.
    + destruct (auth_stage auth_get) as [A|e] eqn:HA; cbn [bind] in H.
      * injection H as <-. apply validate_from_within_bounds.
        apply Forall_forall. intros e He.
        rewrite Merger.dedup_is_dedup_from in He.
        apply Merger.dedup_from_In in He. destruct He as [He _].
        revert e He. apply Forall_forall. apply Forall_app. split.
        -- apply (passive_base_scored _ HC).
        -- apply (auth_stage_base_scored _ HA).
      * destruct e; try discriminate H. injection H as <-. constructor.
    + destruct e; try discriminate H. injection H as <-. constructor.
Qed.




End Run.

(** The script page of the examples, fetched with status 200 while every
    HEAD request times out: the endpoint of the page is returned, demoted
    from 0.8 to 0.5. *)
Example run_with_failing_probes :
  discover_endpoints Examples.host_join
      (fun _ => Returns "https://x.test"%string) (fun _ _ _ => false)
      Examples.fetch_findall (fun _ _ _ => []) Examples.page_url false
      (Response Examples.ok_html) Examples.timeouts Examples.timeouts
      (fun _ => Examples.fetch_page) false
  = Returns [new_APIEndpoint "https://x.test/api/v2/users" (Some "GET") None
               None (Some "javascript") (Some 0.5%float)].
Proof. reflexivity. Qed.


End Discovery.

(** ** What a run of [discover_endpoints] returns *)
Module Run.

Import Core Spec.

Lemma for_each_raises :
  forall (A : Type) (f : A -> py (list APIEndpoint)) (l : list A) x,
    In x l ->
    (exists e, f x = Raises e) ->
    exists e, for_each f l = Raises e.
Proof.
  intros A f. induction l as [|y rest IH]; intros x Hin Hx; [destruct Hin|].
  cbn [for_each]. destruct Hin as [-> | Hin].
  - destruct Hx as [e ->]. exists e. reflexivity.
  - destruct (f y) as [es|e]; [|exists e; reflexivity].
    destruct (IH x Hin Hx) as [e ->]. exists e. reflexivity.
Qed.

Ltac table_entry :=
  unfold candidate; cbn;
  split; [repeat first [left; reflexivity | right] | split; discriminate].

Ltac candidates :=
  repeat first [apply Forall_nil | apply Forall_cons; [table_entry|]].

Section Candidates.

Variable urljoin : string -> string -> py string.
Variable url_origin : string -> py string.
Variable re_search : string -> list re_flag -> string -> bool.
Variable re_findall : string -> list re_flag -> string -> list string.
Variable re_findall2 :
  string -> list re_flag -> string -> list (string * string).
Variable base_url : string.
Variable authenticated : bool.
Variable BeautifulSoup : string -> node.
Variable verbose : bool.

Lemma links_candidates :
  forall soup es,
    _discover_from_links urljoin re_search base_url soup = Returns es ->
    Forall candidate es.
Proof.
  intros soup es H. unfold _discover_from_links in H.
  eapply Extractor.for_each_Forall; [|exact H].
  intros link es1 _ H1. cbv beta in H1.
  destruct (get_attr link "href") as [href|];
    [|injection H1 as <-; constructor].
  eapply Discovery.joined_step; [|exact H1].
  intros u. cbv beta. destruct (_is_api_endpoint re_search u); candidates.
Qed.

Lemma scripts_candidates :
  forall soup es,
    _discover_from_scripts urljoin re_findall re_findall2 base_url soup
    = Returns es ->
    Forall candidate es.
Proof.
  intros soup es H. unfold _discover_from_scripts in H.
  eapply Extractor.for_each_Forall; [|exact H].
  intros script es1 _ H1. cbv beta in H1.
  destruct (tag_string script) as [script_string|];
    [|injection H1 as <-; constructor].
  destruct (String.eqb script_string ""); [injection H1 as <-; constructor|].
  eapply Extractor.for_each_Forall; [|exact H1].
  intros pattern es2 _ H2. cbv beta in H2.
  eapply Extractor.for_each_Forall; [|exact H2].
  intros m es3 _ H3. cbv beta in H3.
  destruct m as [s|first second]; cbv iota beta in H3;
    (eapply Discovery.joined_step; [|exact H3]); intros u; cbv beta;
    destruct (_is_potential_endpoint u); candidates.
Qed.

Lemma forms_candidates :
  forall soup es,
    _discover_from_forms urljoin base_url soup = Returns es ->
    Forall candidate es.
Proof.
  intros soup es H. unfold _discover_from_forms in H.
  eapply Extractor.for_each_Forall; [|exact H].
  intros form es1 _ H1. cbv beta zeta in H1.
  destruct (String.eqb (get_attr_or form "action" "") "");
    [injection H1 as <-; constructor|].
  eapply Discovery.joined_step; [|exact H1].
  intros u. cbv beta. candidates.
Qed.

Lemma ajax_candidates :
  forall html_content es,
    _discover_from_ajax_calls urljoin re_findall re_findall2 base_url
                              html_content = Returns es ->
    Forall candidate es.
Proof.
  intros html_content es H. unfold _discover_from_ajax_calls in H.
  eapply Extractor.for_each_Forall; [|exact H].
  intros pattern es1 _ H1. cbv beta in H1.
  eapply Extractor.for_each_Forall; [|exact H1].
  intros m es2 _ H2. cbv beta in H2.
  eapply Discovery.joined_step; [|exact H2].
  intros u. cbv beta. destruct (_is_potential_endpoint u); candidates.
Qed.

Lemma meta_candidates :
  forall soup es,
    _discover_from_meta_tags urljoin base_url soup = Returns es ->
    Forall candidate es.
Proof.
  intros soup es H. unfold _discover_from_meta_tags in H.
  match type of H with
  | bind ?c _ = _ => destruct c as [metas|] eqn:Hm
  end; cbn [bind] in H; [|discriminate H].
  match type of H with
  | bind ?c _ = _ => destruct c as [attributes|] eqn:Ha
  end; cbn [bind] in H; [|discriminate H].
  injection H as <-. apply Forall_app. split.
  - eapply Extractor.for_each_Forall; [|exact Hm].
    intros meta es1 _ H1. cbv beta zeta in H1.
    destruct (_is_potential_endpoint (get_attr_or meta "content" ""));
      [|injection H1 as <-; constructor].
    eapply Discovery.joined_step; [|exact H1]. intros u. cbv beta. candidates.
  - eapply Extractor.for_each_Forall; [|exact Ha].
    intros element es1 _ H1. cbv beta in H1.
    eapply Discovery.joined_step; [|exact H1]. intros u. cbv beta. candidates.
Qed.

Lemma comments_candidates :
  forall html_content es,
    _discover_from_comments urljoin re_findall base_url html_content
    = Returns es ->
    Forall candidate es.
Proof.
  intros html_content es H. unfold _discover_from_comments in H.
  eapply Extractor.for_each_Forall; [|exact H].
  intros comment es1 _ H1. cbv beta in H1.
  eapply Extractor.for_each_Forall; [|exact H1].
  intros u es2 _ H2. cbv beta in H2.
  eapply Discovery.joined_step; [|exact H2].
  intros v. cbv beta. destruct (_is_potential_endpoint v); candidates.
Qed.

Lemma authenticated_content_candidates :
  forall html_content es,
    _discover_authenticated_content urljoin re_findall base_url authenticated
                                    html_content = Returns es ->
    Forall candidate es.
Proof.
  intros html_content es H. unfold _discover_authenticated_content in H.
  destruct (negb authenticated); [injection H as <-; constructor|].
  match type of H with
  | bind ?c _ = _ => destruct c as [found|] eqn:Hf
  end; cbn [bind] in H; [|discriminate H].
  match type of H with
  | bind ?c _ = _ => destruct c as [attributes|] eqn:Ha
  end; cbn [bind] in H; [|discriminate H].
  injection H as <-. apply Forall_app. split.
  - eapply Extractor.for_each_Forall; [|exact Hf].
    intros pattern es1 _ H1. cbv beta in H1.
    eapply Extractor.for_each_Forall; [|exact H1].
    intros m es2 _ H2. cbv beta in H2.
    eapply Discovery.joined_step; [|exact H2]. intros u. cbv beta. candidates.
  - eapply Extractor.for_each_Forall; [|exact Ha].
    intros m es1 _ H1. cbv beta in H1.
    destruct (_is_potential_endpoint m); [|injection H1 as <-; constructor].
    eapply Discovery.joined_step; [|exact H1]. intros u. cbv beta. candidates.
Qed.

Lemma auth_tests_candidates :
  forall auth_get site paths i bound es,
    auth_tests_from urljoin re_findall re_findall2 base_url auth_get verbose
                    site i bound paths = Returns es ->
    Forall candidate es.
Proof.
  intros auth_get site. induction paths as [|path rest IH]; intros i bound es H.
  - injection H as <-. constructor.
  - cbn [auth_tests_from] in H.
    destruct (urljoin site path) as [auth_url|].
    + destruct (auth_tests_from urljoin re_findall re_findall2 base_url
                  auth_get verbose site (S i) true rest) as [more|] eqn:Hrest;
        cbn [bind] in H; [|discriminate H].
      injection H as <-. apply Forall_app. split; [|apply (IH _ _ _ Hrest)].
      destruct (auth_get i auth_url) as [r|]; [|constructor].
      destruct (status_code r =? 200)%Z; [|constructor].
      constructor; [table_entry|].
      destruct (_discover_from_ajax_calls urljoin re_findall re_findall2
                  base_url (text r)) as [content_endpoints|] eqn:Hajax;
        [|constructor].
      apply (ajax_candidates _ Hajax).
    + destruct (verbose && negb bound); [discriminate H|].
      apply (IH _ _ _ H).
Qed.

Lemma passive_candidates :
  forall r C,
    Spec.passive_endpoints urljoin re_search re_findall re_findall2 base_url
      authenticated BeautifulSoup r = Returns C ->
    Forall candidate C.
Proof.
  intros r C H. unfold Spec.passive_endpoints in H.
  match type of H with
  | bind ?c _ = _ => destruct c as [e0|] eqn:H0
  end; cbn [bind] in H; [|discriminate H].
  destruct (_discover_from_links urljoin re_search base_url
              (BeautifulSoup (text r))) as [e1|] eqn:H1; cbn [bind] in H;
    [|discriminate H].
  destruct (_discover_from_scripts urljoin re_findall re_findall2 base_url
              (BeautifulSoup (text r))) as [e2|] eqn:H2; cbn [bind] in H;
    [|discriminate H].
  destruct (_discover_from_forms urljoin base_url (BeautifulSoup (text r)))
    as [e3|] eqn:H3; cbn [bind] in H; [|discriminate H].
  destruct (_discover_from_ajax_calls urljoin re_findall re_findall2 base_url
              (text r)) as [e4|] eqn:H4; cbn [bind] in H; [|discriminate H].
  destruct (_discover_from_meta_tags urljoin base_url
              (BeautifulSoup (text r))) as [e5|] eqn:H5; cbn [bind] in H;
    [|discriminate H].
  destruct (_discover_from_comments urljoin re_findall base_url (text r))
    as [e6|] eqn:H6; cbn [bind] in H; [|discriminate H].
  injection H as <-.
  assert (Hauth : Forall candidate e0).
  { destruct authenticated eqn:Ha.
    - rewrite <- Ha in H0. apply (authenticated_content_candidates _ H0).
    - injection H0 as <-. constructor. }
  repeat (apply Forall_app; split);
    eauto using links_candidates, scripts_candidates, forms_candidates,
      ajax_candidates, meta_candidates, comments_candidates.
Qed.

Lemma auth_stage_candidates :
  forall auth_get A,
    Spec.auth_stage urljoin url_origin re_findall re_findall2 base_url
      authenticated verbose auth_get = Returns A ->
    Forall candidate A.
Proof.
  intros auth_get A H. unfold Spec.auth_stage in H.
  destruct authenticated; [|injection H as <-; constructor].
  unfold _test_authenticated_endpoints in H.
  destruct (url_origin base_url) as [site|]; cbn [bind] in H; [|discriminate H].
  apply (auth_tests_candidates _ _ _ _ _ H).
Qed.

End Candidates.

Section Shape.

Variable urljoin : string -> string -> py string.
Variable url_origin : string -> py string.
Variable re_search : string -> list re_flag -> string -> bool.
Variable re_findall : string -> list re_flag -> string -> list string.
Variable re_findall2 :
  string -> list re_flag -> string -> list (string * string).
Variable base_url : string.
Variable authenticated : bool.
Variable BeautifulSoup : string -> node.
Variable verbose : bool.

Local Abbreviation passive_endpoints :=
  (Spec.passive_endpoints urljoin re_search re_findall re_findall2 base_url
     authenticated BeautifulSoup).

Local Abbreviation auth_stage :=
  (Spec.auth_stage urljoin url_origin re_findall re_findall2 base_url
     authenticated verbose).

Local Abbreviation run page auth_get head :=
  (discover_endpoints urljoin url_origin re_search re_findall re_findall2
     base_url authenticated page auth_get head BeautifulSoup verbose).

(** A run that returns has returned the empty list, or the validated merge
    of what the page and the authenticated probes gave. *)
Lemma run_shape :
  forall page auth_get head l,
    run page auth_get head = Returns l ->
    l = []
    \/ exists r C A,
         page = Response r
         /\ passive_endpoints r = Returns C
         /\ auth_stage auth_get = Returns A
         /\ l = _validate_endpoints head (_deduplicate_endpoints (C ++ A)).
Proof.
  intros page auth_get head l H.
  destruct page as [r|]; [|injection H as <-; left; reflexivity].
  destruct ((400 <=? status_code r) && (status_code r <? 600))%Z eqn:Hok.
  - apply andb_true_iff in Hok. destruct Hok as [Hlo Hhi].
    apply Z.leb_le in Hlo. apply Z.ltb_lt in Hhi.
    rewrite Discovery.run_http_error in H by lia.
    injection H as <-. left. reflexivity.
  - unfold discover_endpoints in H.
    rewrite (Discovery.body_stages _ _ _ _ _ _ _ _ _ _ _ _ Hok) in H.
    destruct (passive_endpoints r) as [C|e] eqn:HC; cbn [bind] in H.
    + destruct (auth_stage auth_get) as [A|e] eqn:HA; cbn [bind] in H.
      * injection H as <-. right. exists r, C, A. auto.
      * destruct e; try discriminate H. injection H as <-. left. reflexivity.
    + destruct e; try discriminate H. injection H as <-. left. reflexivity.
Qed.

(** X1. The endpoints a run returns have pairwise distinct (url, method)
    keys. *)
Theorem discover_endpoints_keys_distinct :
  forall page auth_get head l,
    run page auth_get head = Returns l ->
    NoDup (map key_of l).
Proof.
  intros page auth_get head l H.
  destruct (run_shape _ _ _ H) as [-> | [r [C [A [_ [_ [_ ->]]]]]]];
    [constructor|].
  unfold _validate_endpoints. rewrite Discovery.validate_from_keys.
  rewrite Merger.dedup_is_dedup_from. apply Merger.dedup_from_NoDup.
Qed.

(** X2. Every endpoint a run returns has a confidence in [0.1, 1.0]. *)
Theorem discover_endpoints_within_bounds :
  forall page auth_get head l,
    run page auth_get head = Returns l ->
    Forall (fun e => within_bounds (confidence e) = true) l.
Proof.
  intros page auth_get head l H.
  exact (Discovery.run_within_bounds _ _ _ _ _ _ _ _ _ _ _ _ H).
Qed.

Lemma validate_from_candidates :
  forall head endpoints k,
    Forall candidate endpoints ->
    Forall validated_candidate (validate_from head k endpoints).
Proof.
  intros head. induction endpoints as [|e rest IH]; intros k H; cbn;
    [constructor|].
  inversion H as [|x xs He Hrest]; subst. constructor; [|apply IH; exact Hrest].
  destruct He as [Htable [Hp Hh]].
  exists (confidence e), (head k (url e)).
  destruct (Dataclass.validate_one_keeps_fields (head k (url e)) e)
    as [_ [_ [-> [-> ->]]]].
  rewrite Validator.confidence_validate_one. auto.
Qed.

(** X3. Every endpoint a run returns carries one of the ten source tags of
    the strategies, its confidence is one validator step away from the
    confidence that source starts with, and its parameters and headers are
    not [None]. *)
Theorem discover_endpoints_sources :
  forall page auth_get head l,
    run page auth_get head = Returns l ->
    Forall (fun e =>
              exists c probe,
                In (source e, c) source_table
                /\ confidence e = adjusted probe c
                /\ parameters e <> None /\ headers e <> None) l.
Proof.
  intros page auth_get head l H.
  destruct (run_shape _ _ _ H) as [-> | [r [C [A [_ [HC [HA ->]]]]]]];
    [constructor|].
  apply validate_from_candidates.
  apply Forall_forall. intros e He.
  rewrite Merger.dedup_is_dedup_from in He.
  apply Merger.dedup_from_In in He. destruct He as [He _].
  revert e He. apply Forall_forall. apply Forall_app. split.
  - apply (passive_candidates _ _ _ _ _ _ _ _ HC).
  - apply (auth_stage_candidates _ _ _ _ _ _ _ _ HA).
Qed.

Lemma verb_call_pattern_listed : In (Re2 verb_call_pattern) advanced_patterns.
Proof. do 6 right. left. reflexivity. Qed.

Lemma ajax_raises_on_tuple :
  forall html_content,
    re_findall2 verb_call_pattern [IGNORECASE; MULTILINE] html_content <> [] ->
    exists e,
      _discover_from_ajax_calls urljoin re_findall re_findall2 base_url
                                html_content = Raises e.
Proof.
  intros html_content Hmatch. unfold _discover_from_ajax_calls.
  apply for_each_raises with (x := Re2 verb_call_pattern);
    [apply verb_call_pattern_listed|].
  cbv beta. unfold findall.
  destruct (re_findall2 verb_call_pattern [IGNORECASE; MULTILINE] html_content)
    as [|[verb arg] rest]; [contradiction Hmatch; reflexivity|].
  cbn [map for_each fst snd join_match bind].
  destruct (String.eqb base_url ""); cbn [bind]; eexists; reflexivity.
Qed.

Lemma passive_returns_ajax :
  forall r C,
    passive_endpoints r = Returns C ->
    exists e4,
      _discover_from_ajax_calls urljoin re_findall re_findall2 base_url
                                (text r) = Returns e4.
Proof.
  intros r C H. unfold Spec.passive_endpoints in H.
  match type of H with
  | bind ?c _ = _ => destruct c as [e0|]
  end; cbn [bind] in H; [|discriminate H].
  destruct (_discover_from_links urljoin re_search base_url
              (BeautifulSoup (text r))) as [e1|]; cbn [bind] in H;
    [|discriminate H].
  destruct (_discover_from_scripts urljoin re_findall re_findall2 base_url
              (BeautifulSoup (text r))) as [e2|]; cbn [bind] in H;
    [|discriminate H].
  destruct (_discover_from_forms urljoin base_url (BeautifulSoup (text r)))
    as [e3|]; cbn [bind] in H; [|discriminate H].
  destruct (_discover_from_ajax_calls urljoin re_findall re_findall2 base_url
              (text r)) as [e4|]; cbn [bind] in H; [|discriminate H].
  exists e4. reflexivity.
Qed.

(** X4. When the verb-call pattern, the one with two groups, matches the
    page text, the ajax-call strategy raises: [urljoin] is handed a tuple.
    Nothing catches the exception in [discover_endpoints], so a run on such a
    page returns no endpoint at all. *)
Theorem verb_call_match_aborts_run :
  forall html_content,
    re_findall2 verb_call_pattern [IGNORECASE; MULTILINE] html_content <> [] ->
    (exists e,
        _discover_from_ajax_calls urljoin re_findall re_findall2 base_url
                                  html_content = Raises e)
    /\ forall r auth_get head l,
         text r = html_content ->
         run (Response r) auth_get head = Returns l ->
         l = [].
Proof.
  intros html_content Hmatch. split; [apply ajax_raises_on_tuple; exact Hmatch|].
  intros r auth_get head l Htext H.
  destruct (run_shape _ _ _ H) as [-> | [r' [C [A [Hr [HC _]]]]]];
    [reflexivity|].
  injection Hr as <-.
  destruct (passive_returns_ajax _ HC) as [e4 He4].
  destruct (ajax_raises_on_tuple Hmatch) as [e He].
  rewrite Htext, He in He4. discriminate He4.
Qed.




End Shape.

Example shop_run :
  discover_endpoints Examples.host_join Examples.site_origin
    Examples.no_search Examples.fetch_findall Examples.no_findall2
    Examples.page_url false (Response Examples.ok_html) Examples.timeouts
    Examples.answers (fun _ => Examples.shop_page) false
  = Returns Examples.shop_result.
Proof. reflexivity. Qed.

Lemma discover_endpoints_keys_distinct_witness :
  NoDup (map key_of Examples.shop_result).
Proof.
  exact (discover_endpoints_keys_distinct Examples.host_join
           Examples.site_origin Examples.no_search Examples.fetch_findall
           Examples.no_findall2 Examples.page_url false
           (fun _ => Examples.shop_page) false (Response Examples.ok_html)
           Examples.timeouts Examples.answers eq_refl).
Defined.

Lemma discover_endpoints_within_bounds_witness :
  Forall (fun e => within_bounds (confidence e) = true) Examples.shop_result.
Proof.
  exact (discover_endpoints_within_bounds Examples.host_join
           Examples.site_origin Examples.no_search Examples.fetch_findall
           Examples.no_findall2 Examples.page_url false
           (fun _ => Examples.shop_page) false (Response Examples.ok_html)
           Examples.timeouts Examples.answers eq_refl).
Defined.

Lemma discover_endpoints_sources_witness :
  Forall (fun e =>
            exists c probe,
              In (source e, c) source_table
              /\ confidence e = adjusted probe c
              /\ parameters e <> None /\ headers e <> None)
         Examples.shop_result.
Proof.
  exact (discover_endpoints_sources Examples.host_join
           Examples.site_origin Examples.no_search Examples.fetch_findall
           Examples.no_findall2 Examples.page_url false
           (fun _ => Examples.shop_page) false (Response Examples.ok_html)
           Examples.timeouts Examples.answers eq_refl).
Defined.

(** A page that calls [$.get('/api/users')]: the ajax-call strategy raises
    [TypeError], and so does the run. *)
Example verb_page_run :
  _discover_from_ajax_calls Examples.host_join Examples.no_findall
    Examples.verb_findall2 Examples.page_url Examples.verb_page
  = Raises TypeError
  /\ discover_endpoints Examples.host_join Examples.site_origin
       Examples.no_search Examples.no_findall Examples.verb_findall2
       Examples.page_url false
       (Response (mkResponse 200 (Some "text/html") Examples.verb_page None))
       Examples.timeouts Examples.timeouts (fun _ => Examples.fetch_page) false
     = Raises TypeError.
Proof. split; reflexivity. Qed.

Lemma verb_call_match_aborts_run_witness :
  exists e,
    _discover_from_ajax_calls Examples.host_join Examples.no_findall
      Examples.verb_findall2 Examples.page_url Examples.verb_page
    = Raises e.
Proof.
  refine (proj1 (verb_call_match_aborts_run Examples.host_join
                   Examples.site_origin Examples.no_search Examples.no_findall
                   Examples.verb_findall2 Examples.page_url false
                   (fun _ => Examples.fetch_page) false
                   Examples.verb_page _)).
  cbn. discriminate.
Defined.


End Run.

(** ** The two keyword heuristics *)
Module Heuristics.

Import Core Scanner Spec.

Lemma lower_upper_char :
  forall c, PyStr.lower_char (PyStr.upper_char c) = PyStr.lower_char c.
Proof.
  intros [[] [] [] [] [] [] [] []]; vm_compute; reflexivity.
Qed.

Lemma lower_lower_char :
  forall c, PyStr.lower_char (PyStr.lower_char c) = PyStr.lower_char c.
Proof.
  intros [[] [] [] [] [] [] [] []]; vm_compute; reflexivity.
Qed.

Lemma lower_upper : forall s, PyStr.lower (PyStr.upper s) = PyStr.lower s.
Proof.
  induction s as [|c t IH]; cbn; [reflexivity|].
  rewrite lower_upper_char. f_equal. exact IH.
Qed.

Lemma lower_lower : forall s, PyStr.lower (PyStr.lower s) = PyStr.lower s.
Proof.
  induction s as [|c t IH]; cbn; [reflexivity|].
  rewrite lower_lower_char. f_equal. exact IH.
Qed.

(** An upper-cased character is neither j nor m. *)
Lemma upper_char_not_j_m :
  forall c,
    "j"%char <> PyStr.upper_char c /\ "m"%char <> PyStr.upper_char c.
Proof.
  intros [[] [] [] [] [] [] [] []]; vm_compute; split; discriminate.
Qed.

(** X6. The scanner's heuristic accepts every URL the discovery heuristic
    accepts: its keyword list is the same list with webhook added, and it
    rejects nothing on other grounds. *)
Theorem potential_endpoint_looks_like_api_path :
  forall u, _is_potential_endpoint u = true -> _looks_like_api_path u = true.
Proof.
  intros u. unfold _is_potential_endpoint, _looks_like_api_path.
  destruct (String.eqb u "" || PyStr.startswith u "javascript:"
            || PyStr.startswith u "mailto:"); [discriminate|].
  unfold PyStr.contains_any.
  change Scanner.api_indicators with (Core.api_indicators ++ ["webhook"]).
  rewrite existsb_app. intros ->. reflexivity.
Qed.

Lemma potential_endpoint_looks_like_api_path_witness :
  _looks_like_api_path "https://x.test/REST/items" = true.
Proof.
  exact (potential_endpoint_looks_like_api_path "https://x.test/REST/items"
           eq_refl).
Defined.

(** X7. The scanner's heuristic does not depend on the case of the path:
    upper-casing or lower-casing it changes nothing. *)
Theorem looks_like_api_path_ignores_case :
  forall path,
    _looks_like_api_path (PyStr.upper path) = _looks_like_api_path path
    /\ _looks_like_api_path (PyStr.lower path) = _looks_like_api_path path.
Proof.
  intros path. unfold _looks_like_api_path.
  rewrite lower_upper, lower_lower. split; reflexivity.
Qed.

(** X8. The discovery heuristic tests the two pseudo-schemes in lower case
    only, while it matches the keywords in any case: on an upper-cased URL
    the outcome is decided by the keywords alone, so a script URL written in
    capitals is accepted. *)
Theorem potential_endpoint_scheme_test_is_case_sensitive :
  (forall u,
      _is_potential_endpoint (PyStr.upper u)
      = negb (String.eqb u "")
        && PyStr.contains_any Core.api_indicators (PyStr.lower u))
  /\ _is_potential_endpoint "javascript:fetch(1)" = false
  /\ _is_potential_endpoint (PyStr.upper "javascript:fetch(1)") = true.
Proof.
  split; [|split; reflexivity].
  intros u. unfold _is_potential_endpoint. rewrite lower_upper.
  destruct u as [|c t]; [reflexivity|].
  cbn [PyStr.upper PyStr.map_chars String.eqb negb andb orb].
  unfold PyStr.startswith. cbn [String.prefix].
  destruct (upper_char_not_j_m c) as [Hj Hm].
  destruct (ascii_dec "j" (PyStr.upper_char c)) as [E|_]; [contradiction|].
  destruct (ascii_dec "m" (PyStr.upper_char c)) as [E|_]; [contradiction|].
  reflexivity.
Qed.

End Heuristics.

(** ** What the scanner reads off a host: common paths, robots.txt,
    sitemaps and Swagger documents *)
Module Documents.

Import Core Scanner Spec.

Local Open Scope float_scope.

Lemma append_cancel :
  forall pre x y : string, (pre ++ x)%string = (pre ++ y)%string -> x = y.
Proof.
  induction pre as [|c pre IH]; cbn; intros x y H; [exact H|].
  injection H as H. apply IH. exact H.
Qed.

Lemma common_paths_NoDup : NoDup common_paths.
Proof.
  unfold common_paths.
  repeat (constructor;
          [cbn; intros H; repeat destruct H as [H | H];
           discriminate H || exact H|]).
  constructor.
Qed.

(** The URLs of the probes that gave an endpoint, in the order of the paths. *)
Lemma probed_urls :
  forall head pre paths,
    map url
        (collect_results
           (map (fun path => _test_endpoint head (pre ++ path)%string) paths))
    = map (append pre)
          (filter (fun path =>
                     match _test_endpoint head (pre ++ path)%string with
                     | Some _ => true
                     | None => false
                     end) paths).
Proof.
  intros head pre paths. induction paths as [|path rest IH]; [reflexivity|].
  cbn [map filter collect_results flat_map].
  fold (collect_results
          (map (fun path => _test_endpoint head (pre ++ path)%string) rest)).
  destruct (_test_endpoint head (pre ++ path)%string) as [e|] eqn:He.
  - apply Prober._test_endpoint_Some in He. destruct He as [r [_ [_ ->]]].
    cbn [app map]. rewrite IH. reflexivity.
  - cbn [app]. exact IH.
Qed.

Lemma NoDup_map_append :
  forall pre paths, NoDup paths -> NoDup (map (append pre) paths).
Proof.
  intros pre paths H. induction H as [|x l Hx Hl IH]; cbn; constructor;
    [|exact IH].
  intros Hin. apply in_map_iff in Hin. destruct Hin as [y [Hy Hin]].
  apply append_cancel in Hy. subst y. contradiction.
Qed.

(** X9. Whatever the order in which the probes complete, a scan of the
    common paths reports no URL twice, so it returns at most as many
    endpoints as there are common paths, fifteen, and deduplication leaves
    its result as it is. *)
Theorem scan_common_paths_urls_distinct :
  forall as_completed,
    (forall l : list (option APIEndpoint), Permutation l (as_completed l)) ->
    forall head base_url,
      NoDup (map url (scan_common_paths as_completed head base_url))
      /\ (length (scan_common_paths as_completed head base_url) <= 15)%nat
      /\ _deduplicate_endpoints (scan_common_paths as_completed head base_url)
         = scan_common_paths as_completed head base_url.
Proof.
  intros as_completed Hperm head base_url.
  set (futures :=
         map (fun path =>
                _test_endpoint head (PyStr.rstrip_slash base_url ++ path)%string)
             common_paths).
  assert (Hp : Permutation (collect_results futures)
                 (scan_common_paths as_completed head base_url)).
  { unfold scan_common_paths, collect_results. fold futures.
    apply Permutation_flat_map. apply Hperm. }
  assert (Hnd : NoDup (map url (collect_results futures))).
  { unfold futures. rewrite probed_urls. apply NoDup_map_append.
    apply NoDup_filter. exact common_paths_NoDup. }
  assert (Hurls : NoDup (map url (scan_common_paths as_completed head base_url))).
  { eapply Permutation_NoDup; [apply Permutation_map; exact Hp | exact Hnd]. }
  split; [exact Hurls|]. split.
  - rewrite <- (Permutation_length Hp), <- (length_map url).
    unfold futures. rewrite probed_urls, length_map.
    etransitivity; [apply filter_length_le | reflexivity].
  - rewrite Merger.dedup_is_dedup_from. apply Merger.dedup_from_fixed.
    + revert Hurls.
      generalize (scan_common_paths as_completed head base_url) as l.
      induction l as [|e l IH]; cbn; intros H; [constructor|].
      inversion H as [|u us Hu Hus]; subst. constructor; [|exact (IH Hus)].
      intros Hin. apply Hu. apply in_map_iff in Hin.
      destruct Hin as [e' [Hk He']]. apply in_map_iff. exists e'.
      split; [|exact He']. unfold key_of in Hk. congruence.
    + intros e _ [].
Qed.

(** The probes of the example host, completing in reverse order. *)
Lemma scan_common_paths_urls_distinct_witness :
  NoDup (map url (scan_common_paths (@rev _) Examples.host "https://x.test/"))
  /\ (length (scan_common_paths (@rev _) Examples.host "https://x.test/")
      <= 15)%nat
  /\ _deduplicate_endpoints
       (scan_common_paths (@rev _) Examples.host "https://x.test/")
     = scan_common_paths (@rev _) Examples.host "https://x.test/".
Proof.
  exact (scan_common_paths_urls_distinct (@rev _)
           (fun l => Permutation_rev l) Examples.host "https://x.test/").
Defined.

(** *** scan_robots_txt *)

Lemma robots_lines_In :
  forall base_url lines e,
    In e (robots_lines base_url lines) ->
    exists line after,
      In line lines
      /\ directive line = true
      /\ PyStr.after_first_colon line = Some after
      /\ _looks_like_api_path (PyStr.strip after) = true
      /\ e = new_APIEndpoint
               (PyStr.rstrip_slash base_url ++ PyStr.strip after) None None
               None (Some "robots_txt") (Some 0.6).
Proof.
  intros base_url lines e. induction lines as [|line rest IH];
    cbn [robots_lines]; [intros []|].
  fold (directive line).
  assert (Hrest : In e (robots_lines base_url rest) ->
                  exists line0 after,
                    In line0 (line :: rest)
                    /\ directive line0 = true
                    /\ PyStr.after_first_colon line0 = Some after
                    /\ _looks_like_api_path (PyStr.strip after) = true
                    /\ e = new_APIEndpoint
                             (PyStr.rstrip_slash base_url ++ PyStr.strip after)
                             None None None (Some "robots_txt") (Some 0.6)).
  { intros H. destruct (IH H) as [l [a [Hl Hr]]]. exists l, a.
    split; [right; exact Hl | exact Hr]. }
  destruct (directive line) eqn:Hd; [|exact Hrest].
  destruct (PyStr.after_first_colon line) as [after|] eqn:Ha; [|intros []].
  destruct (_looks_like_api_path (PyStr.strip after)) eqn:Hl; [|exact Hrest].
  intros [<- | H]; [|exact (Hrest H)].
  exists line, after. repeat split; auto. left. reflexivity.
Qed.

(** X10. Every endpoint read off robots.txt comes from an answer with status
    200 and from one piece of its body between two separators that, stripped,
    starts with Disallow: or Allow:; its URL is the base URL without its
    trailing slashes followed by the stripped text after the first colon of
    that piece, which contains one of the scanner's keywords; its method is
    GET, its source robots_txt and its confidence 0.6. *)
Theorem scan_robots_txt_endpoints :
  forall get base_url e,
    In e (scan_robots_txt get base_url) ->
    exists r line after,
      get (PyStr.rstrip_slash base_url ++ "/robots.txt")%string = Response r
      /\ status_code r = 200%Z
      /\ In line (PyStr.split line_separator (text r))
      /\ directive line = true
      /\ PyStr.after_first_colon line = Some after
      /\ _looks_like_api_path (PyStr.strip after) = true
      /\ url e = (PyStr.rstrip_slash base_url ++ PyStr.strip after)%string
      /\ method e = "GET"%string
      /\ source e = "robots_txt"%string
      /\ confidence e = 0.6.
Proof.
  intros get base_url e. unfold scan_robots_txt.
  destruct (get (PyStr.rstrip_slash base_url ++ "/robots.txt")%string)
    as [r|]; [|intros []].
  destruct (status_code r =? 200)%Z eqn:Hs; [|intros []].
  intros H. apply robots_lines_In in H.
  destruct H as [line [after [Hin [Hd [Ha [Hl ->]]]]]].
  exists r, line, after. apply Z.eqb_eq in Hs. repeat split; auto.
Qed.

Lemma scan_robots_txt_endpoints_witness :
  exists r line after,
    Examples.robots_server "Disallow: /api/v1/\nAllow: /rest/"
      (PyStr.rstrip_slash "https://x.test" ++ "/robots.txt")%string
    = Response r
    /\ status_code r = 200%Z
    /\ In line (PyStr.split line_separator (text r))
    /\ directive line = true
    /\ PyStr.after_first_colon line = Some after
    /\ _looks_like_api_path (PyStr.strip after) = true
    /\ url (new_APIEndpoint "https://x.test/rest/" None None None
              (Some "robots_txt") (Some 0.6))
       = (PyStr.rstrip_slash "https://x.test" ++ PyStr.strip after)%string
    /\ method (new_APIEndpoint "https://x.test/rest/" None None None
                 (Some "robots_txt") (Some 0.6)) = "GET"%string
    /\ source (new_APIEndpoint "https://x.test/rest/" None None None
                 (Some "robots_txt") (Some 0.6)) = "robots_txt"%string
    /\ confidence (new_APIEndpoint "https://x.test/rest/" None None None
                     (Some "robots_txt") (Some 0.6)) = 0.6.
Proof.
  apply (scan_robots_txt_endpoints
           (Examples.robots_server "Disallow: /api/v1/\nAllow: /rest/")
           "https://x.test").
  right. left. reflexivity.
Defined.

(** *** scan_sitemap *)

(** X11. Every endpoint read off a sitemap comes from one of the three
    sitemap paths, answered with status 200 and a body the parser accepts,
    and from a namespaced url element below the root whose first namespaced
    loc child has a text; that text, which is not empty and contains one of
    the scanner's keywords, is the endpoint's URL as it stands, not joined to
    the base URL; the method is GET, the source sitemap and the confidence
    0.7. *)
Theorem scan_sitemap_endpoints :
  forall get fromstring base_url e,
    In e (scan_sitemap get fromstring base_url) ->
    exists sitemap_path r root url_elem loc_elem,
      In sitemap_path sitemap_urls
      /\ get (PyStr.rstrip_slash base_url ++ sitemap_path)%string = Response r
      /\ status_code r = 200%Z
      /\ fromstring (text r) = Some root
      /\ In url_elem (xml_descendants root)
      /\ xml_tag url_elem = (sitemap_ns ++ "url")%string
      /\ xml_find (sitemap_ns ++ "loc") url_elem = Some loc_elem
      /\ xml_text loc_elem = Some (url e)
      /\ url e <> ""%string
      /\ _looks_like_api_path (url e) = true
      /\ method e = "GET"%string
      /\ source e = "sitemap"%string
      /\ confidence e = 0.7.
Proof.
  intros get fromstring base_url e. unfold scan_sitemap.
  rewrite in_flat_map. intros [sitemap_path [Hpath He]].
  unfold sitemap_probe in He.
  destruct (get (PyStr.rstrip_slash base_url ++ sitemap_path)%string)
    as [r|] eqn:Hget; [|destruct He].
  destruct (status_code r =? 200)%Z eqn:Hs; [|destruct He].
  destruct (fromstring (text r)) as [root|] eqn:Hroot; [|destruct He].
  unfold sitemap_entries in He. rewrite in_flat_map in He.
  destruct He as [url_elem [Hurl He]].
  unfold xml_findall in Hurl. apply filter_In in Hurl.
  destruct Hurl as [Hdesc Htag]. apply String.eqb_eq in Htag.
  destruct (xml_find (sitemap_ns ++ "loc") url_elem) as [loc_elem|] eqn:Hloc;
    [|destruct He].
  destruct (xml_text loc_elem) as [loc|] eqn:Htext; [|destruct He].
  destruct (String.eqb loc "") eqn:Hempty; [destruct He|].
  destruct (_looks_like_api_path loc) eqn:Hlooks; [|destruct He].
  cbn in He. destruct He as [<- | []].
  exists sitemap_path, r, root, url_elem, loc_elem.
  apply Z.eqb_eq in Hs. apply String.eqb_neq in Hempty.
  repeat split; auto.
Qed.

(** The sitemap of the examples: its one API entry lies on another host. *)
Lemma scan_sitemap_endpoints_witness :
  exists sitemap_path r root url_elem loc_elem,
    In sitemap_path sitemap_urls
    /\ Examples.sitemap_server
         (PyStr.rstrip_slash "https://x.test/" ++ sitemap_path)%string
       = Response r
    /\ status_code r = 200%Z
    /\ Examples.sitemap_parser (text r) = Some root
    /\ In url_elem (xml_descendants root)
    /\ xml_tag url_elem = (sitemap_ns ++ "url")%string
    /\ xml_find (sitemap_ns ++ "loc") url_elem = Some loc_elem
    /\ xml_text loc_elem = Some "https://cdn.example.org/api/v1/items"%string
    /\ "https://cdn.example.org/api/v1/items"%string <> ""%string
    /\ _looks_like_api_path "https://cdn.example.org/api/v1/items" = true
    /\ "GET"%string = "GET"%string
    /\ "sitemap"%string = "sitemap"%string
    /\ 0.7 = 0.7.
Proof.
  apply (scan_sitemap_endpoints Examples.sitemap_server
           Examples.sitemap_parser "https://x.test/"
           (new_APIEndpoint "https://cdn.example.org/api/v1/items" None None
              None (Some "sitemap") (Some 0.7))).
  left. reflexivity.
Defined.

Example sitemap_of_the_examples :
  map (fun e => (url e, source e, confidence e))
      (scan_sitemap Examples.sitemap_server Examples.sitemap_parser
                    "https://x.test/")
  = [("https://cdn.example.org/api/v1/items"%string, "sitemap"%string, 0.7)].
Proof. reflexivity. Qed.

(** *** discover_swagger_docs *)

(** The swagger paths whose answers are parsed: those that contain json. *)
Lemma parsed_swagger_paths :
  filter (PyStr.contains "json") swagger_paths
  = ["/swagger.json"; "/api-docs.json"; "/openapi.json";
     "/swagger/v1/swagger.json"]%string.
Proof. reflexivity. Qed.

(** X12. A documentation hit is recorded for exactly the swagger paths
    answered with status 200, with method GET and confidence 0.9, and every
    other endpoint of the result has source swagger_spec; the body of an
    answer is looked at only under a path that contains json, so a document
    served at /api-docs, /v1/api-docs or /v2/api-docs, or a YAML one, never
    contributes more than its hit, whatever it holds. *)
Theorem swagger_docs_hits_and_unparsed_paths :
  forall get base_url,
    (forall e,
        In e (discover_swagger_docs get base_url) ->
        source e = "swagger_spec"%string
        \/ (source e = "swagger_docs"%string /\ method e = "GET"%string
            /\ confidence e = 0.9
            /\ exists path r,
                 In path swagger_paths
                 /\ url e = (PyStr.rstrip_slash base_url ++ path)%string
                 /\ get (url e) = Response r /\ status_code r = 200%Z))
    /\ (forall path r,
           In path swagger_paths ->
           get (PyStr.rstrip_slash base_url ++ path)%string = Response r ->
           status_code r = 200%Z ->
           In (new_APIEndpoint (PyStr.rstrip_slash base_url ++ path) None None
                 None (Some "swagger_docs") (Some 0.9))
              (discover_swagger_docs get base_url))
    /\ (forall path,
           PyStr.contains "json" path = false ->
           (length (swagger_probe get base_url path) <= 1)%nat)
    /\ map (PyStr.contains "json")
           ["/api-docs"; "/v1/api-docs"; "/v2/api-docs"; "/swagger.yaml";
            "/openapi.yaml"; "/swagger-ui.html"; "/docs"]%string
       = [false; false; false; false; false; false; false].
Proof.
  intros get base_url. split; [|split; [|split; [|reflexivity]]].
  - intros e. unfold discover_swagger_docs. rewrite in_flat_map.
    intros [path [Hpath He]]. unfold swagger_probe in He.
    destruct (get (PyStr.rstrip_slash base_url ++ path)%string) as [r|] eqn:Hget;
      [|destruct He].
    destruct (status_code r =? 200)%Z eqn:Hs; [|destruct He].
    destruct He as [<- | He].
    + right. cbn. repeat split. exists path, r. apply Z.eqb_eq in Hs. auto.
    + left.
      destruct (PyStr.contains "json" path
                && PyStr.startswith (content_type_header r) "application/json");
        [|destruct He].
      destruct (json_body r) as [swagger_data|]; [|destruct He].
      pose proof (Prober.spec_endpoints_from_spec base_url swagger_data) as Hall.
      rewrite Forall_forall in Hall. exact (proj1 (Hall e He)).
  - intros path r Hpath Hget Hs. unfold discover_swagger_docs.
    apply in_flat_map. exists path. split; [exact Hpath|].
    unfold swagger_probe. rewrite Hget, Hs. cbn. left. reflexivity.
  - intros path Hjson. unfold swagger_probe.
    destruct (get (PyStr.rstrip_slash base_url ++ path)%string) as [r|];
      [|cbn; lia].
    destruct (status_code r =? 200)%Z; [|cbn; lia].
    rewrite Hjson. cbn. lia.
Qed.

(** A host that serves the Swagger document of the examples at every path:
    it is read at the four paths that contain json only. *)
Example swagger_everywhere :
  map (fun path =>
         length (swagger_probe (fun _ => Response Examples.petstore)
                               "https://x.test" path))
      swagger_paths
  = [4; 1; 1; 4; 4; 1; 1; 1; 4; 1; 1]%nat.
Proof. reflexivity. Qed.

End Documents.

(** ** The order of floats

    [PrimFloat.ltb], [PrimFloat.leb] and [PrimFloat.eqb] are Python's [<],
    [<=] and [==] on floats; on numbers they form a total order. *)
Module FloatOrder.

Import Spec.

Lemma SFcompare_antisym :
  forall x y, SFcompare y x = option_map CompOpp (SFcompare x y).
Proof.
  intros [sx|sx| |sx mx ex] [sy|sy| |sy my ey]; cbn;
    try reflexivity;
    try (destruct sx; reflexivity); try (destruct sy; reflexivity);
    try (destruct sx, sy; reflexivity).
  destruct sx, sy; cbn; try reflexivity;
    rewrite (Z.compare_antisym ex ey);
    change (Pos.compare_cont Eq my mx) with (Pos.compare my mx);
    change (Pos.compare_cont Eq mx my) with (Pos.compare mx my);
    rewrite (Pos.compare_antisym mx my);
    destruct (ex ?= ey)%Z; cbn; try reflexivity;
    destruct (mx ?= my)%positive; reflexivity.
Qed.

Lemma SFcompare_refl :
  forall x, x <> S754_nan -> SFcompare x x = Some Eq.
Proof.
  intros [sx|sx| |sx mx ex] H; cbn; try reflexivity.
  - destruct sx; reflexivity.
  - contradiction.
  - change (Pos.compare_cont Eq mx mx) with (Pos.compare mx mx).
    rewrite Z.compare_refl, Pos.compare_refl. destruct sx; reflexivity.
Qed.

Lemma SFcompare_None :
  forall x y, SFcompare x y = None -> x = S754_nan \/ y = S754_nan.
Proof.
  intros [sx|sx| |sx mx ex] [sy|sy| |sy my ey]; cbn; intros H;
    try discriminate H; auto.
Qed.

Lemma SFleb_trans :
  forall x y z, SFleb x y = true -> SFleb y z = true -> SFleb x z = true.
Proof.
  unfold SFleb.
  intros [sx|sx| |sx mx ex] [sy|sy| |sy my ey] [sz|sz| |sz mz ez]; cbn;
    try discriminate; try reflexivity;
    try (destruct sx; cbn; try discriminate; try reflexivity);
    try (destruct sy; cbn; try discriminate; try reflexivity);
    try (destruct sz; cbn; try discriminate; try reflexivity).
  all: change (Pos.compare_cont Eq mx my) with (Pos.compare mx my);
    change (Pos.compare_cont Eq my mz) with (Pos.compare my mz);
    change (Pos.compare_cont Eq mx mz) with (Pos.compare mx mz);
    destruct (Z.compare_spec ex ey), (Z.compare_spec ey ez),
      (Z.compare_spec ex ez); try lia; cbn; try discriminate;
      try reflexivity;
    destruct (Pos.compare_spec mx my), (Pos.compare_spec my mz),
      (Pos.compare_spec mx mz); try lia; cbn; try discriminate;
      try reflexivity.
Qed.

Lemma number_spec :
  forall c, number c = true <-> Prim2SF c <> S754_nan.
Proof.
  intros c. unfold number. rewrite FloatAxioms.eqb_spec. unfold SFeqb. split.
  - intros H E. rewrite E in H. discriminate H.
  - intros H. rewrite (SFcompare_refl H). reflexivity.
Qed.

Lemma leb_number :
  forall x y, PrimFloat.leb x y = true -> number x = true /\ number y = true.
Proof.
  intros x y. rewrite FloatAxioms.leb_spec. unfold SFleb. intros H.
  split; apply number_spec; intros E; rewrite E in H;
    [|destruct (Prim2SF x)]; discriminate H.
Qed.

Lemma ltb_number :
  forall x y, PrimFloat.ltb x y = true -> number x = true /\ number y = true.
Proof.
  intros x y. rewrite FloatAxioms.ltb_spec. unfold SFltb. intros H.
  split; apply number_spec; intros E; rewrite E in H;
    [|destruct (Prim2SF x)]; discriminate H.
Qed.

Lemma ltb_negb_leb :
  forall x y,
    number x = true -> number y = true ->
    PrimFloat.ltb x y = negb (PrimFloat.leb y x).
Proof.
  intros x y Hx Hy. apply number_spec in Hx, Hy.
  rewrite FloatAxioms.ltb_spec, FloatAxioms.leb_spec. unfold SFltb, SFleb.
  rewrite (SFcompare_antisym (Prim2SF x) (Prim2SF y)).
  destruct (SFcompare (Prim2SF x) (Prim2SF y)) as [[]|] eqn:E; cbn;
    try reflexivity.
  apply SFcompare_None in E. tauto.
Qed.

Lemma leb_trans :
  forall x y z,
    PrimFloat.leb x y = true -> PrimFloat.leb y z = true ->
    PrimFloat.leb x z = true.
Proof. intros x y z. rewrite !FloatAxioms.leb_spec. apply SFleb_trans. Qed.

Lemma ltb_leb :
  forall x y, PrimFloat.ltb x y = true -> PrimFloat.leb x y = true.
Proof.
  intros x y. rewrite FloatAxioms.ltb_spec, FloatAxioms.leb_spec. unfold SFltb, SFleb.
  destruct (SFcompare (Prim2SF x) (Prim2SF y)) as [[]|]; auto.
Qed.

(** A comparison with a float that is not a number is false. *)
Lemma leb_not_number :
  forall x y,
    number x = false ->
    PrimFloat.leb x y = false /\ PrimFloat.leb y x = false
    /\ PrimFloat.ltb x y = false /\ PrimFloat.ltb y x = false.
Proof.
  intros x y Hx.
  repeat split;
    match goal with
    | |- ?c = false =>
        destruct c eqn:E; [|reflexivity];
        (apply leb_number in E || apply ltb_number in E);
        destruct E; congruence
    end.
Qed.

Lemma within_bounds_number :
  forall c, within_bounds c = true -> number c = true.
Proof.
  intros c H. unfold within_bounds in H. apply andb_true_iff in H.
  destruct H as [H _]. apply leb_number in H. tauto.
Qed.

End FloatOrder.

(** ** The reports: order, groups and the console report *)
Module Reports.

Import Core Reporter Spec.

Lemma insert_Permutation :
  forall e l, Permutation (e :: l) (insert_by_confidence e l).
Proof.
  intros e l. induction l as [|x rest IH]; cbn; [reflexivity|].
  destruct (PrimFloat.ltb (confidence e) (confidence x)); [|reflexivity].
  eapply perm_trans; [apply perm_swap | apply perm_skip; exact IH].
Qed.

Lemma sorted_Permutation :
  forall l, Permutation l (sorted_by_confidence l).
Proof.
  induction l as [|e rest IH]; cbn; [constructor|].
  eapply perm_trans; [apply perm_skip; exact IH | apply insert_Permutation].
Qed.

Lemma insert_descending :
  forall e l,
    numbered e -> Forall numbered l -> descending l ->
    descending (insert_by_confidence e l).
Proof.
  intros e l He. induction l as [|x rest IH]; intros Hl Hd; cbn.
  - constructor; constructor.
  - inversion Hl as [|? ? Hx Hrest]; subst.
    apply StronglySorted_inv in Hd. destruct Hd as [Hsorted Hall].
    destruct (PrimFloat.ltb (confidence e) (confidence x)) eqn:Hlt.
    + constructor; [apply IH; assumption|].
      eapply Permutation_Forall; [apply insert_Permutation|].
      constructor; [apply FloatOrder.ltb_leb; exact Hlt | exact Hall].
    + assert (Hxe : PrimFloat.leb (confidence x) (confidence e) = true).
      { rewrite (FloatOrder.ltb_negb_leb He Hx) in Hlt.
        destruct (PrimFloat.leb (confidence x) (confidence e));
          [reflexivity | discriminate Hlt]. }
      constructor; [constructor; assumption|].
      constructor; [exact Hxe|].
      eapply Forall_impl; [|exact Hall].
      intros y Hy. exact (FloatOrder.leb_trans Hy Hxe).
Qed.

Lemma sorted_descending :
  forall l, Forall numbered l -> descending (sorted_by_confidence l).
Proof.
  induction l as [|e rest IH]; intros H; cbn; [constructor|].
  inversion H as [|? ? He Hrest]; subst.
  apply insert_descending; [exact He | | apply IH; exact Hrest].
  eapply Permutation_Forall; [apply sorted_Permutation | exact Hrest].
Qed.

Lemma filter_none :
  forall (A : Type) (p : A -> bool) l,
    Forall (fun x => p x = false) l -> filter p l = [].
Proof.
  intros A p l H. induction H as [|x l Hx Hl IH]; cbn; [reflexivity|].
  rewrite Hx. exact IH.
Qed.

Lemma filter_all :
  forall (A : Type) (p : A -> bool) l,
    Forall (fun x => p x = true) l -> filter p l = l.
Proof.
  intros A p l H. induction H as [|x l Hx Hl IH]; cbn; [reflexivity|].
  rewrite Hx, IH. reflexivity.
Qed.

(** In a list that descends, the three groups follow one another. *)
Lemma groups_of_descending :
  forall l,
    Forall numbered l -> descending l ->
    high_conf l ++ medium_conf l ++ low_conf l = l.
Proof.
  induction l as [|x rest IH]; intros Hn Hd; [reflexivity|].
  inversion Hn as [|? ? Hx Hrest]; subst.
  apply StronglySorted_inv in Hd. destruct Hd as [Hs Hall].
  specialize (IH Hrest Hs).
  assert (H8 : number 0.8 = true) by reflexivity.
  assert (H5 : number 0.5 = true) by reflexivity.
  assert (H58 : PrimFloat.leb 0.5 0.8 = true) by reflexivity.
  unfold high_conf, medium_conf, low_conf in *. cbn [filter].
  rewrite (@FloatOrder.ltb_negb_leb (confidence x) 0.8 Hx H8),
    (@FloatOrder.ltb_negb_leb (confidence x) 0.5 Hx H5).
  destruct (PrimFloat.leb 0.8 (confidence x)) eqn:E8.
  - rewrite (@FloatOrder.leb_trans 0.5 0.8 (confidence x) H58 E8). cbn.
    f_equal. exact IH.
  - assert (Hhigh : filter (fun e => PrimFloat.leb 0.8 (confidence e)) rest
                    = []).
    { apply filter_none. eapply Forall_impl; [|exact Hall].
      intros y Hy. cbv beta.
      destruct (PrimFloat.leb 0.8 (confidence y)) eqn:Ey; [|reflexivity].
      rewrite (@FloatOrder.leb_trans 0.8 (confidence y) (confidence x) Ey Hy)
        in E8.
      discriminate E8. }
    rewrite Hhigh in IH |- *.
    destruct (PrimFloat.leb 0.5 (confidence x)) eqn:E5; cbn.
    + f_equal. exact IH.
    + assert (Hmedium :
               filter (fun e => PrimFloat.leb 0.5 (confidence e)
                                && PrimFloat.ltb (confidence e) 0.8) rest
               = []).
      { apply filter_none. eapply Forall_impl; [|exact Hall].
        intros y Hy. cbv beta.
        destruct (PrimFloat.leb 0.5 (confidence y)) eqn:Ey; [|reflexivity].
        rewrite (@FloatOrder.leb_trans 0.5 (confidence y) (confidence x) Ey Hy)
          in E5.
        discriminate E5. }
      rewrite Hmedium in IH |- *. cbn in IH |- *. f_equal. exact IH.
Qed.

(** X17. When every confidence is a number, a report lists the endpoints
    highest confidence first, and the high, medium and low groups of the
    detailed and the console report are consecutive stretches of that list:
    put one after the other they give it back, so each endpoint is in one
    group and the three counts of the summary add up to the total. *)
Theorem confidence_groups_partition_sorted :
  forall endpoints,
    Forall (fun e => number (confidence e) = true) endpoints ->
    high_conf (sorted_by_confidence endpoints)
    ++ medium_conf (sorted_by_confidence endpoints)
    ++ low_conf (sorted_by_confidence endpoints)
    = sorted_by_confidence endpoints
    /\ Permutation endpoints (sorted_by_confidence endpoints)
    /\ descending (sorted_by_confidence endpoints)
    /\ (length (high_conf (sorted_by_confidence endpoints))
        + length (medium_conf (sorted_by_confidence endpoints))
        + length (low_conf (sorted_by_confidence endpoints))
        = length endpoints)%nat.
Proof.
  intros endpoints H.
  assert (Hgroups :
           high_conf (sorted_by_confidence endpoints)
           ++ medium_conf (sorted_by_confidence endpoints)
           ++ low_conf (sorted_by_confidence endpoints)
           = sorted_by_confidence endpoints).
  { apply groups_of_descending; [|apply sorted_descending; exact H].
    eapply Permutation_Forall; [apply sorted_Permutation | exact H]. }
  split; [exact Hgroups|]. split; [apply sorted_Permutation|].
  split; [apply sorted_descending; exact H|].
  rewrite (Permutation_length (sorted_Permutation endpoints)).
  rewrite <- Hgroups at 4. rewrite !length_app. lia.
Qed.

Lemma confidence_groups_partition_sorted_witness :
  high_conf (sorted_by_confidence [Examples.low; Examples.unscored;
                                   Examples.high; Examples.users])
  ++ medium_conf (sorted_by_confidence [Examples.low; Examples.unscored;
                                        Examples.high; Examples.users])
  ++ low_conf (sorted_by_confidence [Examples.low; Examples.unscored;
                                     Examples.high; Examples.users])
  = sorted_by_confidence [Examples.low; Examples.unscored; Examples.high;
                          Examples.users]
  /\ Permutation [Examples.low; Examples.unscored; Examples.high;
                  Examples.users]
       (sorted_by_confidence [Examples.low; Examples.unscored; Examples.high;
                              Examples.users])
  /\ descending (sorted_by_confidence [Examples.low; Examples.unscored;
                                       Examples.high; Examples.users])
  /\ (length (high_conf (sorted_by_confidence
                           [Examples.low; Examples.unscored; Examples.high;
                            Examples.users]))
      + length (medium_conf (sorted_by_confidence
                               [Examples.low; Examples.unscored;
                                Examples.high; Examples.users]))
      + length (low_conf (sorted_by_confidence
                            [Examples.low; Examples.unscored; Examples.high;
                             Examples.users]))
      = length [Examples.low; Examples.unscored; Examples.high;
                Examples.users])%nat.
Proof.
  apply (@confidence_groups_partition_sorted
           [Examples.low; Examples.unscored; Examples.high; Examples.users]).
  repeat constructor.
Defined.

Example sorted_keeps_the_order_of_ties :
  map (fun e => (method e, source e, confidence e))
      (sorted_by_confidence [Examples.low; Examples.other; Examples.high;
                             Examples.users])
  = [("GET", "ajax_call", 0.9); ("POST", "html_form", 0.6);
     ("GET", "html_form", 0.6); ("GET", "comment", 0.5)]%string%float.
Proof. reflexivity. Qed.


(** *** generate_console_report *)

Lemma has_line_feed_app :
  forall a b : string,
    has_line_feed (a ++ b) = has_line_feed a || has_line_feed b.
Proof.
  induction a as [|c a IH]; intros b; cbn; [reflexivity|].
  rewrite IH, orb_assoc. reflexivity.
Qed.

Lemma has_line_feed_concat :
  forall sep parts,
    has_line_feed sep = false ->
    Forall (fun p => has_line_feed p = false) parts ->
    has_line_feed (String.concat sep parts) = false.
Proof.
  intros sep parts Hsep H. induction H as [|p rest Hp Hrest IH];
    [reflexivity|].
  cbn [String.concat]. destruct rest as [|q rest]; [exact Hp|].
  rewrite !has_line_feed_app, Hp, Hsep, IH. reflexivity.
Qed.

Lemma has_line_feed_digits :
  forall d, has_line_feed (NilEmpty.string_of_uint d) = false.
Proof. induction d; cbn; auto. Qed.

Lemma has_line_feed_len : forall n, has_line_feed (str_of_len n) = false.
Proof.
  intros n. unfold str_of_len, NilZero.string_of_uint.
  destruct (Nat.to_uint n); try apply has_line_feed_digits. reflexivity.
Qed.

Ltac one_line :=
  repeat first
    [ rewrite has_line_feed_app
    | rewrite has_line_feed_len
    | rewrite orb_false_r ];
  cbn [has_line_feed orb]; auto.

Section Console.

Variable format_2f : float -> string.
Hypothesis format_one_line : forall c, has_line_feed (format_2f c) = false.

Lemma endpoint_lines_one_line :
  forall with_parameters e,
    one_line_fields e ->
    Forall (fun p => has_line_feed p = false)
           (endpoint_lines format_2f with_parameters e).
Proof.
  intros with_parameters e [Hu [Hm [Hs Hp]]]. unfold endpoint_lines.
  apply Forall_app. split.
  - repeat constructor.
    + rewrite !has_line_feed_app, Hm, Hu. reflexivity.
    + rewrite !has_line_feed_app, Hs, format_one_line. reflexivity.
  - destruct with_parameters; [|constructor].
    destruct (parameters e) as [[|p ps]|] eqn:E; try constructor; [|constructor].
    rewrite has_line_feed_app. cbn [has_line_feed orb].
    replace (has_line_feed "      Parameters: ") with false by reflexivity.
    apply has_line_feed_concat; [reflexivity | exact (Hp _ eq_refl)].
Qed.

Lemma section_lines_one_line :
  forall title with_parameters members,
    has_line_feed title = false ->
    Forall one_line_fields members ->
    Forall (fun p => has_line_feed p = false)
           (section_lines format_2f title with_parameters members).
Proof.
  intros title with_parameters members Ht H. unfold section_lines.
  destruct members as [|e rest] eqn:E; [constructor|]. rewrite <- E in *.
  constructor; [exact Ht|]. apply Forall_flat_map.
  eapply Forall_impl; [|exact H].
  intros x Hx. apply endpoint_lines_one_line. exact Hx.
Qed.

(** X19. The console report joins its lines with a backslash followed by
    the letter n, and starts its headings with the same two characters: when
    no URL, method, source, parameter name or formatted confidence holds a
    line feed, neither does the report, which is one line of text; the
    report of a list that is not empty starts with a backslash and an n. *)
Theorem console_report_is_one_line :
  forall endpoints,
    Forall one_line_fields endpoints ->
    has_line_feed (generate_console_report format_2f endpoints) = false
    /\ (endpoints <> [] ->
        PyStr.startswith (generate_console_report format_2f endpoints)
                         backslash_n = true).
Proof.
  intros endpoints H. split.
  - unfold generate_console_report.
    destruct endpoints as [|e rest] eqn:E; [reflexivity|]. rewrite <- E in *.
    assert (Hsorted : Forall one_line_fields (sorted_by_confidence endpoints)).
    { eapply Permutation_Forall; [apply sorted_Permutation | exact H]. }
    assert (Hgroup : forall p,
               Forall one_line_fields
                      (filter p (sorted_by_confidence endpoints))).
    { intros p. apply Forall_forall. intros x Hx. apply filter_In in Hx.
      exact (proj1 (Forall_forall _ _) Hsorted x (proj1 Hx)). }
    unfold join. apply has_line_feed_concat; [reflexivity|].
    repeat (apply Forall_app; split).
    + repeat constructor.
      rewrite !has_line_feed_app, has_line_feed_len. reflexivity.
    + apply section_lines_one_line; [reflexivity | apply Hgroup].
    + apply section_lines_one_line; [reflexivity | apply Hgroup].
    + apply section_lines_one_line; [reflexivity | apply Hgroup].
    + repeat constructor.
      rewrite !has_line_feed_app, !has_line_feed_len. reflexivity.
  - intros Hne. unfold generate_console_report.
    destruct endpoints as [|e rest]; [contradiction|].
    unfold join. cbn [app String.concat]. reflexivity.
Qed.

End Console.

Lemma console_report_is_one_line_witness :
  has_line_feed
    (generate_console_report (fun _ => "0.90"%string)
       [Examples.other; Examples.high]) = false
  /\ ([Examples.other; Examples.high] <> [] ->
      PyStr.startswith
        (generate_console_report (fun _ => "0.90"%string)
           [Examples.other; Examples.high])
        backslash_n = true).
Proof.
  apply (@console_report_is_one_line (fun _ => "0.90"%string)
           (fun _ => eq_refl) [Examples.other; Examples.high]).
  repeat constructor; intros ps Hps; injection Hps as <-; repeat constructor.
Defined.

End Reports.

(** ** The scan of main.py: discovery, scanner, merge and threshold *)
Module Pipeline.

Import Core Spec.

Lemma dedup_from_app :
  forall l1 seen l2,
    dedup_from seen (l1 ++ l2)
    = dedup_from seen l1
      ++ dedup_from (rev (map key_of (dedup_from seen l1)) ++ seen) l2.
Proof.
  induction l1 as [|x rest IH]; intros seen l2; [reflexivity|].
  cbn [app dedup_from].
  destruct (key_in (key_of x) seen); [apply IH|].
  rewrite IH. cbn [app map rev]. rewrite <- app_assoc. reflexivity.
Qed.

Lemma NoDup_map_filter :
  forall (A B : Type) (f : A -> B) (p : A -> bool) l,
    NoDup (map f l) -> NoDup (map f (filter p l)).
Proof.
  intros A B f p l. induction l as [|x rest IH]; cbn; intros H; [exact H|].
  inversion H as [|y ys Hx Hrest]; subst.
  destruct (p x); [|exact (IH Hrest)].
  cbn. constructor; [|exact (IH Hrest)].
  intros Hin. apply Hx. apply in_map_iff in Hin.
  destruct Hin as [z [Hz Hin]]. apply filter_In in Hin.
  apply in_map_iff. exists z. tauto.
Qed.

(** The confidences the scanner passes to the constructor. *)
Lemma common_paths_confidence :
  forall as_completed,
    (forall l : list (option APIEndpoint), Permutation l (as_completed l)) ->
    forall head base_url e,
      In e (Scanner.scan_common_paths as_completed head base_url) ->
      within_bounds (confidence e) = true.
Proof.
  intros as_completed Hperm head base_url e He.
  apply (proj1 (@Prober.scan_common_paths_In as_completed Hperm head base_url
                  e)) in He.
  destruct He as [path [_ He]]. apply Prober._test_endpoint_Some in He.
  destruct He as [r [_ [_ ->]]].
  destruct (PyStr.contains_any api_content_types
              (PyStr.lower (content_type_header r))); reflexivity.
Qed.

Lemma swagger_confidence :
  forall get base_url e,
    In e (Scanner.discover_swagger_docs get base_url) ->
    within_bounds (confidence e) = true.
Proof.
  intros get base_url e. unfold Scanner.discover_swagger_docs.
  rewrite in_flat_map. intros [path [_ He]]. unfold Scanner.swagger_probe in He.
  destruct (get (PyStr.rstrip_slash base_url ++ path)%string) as [r|];
    [|destruct He].
  destruct (status_code r =? 200)%Z; [|destruct He].
  destruct He as [<- | He]; [reflexivity|].
  destruct (PyStr.contains "json" path
            && PyStr.startswith (content_type_header r) "application/json");
    [|destruct He].
  destruct (json_body r) as [swagger_data|]; [|destruct He].
  pose proof (Prober.spec_endpoints_from_spec base_url swagger_data) as Hall.
  rewrite Forall_forall in Hall. destruct (Hall e He) as [_ ->]. reflexivity.
Qed.

Lemma robots_confidence :
  forall get base_url e,
    In e (Scanner.scan_robots_txt get base_url) ->
    within_bounds (confidence e) = true.
Proof.
  intros get base_url e. unfold Scanner.scan_robots_txt.
  destruct (get (PyStr.rstrip_slash base_url ++ "/robots.txt")%string)
    as [r|]; [|intros []].
  destruct (status_code r =? 200)%Z; [|intros []].
  intros H. apply Documents.robots_lines_In in H.
  destruct H as [line [after [_ [_ [_ [_ ->]]]]]]. reflexivity.
Qed.

Lemma sitemap_confidence :
  forall get fromstring base_url e,
    In e (Scanner.scan_sitemap get fromstring base_url) ->
    within_bounds (confidence e) = true.
Proof.
  intros get fromstring base_url e. unfold Scanner.scan_sitemap.
  rewrite in_flat_map. intros [sitemap_path [_ He]].
  unfold Scanner.sitemap_probe in He.
  destruct (get (PyStr.rstrip_slash base_url ++ sitemap_path)%string)
    as [r|]; [|destruct He].
  destruct (status_code r =? 200)%Z; [|destruct He].
  destruct (fromstring (text r)) as [root|]; [|destruct He].
  unfold Scanner.sitemap_entries in He. rewrite in_flat_map in He.
  destruct He as [url_elem [_ He]].
  destruct (Scanner.xml_find (Scanner.sitemap_ns ++ "loc") url_elem)
    as [loc_elem|]; [|destruct He].
  destruct (Scanner.xml_text loc_elem) as [loc|]; [|destruct He].
  destruct (negb (String.eqb loc "") && Scanner._looks_like_api_path loc);
    [|destruct He].
  destruct He as [<- | []]. reflexivity.
Qed.

Section Scan.

Variable urljoin : string -> string -> py string.
Variable url_origin : string -> py string.
Variable re_search : string -> list re_flag -> string -> bool.
Variable re_findall : string -> list re_flag -> string -> list string.
Variable re_findall2 :
  string -> list re_flag -> string -> list (string * string).
Variable BeautifulSoup : string -> node.
Variable fromstring : string -> option Scanner.xml.
Variable as_completed : list (option APIEndpoint) -> list (option APIEndpoint).
Variable authenticated : bool.
Variable page : http_result.
Variable auth_get : nat -> string -> http_result.
Variable head : nat -> string -> http_result.
Variable scan_head : string -> http_result.
Variable get : string -> http_result.
Variable args_url : string.
Variable args_scan_common_paths : bool.
Variable args_include_swagger : bool.
Variable args_confidence_threshold : float.
Variable args_verbose : bool.

Local Abbreviation discovered :=
  (discover_endpoints urljoin url_origin re_search re_findall re_findall2
     args_url authenticated page auth_get head BeautifulSoup args_verbose).

Local Abbreviation scanned :=
  (scanner_endpoints as_completed scan_head get fromstring args_url
     args_scan_common_paths args_include_swagger).

Local Abbreviation collected :=
  (Main.endpoints urljoin url_origin re_search re_findall re_findall2
     BeautifulSoup fromstring as_completed authenticated page auth_get head
     scan_head get args_url args_scan_common_paths args_include_swagger
     args_verbose).

Local Abbreviation filtered :=
  (Main.filtered_endpoints urljoin url_origin re_search re_findall
     re_findall2 BeautifulSoup fromstring as_completed authenticated page
     auth_get head scan_head get args_url args_scan_common_paths
     args_include_swagger args_confidence_threshold args_verbose).

Local Abbreviation passes :=
  (fun ep : APIEndpoint =>
     PrimFloat.leb args_confidence_threshold (confidence ep)).

Lemma endpoints_shape :
  collected = (found <- discovered ;; Returns (found ++ scanned)).
Proof.
  unfold Main.endpoints, scanner_endpoints.
  destruct discovered as [found|e]; cbn [bind]; [|reflexivity].
  destruct args_scan_common_paths, args_include_swagger;
    cbn [app]; rewrite <- ?app_assoc; reflexivity.
Qed.

Lemma filtered_shape :
  forall l,
    filtered = Returns l ->
    exists found,
      discovered = Returns found
      /\ collected = Returns (found ++ scanned)
      /\ l = filter passes (_deduplicate_endpoints (found ++ scanned)).
Proof.
  intros l. unfold Main.filtered_endpoints. rewrite endpoints_shape.
  destruct discovered as [found|e]; cbn [bind]; [|discriminate].
  intros H. injection H as <-. exists found. auto.
Qed.

Lemma discovered_keys_distinct :
  forall found, discovered = Returns found -> NoDup (map key_of found).
Proof.
  intros found H.
  destruct (Run.run_shape _ _ _ _ _ _ _ _ _ _ _ _ H)
    as [-> | [r [C [A [_ [_ [_ ->]]]]]]]; [constructor|].
  unfold _validate_endpoints. rewrite Discovery.validate_from_keys.
  rewrite Merger.dedup_is_dedup_from. apply Merger.dedup_from_NoDup.
Qed.

(** X13. Whatever the scan returns, its endpoints have pairwise distinct
    (url, method) keys, each has a confidence that is at least the threshold,
    and each is one of the endpoints of the discovery or of the scanner,
    unchanged. *)
Theorem filtered_endpoints_distinct_and_above_threshold :
  forall l,
    filtered = Returns l ->
    NoDup (map key_of l)
    /\ Forall (fun ep =>
                 PrimFloat.leb args_confidence_threshold (confidence ep)
                 = true) l
    /\ exists found,
         discovered = Returns found
         /\ forall ep, In ep l -> In ep (found ++ scanned).
Proof.
  intros l H. destruct (filtered_shape H) as [found [Hfound [_ ->]]].
  split; [|split].
  - apply NoDup_map_filter. rewrite Merger.dedup_is_dedup_from.
    apply Merger.dedup_from_NoDup.
  - apply Forall_forall. intros ep Hep. apply filter_In in Hep. tauto.
  - exists found. split; [exact Hfound|]. intros ep Hep.
    apply filter_In in Hep. destruct Hep as [Hep _].
    rewrite Merger.dedup_is_dedup_from in Hep.
    apply Merger.dedup_from_In in Hep. tauto.
Qed.

(** X14. The endpoints of the discovery come first in the merge and go
    through it as they are: the scan returns those of them that reach the
    threshold, followed by endpoints of the scanner whose key the discovery
    did not find.  An endpoint of the scanner with a key the discovery found
    is dropped whatever its confidence. *)
Theorem discovered_endpoints_take_precedence :
  forall found l,
    discovered = Returns found ->
    filtered = Returns l ->
    exists rest,
      l = filter passes found ++ rest
      /\ forall ep,
           In ep rest ->
           In ep scanned /\ ~ In (key_of ep) (map key_of found).
Proof.
  intros found l Hfound H.
  destruct (filtered_shape H) as [found' [Hfound' [_ ->]]].
  assert (found' = found) by congruence. subst found'.
  rewrite Merger.dedup_is_dedup_from, dedup_from_app.
  rewrite (@Merger.dedup_from_fixed found [] (discovered_keys_distinct Hfound))
    by (intros e _ []).
  rewrite filter_app.
  exists (filter passes
            (dedup_from (rev (map key_of found) ++ []) scanned)).
  split; [reflexivity|]. intros ep Hep. apply filter_In in Hep.
  destruct Hep as [Hep _]. apply Merger.dedup_from_In in Hep.
  destruct Hep as [Hin Hseen]. split; [exact Hin|].
  intros Hk. apply Hseen. rewrite app_nil_r. apply in_rev in Hk. exact Hk.
Qed.

Hypothesis as_completed_permutes :
  forall l : list (option APIEndpoint), Permutation l (as_completed l).

Lemma scanned_within_bounds :
  Forall (fun e => within_bounds (confidence e) = true) scanned.
Proof.
  unfold scanner_endpoints.
  apply Forall_app; split; [|apply Forall_app; split;
                              [|apply Forall_app; split]].
  - destruct args_scan_common_paths; [|constructor].
    apply Forall_forall. intros e.
    apply (@common_paths_confidence as_completed as_completed_permutes).
  - destruct args_include_swagger; [|constructor].
    apply Forall_forall. intros e. apply swagger_confidence.
  - apply Forall_forall. intros e. apply robots_confidence.
  - apply Forall_forall. intros e. apply sitemap_confidence.
Qed.

Lemma collected_within_bounds :
  forall all,
    collected = Returns all ->
    Forall (fun e => within_bounds (confidence e) = true) all.
Proof.
  intros all. rewrite endpoints_shape.
  destruct discovered as [found|e] eqn:Hfound; cbn [bind]; [|discriminate].
  intros H. injection H as <-. apply Forall_app. split.
  - eapply Discovery.run_within_bounds. exact Hfound.
  - exact scanned_within_bounds.
Qed.

(** X15. Every endpoint that reaches the threshold filter, whether the
    discovery or the scanner built it, has a confidence in [0.1, 1.0]; in
    particular its confidence is a number. *)
Theorem scan_confidences_within_bounds :
  forall all,
    collected = Returns all ->
    Forall (fun e =>
              within_bounds (confidence e) = true
              /\ number (confidence e) = true) all.
Proof.
  intros all H. eapply Forall_impl; [|exact (collected_within_bounds H)].
  intros e He. split; [exact He | exact (FloatOrder.within_bounds_number _ He)].
Qed.

(** X16. A threshold of at most 0.1, the default 0.0 among them, filters
    nothing: the scan returns the merged list as it is. *)
Theorem low_threshold_filters_nothing :
  forall all,
    PrimFloat.leb args_confidence_threshold 0.1 = true ->
    collected = Returns all ->
    filtered = Returns (_deduplicate_endpoints all).
Proof.
  intros all Ht H. unfold Main.filtered_endpoints. rewrite H. cbn [bind].
  f_equal. apply Reports.filter_all. apply Forall_forall. intros e He.
  rewrite Merger.dedup_is_dedup_from in He.
  apply Merger.dedup_from_In in He. destruct He as [He _].
  pose proof (proj1 (Forall_forall _ _) (collected_within_bounds H) e He)
    as Hb.
  unfold within_bounds in Hb. apply andb_true_iff in Hb.
  exact (@FloatOrder.leb_trans args_confidence_threshold 0.1 (confidence e)
           Ht (proj1 Hb)).
Qed.

(** X20. The report of a scan accounts for every endpoint: the high, medium
    and low groups of what the scan returns, one after the other, are the
    sorted list, and their three counts add up to the number of endpoints
    found. *)
Theorem report_groups_cover_the_scan :
  forall l,
    filtered = Returns l ->
    Reporter.high_conf (Reporter.sorted_by_confidence l)
    ++ Reporter.medium_conf (Reporter.sorted_by_confidence l)
    ++ Reporter.low_conf (Reporter.sorted_by_confidence l)
    = Reporter.sorted_by_confidence l
    /\ (length (Reporter.high_conf (Reporter.sorted_by_confidence l))
        + length (Reporter.medium_conf (Reporter.sorted_by_confidence l))
        + length (Reporter.low_conf (Reporter.sorted_by_confidence l))
        = length l)%nat.
Proof.
  intros l H. destruct (filtered_shape H) as [found [_ [Hall Hl]]].
  assert (Hn : Forall numbered l).
  { subst l. apply Forall_forall. intros e He. apply filter_In in He.
    destruct He as [He _]. rewrite Merger.dedup_is_dedup_from in He.
    apply Merger.dedup_from_In in He. destruct He as [He _].
    apply FloatOrder.within_bounds_number.
    exact (proj1 (Forall_forall _ _) (collected_within_bounds Hall) e He). }
  assert (Hgroups :
           Reporter.high_conf (Reporter.sorted_by_confidence l)
           ++ Reporter.medium_conf (Reporter.sorted_by_confidence l)
           ++ Reporter.low_conf (Reporter.sorted_by_confidence l)
           = Reporter.sorted_by_confidence l).
  { apply Reports.groups_of_descending;
      [|apply Reports.sorted_descending; exact Hn].
    eapply Permutation_Forall; [apply Reports.sorted_Permutation | exact Hn]. }
  split; [exact Hgroups|].
  rewrite (Permutation_length (Reports.sorted_Permutation l)).
  rewrite <- Hgroups at 4. rewrite !length_app. lia.
Qed.

End Scan.

(** X21. A threshold that is not a number passes the range check of the
    arguments, and the scan then returns no endpoint, whatever was found. *)
Theorem nan_threshold_is_accepted_and_drops_everything :
  forall args_confidence_threshold,
    number args_confidence_threshold = false ->
    Main.threshold_rejected args_confidence_threshold = false
    /\ forall urljoin url_origin re_search re_findall re_findall2
              BeautifulSoup fromstring as_completed authenticated page
              auth_get head scan_head get args_url args_scan_common_paths
              args_include_swagger args_verbose l,
         Main.filtered_endpoints urljoin url_origin re_search re_findall
           re_findall2 BeautifulSoup fromstring as_completed authenticated
           page auth_get head scan_head get args_url args_scan_common_paths
           args_include_swagger args_confidence_threshold args_verbose
         = Returns l ->
         l = [].
Proof.
  intros t Ht. split.
  - unfold Main.threshold_rejected.
    destruct (@FloatOrder.leb_not_number t 0.0 Ht) as [_ [_ [-> _]]].
    destruct (@FloatOrder.leb_not_number t 1.0 Ht) as [_ [_ [_ ->]]].
    reflexivity.
  - intros urljoin url_origin re_search re_findall re_findall2 BeautifulSoup
           fromstring as_completed authenticated page auth_get head scan_head
           get args_url args_scan_common_paths args_include_swagger
           args_verbose l H.
    apply filtered_shape in H. destruct H as [found [_ [_ ->]]].
    apply Reports.filter_none. apply Forall_forall. intros e _.
    exact (proj1 (@FloatOrder.leb_not_number t (confidence e) Ht)).
Qed.

Lemma filtered_endpoints_distinct_and_above_threshold_witness :
  NoDup (map key_of Examples.catalog_kept)
  /\ Forall (fun ep => PrimFloat.leb 0.7 (confidence ep) = true)
            Examples.catalog_kept
  /\ exists found,
       discover_endpoints Examples.host_join Examples.site_origin
         Examples.no_search Examples.fetch_findall Examples.no_findall2
         "https://x.test" false (Response Examples.ok_html) Examples.timeouts
         Examples.answers (fun _ => Examples.shop_page) false
       = Returns found
       /\ forall ep,
            In ep Examples.catalog_kept ->
            In ep (found
                   ++ scanner_endpoints (@rev _) Examples.host
                        Examples.catalog_server Examples.sitemap_parser
                        "https://x.test" true true).
Proof.
  exact (@filtered_endpoints_distinct_and_above_threshold
           Examples.host_join Examples.site_origin Examples.no_search
           Examples.fetch_findall Examples.no_findall2
           (fun _ => Examples.shop_page) Examples.sitemap_parser (@rev _)
           false (Response Examples.ok_html) Examples.timeouts
           Examples.answers Examples.host Examples.catalog_server
           "https://x.test" true true 0.7%float false Examples.catalog_kept
           eq_refl).
Defined.

(** The Swagger document declares POST on /api/v2/users with confidence 1.0;
    the form of the page was found first with 0.6, so at the threshold 0.7
    the scan returns no POST endpoint. *)
Lemma discovered_endpoints_take_precedence_witness :
  exists rest,
    Examples.catalog_kept
    = filter (fun ep => PrimFloat.leb 0.7 (confidence ep))
             Examples.shop_result
      ++ rest
    /\ forall ep,
         In ep rest ->
         In ep (scanner_endpoints (@rev _) Examples.host
                  Examples.catalog_server Examples.sitemap_parser
                  "https://x.test" true true)
         /\ ~ In (key_of ep) (map key_of Examples.shop_result).
Proof.
  exact (@discovered_endpoints_take_precedence
           Examples.host_join Examples.site_origin Examples.no_search
           Examples.fetch_findall Examples.no_findall2
           (fun _ => Examples.shop_page) Examples.sitemap_parser (@rev _)
           false (Response Examples.ok_html) Examples.timeouts
           Examples.answers Examples.host Examples.catalog_server
           "https://x.test" true true 0.7%float false Examples.shop_result
           Examples.catalog_kept eq_refl eq_refl).
Defined.

Lemma scan_confidences_within_bounds_witness :
  Forall (fun e =>
            within_bounds (confidence e) = true
            /\ number (confidence e) = true) Examples.catalog_all.
Proof.
  exact (@scan_confidences_within_bounds
           Examples.host_join Examples.site_origin Examples.no_search
           Examples.fetch_findall Examples.no_findall2
           (fun _ => Examples.shop_page) Examples.sitemap_parser (@rev _)
           false (Response Examples.ok_html) Examples.timeouts
           Examples.answers Examples.host Examples.catalog_server
           "https://x.test" true true false
           (fun l => Permutation_rev l) Examples.catalog_all eq_refl).
Defined.

(** At the default threshold the scan returns the merge of everything it
    collected. *)
Lemma low_threshold_filters_nothing_witness :
  Examples.catalog_scan 0.0
  = Returns (_deduplicate_endpoints Examples.catalog_all).
Proof.
  exact (@low_threshold_filters_nothing
           Examples.host_join Examples.site_origin Examples.no_search
           Examples.fetch_findall Examples.no_findall2
           (fun _ => Examples.shop_page) Examples.sitemap_parser (@rev _)
           false (Response Examples.ok_html) Examples.timeouts
           Examples.answers Examples.host Examples.catalog_server
           "https://x.test" true true 0.0%float false
           (fun l => Permutation_rev l) Examples.catalog_all eq_refl eq_refl).
Defined.

Lemma report_groups_cover_the_scan_witness :
  Reporter.high_conf (Reporter.sorted_by_confidence Examples.catalog_kept)
  ++ Reporter.medium_conf (Reporter.sorted_by_confidence Examples.catalog_kept)
  ++ Reporter.low_conf (Reporter.sorted_by_confidence Examples.catalog_kept)
  = Reporter.sorted_by_confidence Examples.catalog_kept
  /\ (length (Reporter.high_conf
                (Reporter.sorted_by_confidence Examples.catalog_kept))
      + length (Reporter.medium_conf
                  (Reporter.sorted_by_confidence Examples.catalog_kept))
      + length (Reporter.low_conf
                  (Reporter.sorted_by_confidence Examples.catalog_kept))
      = length Examples.catalog_kept)%nat.
Proof.
  exact (@report_groups_cover_the_scan
           Examples.host_join Examples.site_origin Examples.no_search
           Examples.fetch_findall Examples.no_findall2
           (fun _ => Examples.shop_page) Examples.sitemap_parser (@rev _)
           false (Response Examples.ok_html) Examples.timeouts
           Examples.answers Examples.host Examples.catalog_server
           "https://x.test" true true 0.7%float false
           (fun l => Permutation_rev l) Examples.catalog_kept eq_refl).
Defined.

Lemma nan_threshold_is_accepted_and_drops_everything_witness :
  Main.threshold_rejected PrimFloat.nan = false
  /\ forall urljoin url_origin re_search re_findall re_findall2
            BeautifulSoup fromstring as_completed authenticated page
            auth_get head scan_head get args_url args_scan_common_paths
            args_include_swagger args_verbose l,
       Main.filtered_endpoints urljoin url_origin re_search re_findall
         re_findall2 BeautifulSoup fromstring as_completed authenticated
         page auth_get head scan_head get args_url args_scan_common_paths
         args_include_swagger PrimFloat.nan args_verbose
       = Returns l ->
       l = [].
Proof.
  exact (@nan_threshold_is_accepted_and_drops_everything PrimFloat.nan
           eq_refl).
Defined.

Example nan_threshold_on_the_catalog :
  Examples.catalog_scan PrimFloat.nan = Returns [].
Proof. reflexivity. Qed.

Example catalog_collected_run :
  match Examples.catalog_collected with
  | Returns all =>
      map (fun e => (url e, method e, source e, confidence e)) all
  | Raises _ => []
  end
  = [("https://x.test/api/v2/users", "GET", "javascript", 1.0);
     ("https://x.test/api/v2/users", "POST", "html_form", 0.6);
     ("https://x.test/rest", "GET", "path_scan", 0.5);
     ("https://x.test/api", "GET", "path_scan", 0.8);
     ("https://x.test/swagger.json", "GET", "swagger_docs", 0.9);
     ("https://x.test/api/v2/users", "GET", "swagger_spec", 1.0);
     ("https://x.test/api/v2/users", "POST", "swagger_spec", 1.0);
     ("https://x.test/api/private", "GET", "robots_txt", 0.6);
     ("https://cdn.example.org/api/v1/items", "GET", "sitemap", 0.7)]%string%float.
Proof. reflexivity. Qed.

Example catalog_scan_run :
  Examples.catalog_scan 0.7 = Returns Examples.catalog_kept.
Proof. reflexivity. Qed.

End Pipeline.

(** ** The sessions of a run and the logins of auth.py *)
Module Sessions.

Import Auth.

Section Store.

Variable Session : Type.
Variable new_session : Session.
Variable headers_update : Session -> json -> Session * py unit.
Variable cookies_set : Session -> string -> json -> Session * py unit.

Local Abbreviation at_ := (session_at new_session).

Lemma write_length :
  forall (st : store Session) a s, length (write st a s) = length st.
Proof.
  induction st as [|x rest IH]; intros a s; [reflexivity|].
  destruct a; cbn; [reflexivity | rewrite IH; reflexivity].
Qed.




(** *** login_spond_token *)

Variable urljoin : string -> string -> py string.
Variable url_origin : string -> py string.

Lemma test_token_returns :
  forall get api_base endpoints i,
    (forall endpoint,
        In endpoint endpoints ->
        exists u, urljoin api_base endpoint = Returns u) ->
    exists b, test_token urljoin get api_base i endpoints = Returns b.
Proof.
  intros get api_base. induction endpoints as [|endpoint rest IH];
    intros i H; cbn [test_token]; [eauto|].
  destruct (H endpoint (or_introl eq_refl)) as [u ->]. cbn [bind].
  assert (Hrest : exists b,
             test_token urljoin get api_base (S i) rest = Returns b).
  { apply IH. intros e He. apply H. right. exact He. }
  destruct (get i u) as [response|]; [|exact Hrest].
  destruct (status_code response =? 200)%Z; [eauto | exact Hrest].
Qed.

(** X23. A token login never depends on what the server answers: when the
    header update and the two URL functions return, it returns [True] and
    leaves the authenticator authenticated, whether a probe was answered
    with 200, every probe with 401, or every request failed. *)
Theorem token_login_succeeds_whatever_the_answers :
  forall get self token base_url st api_base,
    snd (headers_update
           (at_ st (session self))
           (JObject (dict_set "Authorization" (JString ("Bearer " ++ token))
                              (auth_headers self))))
    = Returns tt ->
    url_origin base_url = Returns api_base ->
    (forall endpoint,
        In endpoint test_endpoints ->
        exists u, urljoin api_base endpoint = Returns u) ->
    fst (fst (login_spond_token new_session headers_update urljoin
                url_origin get self token base_url st)) = true
    /\ is_authenticated
         (snd (fst (login_spond_token new_session headers_update urljoin
                      url_origin get self token base_url st))) = true.
Proof.
  intros get self token base_url st api_base Hupdate Horigin Hjoin.
  unfold login_spond_token. cbn [session auth_headers].
  destruct (headers_update
              (at_ st (session self))
              (JObject (dict_set "Authorization"
                                 (JString ("Bearer " ++ token))
                                 (auth_headers self)))) as [s updated].
  cbn [snd] in Hupdate. subst updated. rewrite Horigin. cbn [bind].
  destruct (@test_token_returns get api_base test_endpoints 0 Hjoin)
    as [b ->].
  split; reflexivity.
Qed.

End Store.


Example cookie_login_then_discovery :
  Examples.logged_in
  = (Some (mkAuthenticator 0 true []),
     [([], [("session_id", JString "abc123")])])
  /\ map (session_at Examples.plain_new Examples.sessions_of_the_run)
         (map (session_of Examples.cookie_discovery)
              [page_fetch; validation_probe; scanner_request;
               authenticated_probe])
     = [([("User-Agent", JString "APIHunter/1.0 (API Discovery Tool)")], []);
        ([("User-Agent", JString "APIHunter/1.0 (API Discovery Tool)")], []);
        ([("User-Agent", JString "APIHunter/1.0 (API Discovery Tool)")], []);
        ([], [("session_id", JString "abc123")])].
Proof. split; reflexivity. Qed.

(** A token login against a server that answers every probe with 401. *)
Lemma token_login_succeeds_whatever_the_answers_witness :
  fst (fst (login_spond_token Examples.plain_new Examples.plain_headers_update
              Examples.host_join Examples.site_origin
              Examples.all_unauthorized (new_Authenticator 0) "expired"
              "https://x.test/home" [Examples.plain_new])) = true
  /\ is_authenticated
       (snd (fst (login_spond_token Examples.plain_new
                    Examples.plain_headers_update Examples.host_join
                    Examples.site_origin Examples.all_unauthorized
                    (new_Authenticator 0) "expired" "https://x.test/home"
                    [Examples.plain_new]))) = true.
Proof.
  apply (@token_login_succeeds_whatever_the_answers
           Examples.plain_session Examples.plain_new
           Examples.plain_headers_update Examples.host_join
           Examples.site_origin Examples.all_unauthorized
           (new_Authenticator 0) "expired" "https://x.test/home"
           [Examples.plain_new] "https://x.test" eq_refl eq_refl).
  intros endpoint _. eexists. reflexivity.
Defined.

End Sessions.
